(** * tipgstac: route overrides for a PgSTAC backend

  A shallow embedding of [tipgstac/settings.py] and [tipgstac/factory.py]
  and the properties of the handlers [items], [item], [get_search] and
  [post_search].

  Conventions.
  - A Python [str] is represented by its UTF-8 encoding, a [string] of
    bytes.  [str.split], [str.strip], [str.join], [re.match] and
    [urllib.parse.quote_plus] are written on that encoding.
  - A Python [dict] is an association list in insertion order; the
    operations below keep the keys unique, as Python does.
  - A handler is a computation that may raise and that records the calls
    it makes to the backend.
  - A generator is the list of the computations of its values: the handler
    that returns it in a streaming response does not run them, [list(...)]
    does. *)

From Stdlib Require Import List String Ascii ZArith Bool Lia.
From stdpp Require Import base gmap strings list.
Import ListNotations.
Open Scope string_scope.

(** ** Python [str] operations *)

Module PyStr.

Definition byte (n : nat) : ascii := ascii_of_nat n.

Definition str1 (c : ascii) : string := String c EmptyString.

(** The line feed. *)
Definition LF : ascii := byte 10.

(** [s.split(sep)] for a one-character separator: never the empty list. *)
Fixpoint split (sep : ascii) (s : string) : list string :=
  match s with
  | EmptyString => [EmptyString]
  | String c s' =>
      if Ascii.eqb c sep then EmptyString :: split sep s'
      else match split sep s' with
           | [] => [str1 c]
           | w :: ws => String c w :: ws
           end
  end.

(** [sep.join(parts)]. *)
Definition join (sep : string) (parts : list string) : string :=
  String.concat sep parts.

(** [s.partition(sep)], used for [s.split(sep, 1)]: the text before the
    first separator and, when there is one, the text after it. *)
Fixpoint partition (sep : ascii) (s : string) : string * option string :=
  match s with
  | EmptyString => (EmptyString, None)
  | String c s' =>
      if Ascii.eqb c sep then (EmptyString, Some s')
      else let '(a, b) := partition sep s' in (String c a, b)
  end.

(** [s.replace(a, b)] for single characters. *)
Fixpoint replace (a b : ascii) (s : string) : string :=
  match s with
  | EmptyString => EmptyString
  | String c s' => String (if Ascii.eqb c a then b else c) (replace a b s')
  end.

Fixpoint rev_onto (s acc : string) : string :=
  match s with
  | EmptyString => acc
  | String c s' => rev_onto s' (String c acc)
  end.

Definition rev (s : string) : string := rev_onto s EmptyString.

(** The one-byte characters for which [str.isspace] holds:
    U+0009..U+000D, U+001C..U+001F and U+0020. *)
Definition isspace1 (c : ascii) : bool :=
  let n := nat_of_ascii c in
  (((9 <=? n) && (n <=? 13)) || ((28 <=? n) && (n <=? 31)) || (n =? 32))%nat.

(** The two-byte ones: U+0085 and U+00A0. *)
Definition isspace2 (c1 c2 : ascii) : bool :=
  ((nat_of_ascii c1 =? 194)
   && ((nat_of_ascii c2 =? 133) || (nat_of_ascii c2 =? 160)))%nat.

(** The three-byte ones: U+1680, U+2000..U+200A, U+2028, U+2029, U+202F,
    U+205F and U+3000. *)
Definition isspace3 (c1 c2 c3 : ascii) : bool :=
  let n1 := nat_of_ascii c1 in
  let n2 := nat_of_ascii c2 in
  let n3 := nat_of_ascii c3 in
  (((n1 =? 225) && (n2 =? 154) && (n3 =? 128))
   || ((n1 =? 226) && (n2 =? 128)
       && (((128 <=? n3) && (n3 <=? 138)) || (n3 =? 168) || (n3 =? 169)
           || (n3 =? 175)))
   || ((n1 =? 226) && (n2 =? 129) && (n3 =? 159))
   || ((n1 =? 227) && (n2 =? 128) && (n3 =? 128)))%nat.

(** The text after its leading characters of a class that is given by
    tests on the one-, two- and three-byte encodings. *)
Fixpoint skip (p1 : ascii -> bool) (p2 : ascii -> ascii -> bool)
    (p3 : ascii -> ascii -> ascii -> bool) (s : string) : string :=
  match s with
  | EmptyString => EmptyString
  | String c1 r1 =>
      if p1 c1 then skip p1 p2 p3 r1
      else match r1 with
           | EmptyString => s
           | String c2 r2 =>
               if p2 c1 c2 then skip p1 p2 p3 r2
               else match r2 with
                    | EmptyString => s
                    | String c3 r3 =>
                        if p3 c1 c2 c3 then skip p1 p2 p3 r3 else s
                    end
           end
  end.

(** [s.lstrip()]. *)
Definition lstrip (s : string) : string := skip isspace1 isspace2 isspace3 s.

(** [lstrip] on the reversed text: a character's bytes come last first. *)
Definition lstrip_rev (s : string) : string :=
  skip isspace1 (fun c1 c2 => isspace2 c2 c1)
       (fun c1 c2 c3 => isspace3 c3 c2 c1) s.

(** [s.rstrip()]. *)
Definition rstrip (s : string) : string := rev (lstrip_rev (rev s)).

(** [s.strip()]. *)
Definition strip (s : string) : string := rstrip (lstrip s).

(** Truthiness of a [str]. *)
Definition truthy (s : string) : bool :=
  match s with EmptyString => false | String _ _ => true end.

End PyStr.

(** ** [urllib.parse]: [quote_plus], [urlencode], [unquote_plus], [parse_qsl] *)

Module Urllib.
Import PyStr.

(** The bytes [quote] never escapes: letters, digits and [_.-~]. *)
Definition always_safe (c : ascii) : bool :=
  let n := nat_of_ascii c in
  (((65 <=? n) && (n <=? 90)) || ((97 <=? n) && (n <=? 122))
   || ((48 <=? n) && (n <=? 57))
   || (n =? 95) || (n =? 46) || (n =? 45) || (n =? 126))%nat.

Definition hex_digit (n : nat) : ascii :=
  if (n <? 10)%nat then ascii_of_nat (48 + n) else ascii_of_nat (55 + n).

(** The two digits of ['%{:02X}'.format(b)]. *)
Definition hex_hi (c : ascii) : ascii := hex_digit (nat_of_ascii c / 16).
Definition hex_lo (c : ascii) : ascii := hex_digit (nat_of_ascii c mod 16).

(** [quote_plus(s)]: a space becomes [+], a safe byte stays, any other
    byte of the UTF-8 encoding becomes [%XX]. *)
Fixpoint quote_plus (s : string) : string :=
  match s with
  | EmptyString => EmptyString
  | String c s' =>
      if Ascii.eqb c " " then String "+" (quote_plus s')
      else if always_safe c then String c (quote_plus s')
      else String "%" (String (hex_hi c) (String (hex_lo c) (quote_plus s')))
  end.

(** [urlencode(pairs)]. *)
Definition urlencode (pairs : list (string * string)) : string :=
  join "&" (map (fun kv => quote_plus (fst kv) ++ "=" ++ quote_plus (snd kv))
                pairs).

Definition hex_value (c : ascii) : option nat :=
  let n := nat_of_ascii c in
  if ((48 <=? n) && (n <=? 57))%nat then Some (n - 48)
  else if ((65 <=? n) && (n <=? 70))%nat then Some (n - 55)
  else if ((97 <=? n) && (n <=? 102))%nat then Some (n - 87)
  else None.

(** [unquote(s)]: [%XX] with two hex digits is one byte, any other [%]
    stays.  Python decodes the bytes as UTF-8 and puts U+FFFD for a
    sequence that is not UTF-8; here such bytes stay as they are, so that
    the two agree on every text whose escapes spell UTF-8. *)
Fixpoint unquote (s : string) : string :=
  match s with
  | EmptyString => EmptyString
  | String c r =>
      if Ascii.eqb c "%" then
        match r with
        | String h (String l r') =>
            match hex_value h, hex_value l with
            | Some a, Some b => String (ascii_of_nat (16 * a + b)) (unquote r')
            | _, _ => String c (unquote r)
            end
        | _ => String c (unquote r)
        end
      else String c (unquote r)
  end.

(** [unquote_plus(s)]. *)
Definition unquote_plus (s : string) : string := unquote (replace "+" " " s).

(** [parse_qsl(qs, keep_blank_values=True)]. *)
Definition parse_qsl (qs : string) : list (string * string) :=
  flat_map
    (fun name_value =>
       if truthy name_value then
         let '(n, v) := partition "=" name_value in
         [(unquote_plus n, unquote_plus (default EmptyString v))]
       else [])
    (split "&" qs).

End Urllib.

(** ** Python [dict]: insertion-ordered, one entry per key *)

Module PyDict.
Section Dict.
Context {V : Type}.

Definition dict := list (string * V).

(** [d[k] = v]: overwrite in place, or append. *)
Fixpoint set (k : string) (v : V) (d : dict) : dict :=
  match d with
  | [] => [(k, v)]
  | (k', v') :: d' =>
      if String.eqb k k' then (k, v) :: d' else (k', v') :: set k v d'
  end.

(** [d.get(k)]. *)
Fixpoint get (k : string) (d : dict) : option V :=
  match d with
  | [] => None
  | (k', v') :: d' => if String.eqb k k' then Some v' else get k d'
  end.

(** [k in d]. *)
Definition mem (k : string) (d : dict) : bool :=
  match get k d with Some _ => true | None => false end.

(** [del d[k]]. *)
Fixpoint remove (k : string) (d : dict) : dict :=
  match d with
  | [] => []
  | (k', v') :: d' =>
      if String.eqb k k' then d' else (k', v') :: remove k d'
  end.

(** [{**d, **items}], and [d.update(items)]. *)
Definition update (d : dict) (items : list (string * V)) : dict :=
  fold_left (fun acc kv => set (fst kv) (snd kv) acc) items d.

(** [{k: v for k, v in items}] and [dict(items)]. *)
Definition of_items (items : list (string * V)) : dict := update [] items.

(** [{k: v for k, v in d.items() if keep(v)}]. *)
Definition filter_values (keep : V -> bool) (d : dict) : dict :=
  List.filter (fun kv => keep (snd kv)) d.

Definition keys (d : dict) : list string := map fst d.

End Dict.
Arguments dict : clear implicits.
End PyDict.

(** ** Python values, exceptions and handlers *)

(** A [float] is only passed on by the handlers: [mantissa * 2 ^ exponent]. *)
Record pyfloat := { mantissa : Z; exponent : Z }.

(** The Python values the handlers build and receive.  A [set] here only
    ever holds strings. *)
#[warnings="-register-all"]
Inductive pyval :=
| PNone
| PBool (b : bool)
| PInt (z : Z)
| PFloat (x : pyfloat)
| PStr (s : string)
| PList (l : list pyval)
| PTuple (l : list pyval)
| PSet (s : gset string)
| PDict (d : list (string * pyval)).

Abbreviation pydict := (PyDict.dict pyval).

(** [v is not None]. *)
Definition is_not_None (v : pyval) : bool :=
  match v with PNone => false | _ => true end.

(** [v != []]. *)
Definition ne_empty_list (v : pyval) : bool :=
  match v with PList [] => false | _ => true end.

(** An [Optional[str]] and an [Optional[List[str]]] as values. *)
Definition of_opt_str (o : option string) : pyval :=
  match o with Some s => PStr s | None => PNone end.

Definition of_opt_strs (o : option (list string)) : pyval :=
  match o with Some l => PList (map PStr l) | None => PNone end.

Definition of_opt_floats (o : option (list pyfloat)) : pyval :=
  match o with Some l => PList (map PFloat l) | None => PNone end.

(** [d.get(k)] and [d.get(k, dflt)] on a value dictionary. *)
Definition dget (k : string) (d : pydict) : pyval :=
  default PNone (PyDict.get k d).

Definition dget_or (k : string) (dflt : pyval) (d : pydict) : pyval :=
  default dflt (PyDict.get k d).

(** The exceptions of [tipg.errors] and the built-in ones that the handlers
    can raise; [BackendError] stands for whatever the data layer raises. *)
Inductive exn :=
| NoPrimaryKey (msg : string)
| NotFound (msg : string)
| InvalidDatetime (msg : string)
| KeyError (key : string)
| TypeError (msg : string)
| ValueError (msg : string)
| ValidationError (msg : string)
| BackendError (msg : string).

Inductive result (A : Type) :=
| Ok (a : A)
| Raise (e : exn).
Arguments Ok {A} a.
Arguments Raise {A} e.

#[export] Instance result_ret : MRet result := fun A a => Ok a.
#[export] Instance result_bind : MBind result :=
  fun A B f m => match m with Ok a => f a | Raise e => Raise e end.

(** [type(v).__name__]. *)
Definition type_name (v : pyval) : string :=
  match v with
  | PNone => "NoneType"
  | PBool _ => "bool"
  | PInt _ => "int"
  | PFloat _ => "float"
  | PStr _ => "str"
  | PList _ => "list"
  | PTuple _ => "tuple"
  | PSet _ => "set"
  | PDict _ => "dict"
  end.

(** [**v] in a dict display: [v] must be a mapping. *)
Definition mapping (v : pyval) : result pydict :=
  match v with
  | PDict d => Ok d
  | _ => Raise (TypeError ("'" ++ type_name v ++ "' object is not a mapping"))
  end.

(** A generator, as the one that iterates it sees it: the computations of
    its values, which are run one after the other while it is iterated and
    not before; the first that raises ends the iteration. *)
Definition generator (A : Type) : Type := list (result A).

(** [(g(x) for x in l)]. *)
Definition gen {X A : Type} (g : X -> result A) (l : list X) : generator A :=
  map g l.

(** [iter(l)], and a generator over values that are there already. *)
Definition iter {A : Type} (l : list A) : generator A := map Ok l.

(** [list(rows)]: the values, or the first failure. *)
Definition list_of {A : Type} (rows : generator A) : result (list A) :=
  mapM (fun r => r) rows.

(** [d.pop(k)] without a default. *)
Definition dict_pop {V} (k : string) (d : PyDict.dict V)
    : result (PyDict.dict V) :=
  if PyDict.mem k d then Ok (PyDict.remove k d) else Raise (KeyError k).

(** ** [tipgstac/settings.py] *)

Module Settings.
Import PyStr.

(** What the environment ([TIPG_STAC_*] variables, then [.env]) provides
    for each field, after pydantic's parsing to the field's type. *)
Record Env := {
  env_name : option string;
  env_debug : option bool;
  env_cors_origins : option string;
  env_cachecontrol : option string;
  env_template_directory : option string }.

Definition empty_env : Env :=
  {| env_name := None; env_debug := None; env_cors_origins := None;
     env_cachecontrol := None; env_template_directory := None |}.

Record APISettings := {
  name : string;
  debug : bool;
  cors_origins : list string;
  cachecontrol : string;
  template_directory : option string }.

(** [parse_cors_origin], the validator of [cors_origins]. *)
Definition parse_cors_origin (v : string) : list string :=
  map strip (split "," v).

(** [APISettings()]: each field from the environment or its default, the
    validator applied to [cors_origins] (defaults are validated too). *)
Definition load (env : Env) : APISettings :=
  {| name := default "TiPg STAC: Use PgSTAC as backend" (env_name env);
     debug := default false (env_debug env);
     cors_origins := parse_cors_origin (default "*" (env_cors_origins env));
     cachecontrol := default "public, max-age=3600" (env_cachecontrol env);
     template_directory := env_template_directory env |}.

End Settings.

(** ** [tipgstac/factory.py]: data *)

(** The members of [MediaType] that [ItemsOutputType] can select. *)
Inductive MediaType := geojson | html | csv | json | geojsonseq | ndjson.

Definition MediaType_eqb (a b : MediaType) : bool :=
  match a, b with
  | geojson, geojson | html, html | csv, csv | json, json
  | geojsonseq, geojsonseq | ndjson, ndjson => true
  | _, _ => false
  end.

(** [output_type in (MediaType.csv, MediaType.json, MediaType.ndjson)]. *)
Definition flat_output (t : MediaType) : bool :=
  existsb (MediaType_eqb t) [csv; json; ndjson].

(** [output_type not in [MediaType.geojson, MediaType.geojsonseq,
    MediaType.html]]. *)
Definition wkt_output (t : MediaType) : bool :=
  negb (existsb (MediaType_eqb t) [geojson; geojsonseq; html]).

(** A [PgSTACCollection], as far as the handlers read it. *)
Record PgSTACCollection := {
  id : string;
  title : option string;
  description : option string;
  id_column : option string }.

(** The envelope returned by the data layer. *)
Record ItemList := {
  items_of : list pydict;
  matched : pyval;
  next : option string;
  prev : option string }.

(** [starlette.datastructures.QueryParams]: the list of all pairs
    ([_list], what [str()] encodes); the mapping view ([_dict]: [keys()],
    [__getitem__], [__len__]) keeps the last value of each key. *)
Definition QueryParams := list (string * string).

Definition qp_dict (q : QueryParams) : PyDict.dict string := PyDict.of_items q.

(** [QueryParams(d)] for a dict [d]. *)
Definition qp_of_dict (d : PyDict.dict string) : QueryParams := d.

Definition qp_str (q : QueryParams) : string := Urllib.urlencode q.

Definition qp_truthy (q : QueryParams) : bool :=
  match qp_dict q with [] => false | _ :: _ => true end.

Record Request := { query_params : QueryParams }.

(** The iterator given to a [StreamingResponse]: the generator of
    [create_csv_rows(rows)], or a generator of the lines
    [orjsonDumps(doc) + b"\n"].  Neither is run by the handler. *)
Inductive Body :=
| create_csv_rows (rows : generator pydict)
| orjson_lines (docs : generator pyval).

(** [(orjsonDumps(row) + b"\n" for row in rows)]. *)
Definition lines (rows : generator pydict) : generator pyval :=
  gen (fun r => row ← r; mret (PDict row)) rows.

Inductive Response :=
| StreamingResponse (content : Body) (media_type : MediaType)
                    (content_disposition : string)
| ORJSONResponse (content : pyval)
| HTMLResponse (data : pyval) (template_name : string)
| GeoJSONResponse (data : pyval).

(** [x or y] on optional strings. *)
Definition str_or (x : option string) (y : string) : string :=
  match x with
  | Some s => if PyStr.truthy s then s else y
  | None => y
  end.

(** The keyword arguments of [collection.features]; [None] is Python's
    [None], also for an argument that is left out. *)
Record FeaturesArgs {AstType : Type} := {
  ids_filter : option (list string);
  bbox_filter : option (list pyfloat);
  datetime_filter : option (list string);
  cql_filter : option AstType;
  sortby : option string;
  properties : option (list string);
  limit : option Z;
  token : option string;
  bbox_only : option bool;
  simplify : option pyfloat;
  geom_as_wkt : bool;
  query : option string }.
Arguments FeaturesArgs : clear implicits.

(** The calls a handler makes to the data layer. *)
Inductive Call {AstType PgSTACSearch : Type} :=
| CallFeatures (c : PgSTACCollection) (a : FeaturesArgs AstType)
| CallSearch (s : PgSTACSearch).
Arguments Call : clear implicits.

(** A handler: it may raise, and it records its calls. *)
Definition handler (C A : Type) : Type := list C -> result A * list C.

#[export] Instance handler_ret {C} : MRet (handler C) :=
  fun A a tr => (Ok a, tr).
#[export] Instance handler_bind {C} : MBind (handler C) :=
  fun A B f m tr =>
    match m tr with
    | (Ok a, tr') => f a tr'
    | (Raise e, tr') => (Raise e, tr')
    end.

Definition lift {C A} (r : result A) : handler C A := fun tr => (r, tr).
Definition raise {C A} (e : exn) : handler C A := lift (Raise e).
Definition run {C A} (h : handler C A) : result A * list C := h [].

(** A link object. *)
Definition link (title_ href rel type_ : string) : pyval :=
  PDict [("title", PStr title_); ("href", PStr href); ("rel", PStr rel);
         ("type", PStr type_)].

(** [re.match] of a [sortby] term against the pattern of the source: an
    optional sign [+] or [-] (group [direction]), then the longest run of
    characters other than a line feed (group [prop]), then the end of the
    text, which the pattern also accepts before one final line feed.  The
    result is the two groups, or no match. *)
Definition sortby_match (s : string) : option (string * string) :=
  let '(direction, rest) :=
    match s with
    | String c r =>
        if Ascii.eqb c "+" || Ascii.eqb c "-" then (PyStr.str1 c, r)
        else (EmptyString, s)
    | EmptyString => (EmptyString, EmptyString)
    end in
  match PyStr.partition PyStr.LF rest with
  | (prop, None) => Some (direction, prop)
  | (prop, Some EmptyString) => Some (direction, prop)
  | (_, Some (String _ _)) => None
  end.

(** The body of the [sortby] loop: what one term appends to [sort_param]. *)
Definition sort_term (s : string) : list pyval :=
  match sortby_match s with
  | Some (direction, prop) =>
      [PDict [("field", PStr (PyStr.strip prop));
              ("direction",
               PStr (if String.eqb direction "-" then "desc" else "asc"))]]
  | None => []
  end.

(** [for s in sortby.strip().split(","): ...]. *)
Definition sort_param (sortby : string) : list pyval :=
  flat_map sort_term (PyStr.split "," (PyStr.strip sortby)).

(** What the handlers take from their libraries and from the data layer. *)
Class Boundary := {
  (** [pygeofilter.ast.AstType] and [tipgstac.model.PgSTACSearch]. *)
  AstType : Type;
  PgSTACSearch : Type;
  (** [features_settings.default_features_limit]. *)
  default_features_limit : Z;
  (** [self.url_for(request, name, **path_params)]. *)
  url_for : Request -> string -> list (string * pyval) -> string;
  (** [collection.features] and [pgstac_search], the data layer. *)
  collection_features :
    PgSTACCollection -> FeaturesArgs AstType -> result ItemList;
  pgstac_search : PgSTACSearch -> result ItemList;
  (** [PgSTACSearch.model_validate]. *)
  model_validate : pydict -> result PgSTACSearch;
  (** [ciso8601.parse_rfc3339]: the instant, or [ValueError]. *)
  parse_rfc3339 : string -> result Z;
  json_loads : string -> result pyval;
  json_dumps : pyval -> string;
  (** [bool(f)] of a filter: a syntax tree is a Python value, and a
      literal such as [false], [0] or the empty text is falsy. *)
  ast_truthy : AstType -> bool;
  (** [pygeofilter.backends.cql2_json.to_cql2]. *)
  to_cql2 : AstType -> string }.

Section Factory.

Context `{B : Boundary}.

Abbreviation call := (Call AstType PgSTACSearch).
Abbreviation H := (handler call).

(** [await collection.features(pool, ...)]. *)
Definition features (c : PgSTACCollection) (a : FeaturesArgs AstType)
    : H ItemList :=
  fun tr => (collection_features c a, (tr ++ [CallFeatures c a])%list).

(** [await pgstac_search(pool, search=search)]. *)
Definition search_items (s : PgSTACSearch) : H ItemList :=
  fun tr => (pgstac_search s, (tr ++ [CallSearch s])%list).

(** [d[k]]. *)
Definition ditem (k : string) (d : pydict) : result pyval :=
  match PyDict.get k d with
  | Some v => Ok v
  | None => Raise (KeyError k)
  end.

(** One row of the flattened outputs of [items], [get_search] and
    [post_search]:
    [{k: v for k, v in {"collectionId": .., "itemId": f.get("id"),
      **f.get("properties", {}), "geometry": f.get("geometry", None)}.items()
      if v is not None}]. *)
Definition flat_row (collectionId : pyval) (f : pydict) : result pydict :=
  props ← mapping (dget_or "properties" (PDict []) f);
  mret (PyDict.filter_values is_not_None
          (PyDict.set "geometry" (dget_or "geometry" PNone f)
             (PyDict.update
                (PyDict.of_items
                   [("collectionId", collectionId); ("itemId", dget "id" f)])
                props))).

(** The three returns under
    [if output_type in (MediaType.csv, MediaType.json, MediaType.ndjson)]
    of the listing handlers.  [rows] is a generator: the CSV and the NDJSON
    response are returned with it as it is, and it is run while the
    response is written; the JSON response is made of [list(rows)], which
    runs it in the handler. *)
Definition rows_response (output_type : MediaType) (rows : generator pydict)
    : option (result Response) :=
  match output_type with
  | csv =>
      Some (mret (StreamingResponse (create_csv_rows rows) csv
                    "attachment;filename=items.csv"))
  | json =>
      Some (rows ← list_of rows; mret (ORJSONResponse (PList (map PDict rows))))
  | ndjson =>
      Some (mret (StreamingResponse (orjson_lines (lines rows)) ndjson
                    "attachment;filename=items.ndjson"))
  | _ => None
  end.

(** [if next_token := item_list["next"]: ...]: the link appended for a
    truthy token, [url] being the route the link points at. *)
Definition next_link (request : Request) (url : string) (item_list : ItemList)
    : list pyval :=
  match next item_list with
  | Some next_token =>
      if PyStr.truthy next_token then
        let query_params :=
          qp_of_dict
            (PyDict.set "offset" next_token
               (PyDict.of_items (qp_dict (query_params request)))) in
        [PDict [("href", PStr (url ++ "?" ++ qp_str query_params));
                ("rel", PStr "next");
                ("type", PStr "application/geo+json");
                ("title", PStr "Next page")]]
      else []
  | None => []
  end.

(** [if item_list["prev"] is not None: ...]. *)
Definition prev_link (request : Request) (url : string) (item_list : ItemList)
    : result (list pyval) :=
  match prev item_list with
  | Some prev_token =>
      let qp := PyDict.of_items (qp_dict (query_params request)) in
      qp ← dict_pop "offset" qp;
      let query_params :=
        qp_of_dict (PyDict.set "offset" prev_token (PyDict.of_items qp)) in
      let url :=
        if qp_truthy query_params then url ++ "?" ++ qp_str query_params
        else url in
      mret [PDict [("href", PStr url);
                   ("rel", PStr "prev");
                   ("type", PStr "application/geo+json");
                   ("title", PStr "Previous page")]]
  | None => mret []
  end.

(** The two blocks one after the other, as in each listing handler. *)
Definition page_links (request : Request) (url : string) (item_list : ItemList)
    : result (list pyval) :=
  let nxt := next_link request url item_list in
  prv ← prev_link request url item_list;
  mret (nxt ++ prv)%list.

(** The last three returns of the listing handlers. *)
Definition data_response (output_type : MediaType) (data : pydict)
    (template_name filename : string) : Response :=
  match output_type with
  | html => HTMLResponse (PDict data) template_name
  | geojsonseq =>
      StreamingResponse
        (orjson_lines
           (iter (match dget "features" data with PList fs => fs | _ => [] end)))
        geojsonseq ("attachment;filename=" ++ filename)
  | _ => GeoJSONResponse (PDict data)
  end.

(** *** [items]: GET /collections/{collectionId}/items *)

Definition items_feature (request : Request) (collection : PgSTACCollection)
    (feature : pydict) : pyval :=
  PDict
    (PyDict.set "links"
       (PList
          [link "Collection"
                (url_for request "collection"
                         [("collectionId", PStr (id collection))])
                "collection" "application/json";
           link "Item"
                (url_for request "item"
                         [("collectionId", PStr (id collection));
                          ("itemId", dget "id" feature)])
                "item" "application/geo+json"])
       (PyDict.of_items feature)).

(** [items] from the answer of the data layer on. *)
Definition items_response (request : Request) (collection : PgSTACCollection)
    (output_type : MediaType) (item_list : ItemList) : result Response :=
  let rest : result Response :=
    let qs :=
      if qp_truthy (query_params request)
      then "?" ++ qp_str (query_params request) else EmptyString in
    let items_url :=
      url_for request "items" [("collectionId", PStr (id collection))] in
    let links :=
      [link "Collection"
            (url_for request "collection"
                     [("collectionId", PStr (id collection))])
            "collection" "application/json";
       link "Items" (items_url ++ qs) "self" "application/geo+json"] in
    more ← page_links request items_url item_list;
    let links := (links ++ more)%list in
    let data :=
      [("type", PStr "FeatureCollection");
       ("id", PStr (id collection));
       ("title", PStr (str_or (title collection) (id collection)));
       ("description",
        PStr (str_or (description collection)
                (str_or (title collection) (id collection))));
       ("numberMatched", matched item_list);
       ("numberReturned", PInt (Z.of_nat (length (items_of item_list))));
       ("links", PList links);
       ("features",
        PList (map (items_feature request collection) (items_of item_list)))] in
    mret (data_response output_type data "items" "items.geojson") in
  if flat_output output_type then
    let rows := gen (flat_row (PStr (id collection))) (items_of item_list) in
    match rows_response output_type rows with
    | Some r => r
    | None => rest
    end
  else rest.

Definition items (request : Request) (collection : PgSTACCollection)
    (ids_filter : option (list string)) (bbox_filter : option (list pyfloat))
    (datetime_filter : option (list string))
    (properties : option (list string)) (cql_filter : option AstType)
    (sortby query : option string) (limit : Z) (offset : option string)
    (bbox_only : option bool) (simplify : option pyfloat)
    (output_type : option MediaType) : H Response :=
  let output_type := default geojson output_type in
  let geom_as_wkt := wkt_output output_type in
  item_list ←
    features collection
      {| ids_filter := ids_filter; bbox_filter := bbox_filter;
         datetime_filter := datetime_filter; cql_filter := cql_filter;
         sortby := sortby; properties := properties; limit := Some limit;
         token := offset; bbox_only := bbox_only; simplify := simplify;
         geom_as_wkt := geom_as_wkt; query := query |};
  lift (items_response request collection output_type item_list).

(** *** [item]: GET /collections/{collectionId}/items/{itemId} *)

(** [item] from the answer of the data layer on. *)
Definition item_response (request : Request) (collection : PgSTACCollection)
    (itemId : string) (output_type : MediaType) (item_list : ItemList)
    : result Response :=
  match items_of item_list with
  | [] =>
      Raise (NotFound ("Item " ++ itemId ++ " in Collection "
                       ++ id collection ++ " does not exist."))
  | feature :: _ =>
      let rest : result Response :=
        let data :=
          PyDict.set "links"
            (PList
               [PDict [("href",
                        PStr (url_for request "collection"
                                [("collectionId", PStr (id collection))]));
                       ("rel", PStr "collection");
                       ("type", PStr "application/json")];
                PDict [("href",
                        PStr (url_for request "item"
                                [("collectionId", PStr (id collection));
                                 ("itemId", PStr itemId)]));
                       ("rel", PStr "self");
                       ("type", PStr "application/geo+json")]])
            (PyDict.of_items feature) in
        match output_type with
        | html => mret (HTMLResponse (PDict data) "item")
        | _ => mret (GeoJSONResponse (PDict data))
        end in
      if flat_output output_type then
        props ← mapping (dget_or "properties" (PDict []) feature);
        let row :=
          PyDict.update
            (PyDict.of_items
               [("collectionId", PStr (id collection));
                ("itemId", dget "id" feature)])
            props in
        row ←
          (if is_not_None (dget "geometry" feature)
           then g ← ditem "geometry" feature;
                mret (PyDict.set "geometry" (PTuple [g]) row)
           else mret row);
        let rows := iter [row] in
        match output_type with
        | csv =>
            mret (StreamingResponse (create_csv_rows rows) csv
                    "attachment;filename=items.csv")
        | json => mret (ORJSONResponse (PDict row))
        | ndjson =>
            mret (StreamingResponse (orjson_lines (lines rows)) ndjson
                    "attachment;filename=items.ndjson")
        | _ => rest
        end
      else rest
  end.

Definition item (request : Request) (collection : PgSTACCollection)
    (itemId : string) (bbox_only : option bool) (simplify : option pyfloat)
    (properties : option (list string)) (output_type : option MediaType)
    : H Response :=
  match id_column collection with
  | None => raise (NoPrimaryKey "No primary key is set on this table")
  | Some _ =>
      let output_type := default geojson output_type in
      let geom_as_wkt := wkt_output output_type in
      item_list ←
        features collection
          {| ids_filter := Some [itemId]; bbox_filter := None;
             datetime_filter := None; cql_filter := None; sortby := None;
             properties := properties; limit := None; token := None;
             bbox_only := bbox_only; simplify := simplify;
             geom_as_wkt := geom_as_wkt; query := None |};
      lift (item_response request collection itemId output_type item_list)
  end.

(** *** [get_search]: GET /search *)

(** [d not in ["..", ""]] negated: an open end of an interval. *)
Definition open_end (d : string) : bool :=
  String.eqb d ".." || String.eqb d EmptyString.

(** [parse_rfc3339(d) if d not in ["..", ""] else None]. *)
Definition interval_end (d : string) : result (option Z) :=
  if open_end d then mret None else t ← parse_rfc3339 d; mret (Some t).

(** The [if datetime_filter:] block: [None] when the filter is falsy and
    left as it is, the joined text otherwise. *)
Definition search_datetime (datetime_filter : option (list string))
    : result (option string) :=
  match datetime_filter with
  | None | Some [] => mret None
  | Some parts =>
      _ ← match parts with
          | [d0; d1] =>
              start ← interval_end d0;
              end_ ← interval_end d1;
              match start, end_ with
              | None, None =>
                  Raise (InvalidDatetime
                           "Double open-ended datetime intervals are not allowed.")
              | Some s, Some e =>
                  if (e <? s)%Z
                  then Raise (InvalidDatetime
                                "Start datetime cannot be before end datetime.")
                  else mret tt
              | _, _ => mret tt
              end
          | _ => mret tt
          end;
      mret (Some (PyStr.join "/" parts))
  end.

(** [limit or features_settings.default_features_limit]. *)
Definition limit_or_default (limit : Z) : Z :=
  if (limit =? 0)%Z then default_features_limit else limit.

(** [json.loads(unquote_plus(query)) if query else query]. *)
Definition search_query (query : option string) : result pyval :=
  match query with
  | Some q =>
      if PyStr.truthy q then json_loads (Urllib.unquote_plus q)
      else mret (PStr q)
  | None => mret PNone
  end.

(** [base_args], from its display to the [if properties:] block. *)
Definition base_args (collections_filter ids_filter : option (list string))
    (bbox_filter : option (list pyfloat)) (datetime : option string)
    (properties : option (list string)) (cql_filter : option AstType)
    (sortby : option string) (query : pyval) (limit : Z)
    (offset : option string) : result pydict :=
  let base_args :=
    PyDict.of_items
      [("collections", of_opt_strs collections_filter);
       ("ids", of_opt_strs ids_filter);
       ("bbox", of_opt_floats bbox_filter);
       ("limit", PInt (limit_or_default limit));
       ("token", of_opt_str offset);
       ("query", query)] in
  base_args ←
    match cql_filter with
    | Some f =>
        if ast_truthy f then
          v ← json_loads (to_cql2 f);
          mret (PyDict.set "filter-lang" (PStr "cql2-json")
                  (PyDict.set "filter" v base_args))
        else mret base_args
    | None => mret base_args
    end;
  let base_args :=
    match datetime with
    | Some d =>
        if PyStr.truthy d then PyDict.set "datetime" (PStr d) base_args
        else base_args
    | None => base_args
    end in
  let base_args :=
    match sortby with
    | Some s =>
        if PyStr.truthy s
        then PyDict.set "sortby" (PList (sort_param s)) base_args
        else base_args
    | None => base_args
    end in
  let base_args :=
    match properties with
    | Some ((_ :: _) as props) =>
        PyDict.set "fields"
          (PDict [("include", PSet (list_to_set props)); ("exclude", PSet ∅)])
          base_args
    | _ => base_args
    end in
  mret base_args.

(** [clean]: the entries of [base_args] that are neither [None] nor [[]]. *)
Definition clean (base_args : pydict) : pydict :=
  PyDict.filter_values (fun v => is_not_None v && ne_empty_list v) base_args.

(** The request assembled by [get_search], before validation. *)
Definition search_request (collections_filter ids_filter : option (list string))
    (bbox_filter : option (list pyfloat))
    (datetime_filter : option (list string))
    (properties : option (list string)) (cql_filter : option AstType)
    (sortby query : option string) (limit : Z) (offset : option string)
    : result pydict :=
  datetime ← search_datetime datetime_filter;
  q ← search_query query;
  args ← base_args collections_filter ids_filter bbox_filter datetime
         properties cql_filter sortby q limit offset;
  mret (clean args).

(** A feature of the search responses with its links. *)
Definition search_feature (request : Request) (feature : pydict)
    : result pyval :=
  c ← ditem "collection" feature;
  i ← ditem "id" feature;
  mret (PDict
          (PyDict.set "links"
             (PList
                [link "Collection"
                      (url_for request "collection" [("collectionId", c)])
                      "collection" "application/json";
                 link "Item"
                      (url_for request "item"
                               [("collectionId", c); ("itemId", i)])
                      "item" "application/geo+json"])
             (PyDict.of_items feature))).

(** What [get_search] and [post_search] do with the envelope: the two
    handlers have the same text from here on. *)
Definition search_response (request : Request) (output_type : MediaType)
    (item_list : ItemList) : result Response :=
  let rest : result Response :=
    links ← page_links request (url_for request "get_search" []) item_list;
    feats ← mapM (search_feature request) (items_of item_list);
    let data :=
      [("type", PStr "FeatureCollection");
       ("description",
        PStr (json_dumps
                (PDict (map (fun kv => (fst kv, PStr (snd kv)))
                          (PyDict.of_items (qp_dict (query_params request)))))));
       ("numberMatched", matched item_list);
       ("numberReturned", PInt (Z.of_nat (length (items_of item_list))));
       ("links", PList links);
       ("features", PList feats)] in
    mret (data_response output_type data "search" "search.geojson") in
  if flat_output output_type then
    let rows :=
      gen (fun f => flat_row (dget "collection" f) f) (items_of item_list) in
    match rows_response output_type rows with
    | Some r => r
    | None => rest
    end
  else rest.

Definition get_search (request : Request)
    (collections_filter ids_filter : option (list string))
    (bbox_filter : option (list pyfloat))
    (datetime_filter : option (list string))
    (properties : option (list string)) (cql_filter : option AstType)
    (sortby query : option string) (limit : Z) (offset : option string)
    (bbox_only : option bool) (simplify : option pyfloat)
    (output_type : option MediaType) : H Response :=
  let output_type := default geojson output_type in
  args ← lift (search_request collections_filter ids_filter bbox_filter
                 datetime_filter properties cql_filter sortby query limit
                 offset);
  search ← lift (model_validate args);
  item_list ← search_items search;
  lift (search_response request output_type item_list).

(** *** [post_search]: POST /search *)

Definition post_search (request : Request) (search : PgSTACSearch)
    (output_type : option MediaType) : H Response :=
  let output_type := default geojson output_type in
  item_list ← search_items search;
  lift (search_response request output_type item_list).

End Factory.

(** ** Reference instances of the boundary

    Small executable stand-ins for what the handlers take from their
    libraries and from the data layer; the examples after the main section
    run the handlers on them. *)

Module Reference.

Definition digit (c : ascii) : option Z :=
  let n := nat_of_ascii c in
  if ((48 <=? n) && (n <=? 57))%nat then Some (Z.of_nat (n - 48)) else None.

Fixpoint number (acc : Z) (cs : list ascii) : option Z :=
  match cs with
  | [] => Some acc
  | c :: cs' => d ← digit c; number (10 * acc + d) cs'
  end.

(** Days from 1970-01-01 to the given civil date. *)
Definition days_from_civil (y m d : Z) : Z :=
  let y' := (if m <=? 2 then y - 1 else y)%Z in
  let era := (y' / 400)%Z in
  let yoe := (y' - era * 400)%Z in
  let mp := ((m + 9) mod 12)%Z in
  let doy := ((153 * mp + 2) / 5 + d - 1)%Z in
  let doe := (yoe * 365 + yoe / 4 - yoe / 100 + doy)%Z in
  (era * 146097 + doe - 719468)%Z.

(** [parse_rfc3339] on the texts [YYYY-MM-DDTHH:MM:SSZ], as seconds since
    the epoch; every other text is refused. *)
Definition utc_seconds (s : string) : result Z :=
  match list_ascii_of_string s with
  | [y1; y2; y3; y4; "-"; m1; m2; "-"; d1; d2; "T"; h1; h2; ":"; n1; n2; ":";
     s1; s2; "Z"]%char =>
      match number 0 [y1; y2; y3; y4], number 0 [m1; m2], number 0 [d1; d2],
            number 0 [h1; h2], number 0 [n1; n2], number 0 [s1; s2] with
      | Some y, Some m, Some d, Some h, Some n, Some sec =>
          Ok (days_from_civil y m d * 86400 + h * 3600 + n * 60 + sec)%Z
      | _, _, _, _, _, _ => Raise (ValueError "Invalid character")
      end
  | _ => Raise (ValueError "Invalid character")
  end.

(** A [json.loads] that accepts every text as a string value, and the
    matching [json.dumps] of the strings. *)
Definition loads_text (s : string) : result pyval := Ok (PStr s).

Definition dumps_text (v : pyval) : string :=
  match v with PStr s => s | _ => "{}" end.

(** Routes by name under a fixed root, the path parameters appended. *)
Definition route_url (r : Request) (route : string)
    (path_params : list (string * pyval)) : string :=
  fold_left
    (fun acc kv =>
       acc ++ "/" ++ match snd kv with PStr s => s | _ => "None" end)
    path_params ("http://api/" ++ route).

(** The boundary over a given data layer: no filter syntax trees, a search
    model that is the validated dict itself, a default limit of 10. *)
Definition boundary
    (feats : PgSTACCollection -> FeaturesArgs unit -> result ItemList)
    (search : pydict -> result ItemList) : Boundary :=
  {| AstType := unit;
     PgSTACSearch := pydict;
     default_features_limit := 10;
     url_for := route_url;
     collection_features := feats;
     pgstac_search := search;
     model_validate := fun clean => Ok clean;
     parse_rfc3339 := utc_seconds;
     json_loads := loads_text;
     json_dumps := dumps_text;
     ast_truthy := fun _ => true;
     to_cql2 := fun _ => "{}" |}.

Definition one_item : pydict :=
  [("id", PStr "i1"); ("collection", PStr "c1");
   ("properties", PDict [("datetime", PStr "2024-01-01T00:00:00Z");
                         ("title", PNone)]);
   ("geometry", PStr "POINT(0 0)")].

Definition page (nxt prv : option string) : ItemList :=
  {| items_of := [one_item]; matched := PInt 1; next := nxt; prev := prv |}.

(** A data layer that answers every call with the same page. *)
Definition fixed (nxt prv : option string) : Boundary :=
  boundary (fun _ _ => Ok (page nxt prv)) (fun _ => Ok (page nxt prv)).

Definition a_collection : PgSTACCollection :=
  {| id := "c1"; title := None; description := None; id_column := Some "id" |}.

Definition a_table : PgSTACCollection :=
  {| id := "t1"; title := None; description := None; id_column := None |}.

(** A boundary whose filters are the two boolean literals, over a data
    layer that answers every call with the page without tokens. *)
Definition literals : Boundary :=
  {| AstType := bool;
     PgSTACSearch := pydict;
     default_features_limit := 10;
     url_for := route_url;
     collection_features := fun _ _ => Ok (page None None);
     pgstac_search := fun _ => Ok (page None None);
     model_validate := fun clean => Ok clean;
     parse_rfc3339 := utc_seconds;
     json_loads := loads_text;
     json_dumps := dumps_text;
     ast_truthy := fun b => b;
     to_cql2 := fun b => if b then "true" else "false" |}.

(** Requests: of a first page, of a following page, and one that gives a
    parameter twice. *)
Definition first_page : Request := {| query_params := [("limit", "10")] |}.

Definition following_page : Request :=
  {| query_params := [("limit", "10"); ("offset", "T0")] |}.

Definition repeated : Request :=
  {| query_params := [("ids", "a"); ("ids", "b")] |}.

End Reference.

(** * Properties *)

(** ** Vocabulary of the statements *)

(** [c in s]. *)
Fixpoint has_char (c : ascii) (s : string) : bool :=
  match s with
  | EmptyString => false
  | String c' s' => Ascii.eqb c' c || has_char c s'
  end.


(** The value of the last pair with key [k]. *)
Fixpoint last_value {V} (k : string) (l : list (string * V)) : option V :=
  match l with
  | [] => None
  | (k', v) :: l' =>
      match last_value k l' with
      | Some x => Some x
      | None => if String.eqb k k' then Some v else None
      end
  end.


Definition sort_entry (field direction : string) : pyval :=
  PDict [("field", PStr field); ("direction", PStr direction)].


(** A value that is not [None], if any. *)
Definition not_None (o : option pyval) : option pyval :=
  match o with Some PNone => None | _ => o end.

(** An environment that sets the CORS origins only. *)
Definition with_cors (v : string) : Settings.Env :=
  {| Settings.env_name := None; Settings.env_debug := None;
     Settings.env_cors_origins := Some v;
     Settings.env_cachecontrol := None;
     Settings.env_template_directory := None |}.

(** One [key=value] of [urlencode]. *)
Definition encode_pair (kv : string * string) : string :=
  Urllib.quote_plus (fst kv) ++ "=" ++ Urllib.quote_plus (snd kv).

(** [needle in hay]. *)
Definition infix (needle hay : string) : Prop :=
  exists pre post, hay = pre ++ needle ++ post.

(** What the one that iterates a generator gets: the values before the
    first failure, and that failure, if there is one. *)
Fixpoint yielded {A : Type} (g : generator A) : list A :=
  match g with
  | Ok a :: g' => a :: yielded g'
  | _ => []
  end.

Fixpoint failure {A : Type} (g : generator A) : option exn :=
  match g with
  | [] => None
  | Ok _ :: g' => failure g'
  | Raise e :: _ => Some e
  end.

(** The rows that a flattened response carries: those that the CSV writer
    gets, the lines of an NDJSON stream, the array or the single object of
    a JSON response. *)
Definition emitted_rows (r : Response) : option (list pyval) :=
  match r with
  | StreamingResponse (create_csv_rows rows) csv _ =>
      Some (map PDict (yielded rows))
  | StreamingResponse (orjson_lines docs) ndjson _ => Some (yielded docs)
  | ORJSONResponse (PList rows) => Some rows
  | ORJSONResponse (PDict row) => Some [PDict row]
  | _ => None
  end.

(** The feature's [properties], when present, is a mapping. *)
Definition has_mapping (f : pydict) : Prop :=
  exists p, dget_or "properties" (PDict []) f = PDict p.

(** Where the value of key [k] of a flattened row comes from: the
    feature's geometry for [geometry]; for any other key the feature's
    property of that name, and without one the collection id for
    [collectionId] and the feature's id for [itemId]. *)
Definition row_source (cid : pyval) (f p : pydict) (k : string)
    : option pyval :=
  if String.eqb k "geometry" then Some (dget "geometry" f)
  else match last_value k p with
       | Some v => Some v
       | None =>
           if String.eqb k "collectionId" then Some cid
           else if String.eqb k "itemId" then Some (dget "id" f)
           else None
       end.

(** [row] is the flattening of the feature [f] of the collection [cid]. *)
Definition flattened (cid : pyval) (f row : pydict) : Prop :=
  List.NoDup (PyDict.keys row)
  /\ (forall k v, PyDict.get k row = Some v -> v <> PNone)
  /\ (dget "geometry" f = PNone -> ~ In "geometry" (PyDict.keys row))
  /\ exists p,
       dget_or "properties" (PDict []) f = PDict p
       /\ forall k, PyDict.get k row = not_None (row_source cid f p k).

(** What [clean] keeps of a value: nothing of [None] and of [[]]. *)
Definition kept (v : pyval) : option pyval :=
  if is_not_None v && ne_empty_list v then Some v else None.

(** The links of a GeoJSON or HTML response. *)
Definition response_links (r : Response) : list pyval :=
  match r with
  | GeoJSONResponse (PDict d) | HTMLResponse (PDict d) _ =>
      match dget "links" d with PList l => l | _ => [] end
  | _ => []
  end.

(** The link has the relation [rel]. *)
Definition rel_is (rel : string) (l : pyval) : bool :=
  match l with
  | PDict d =>
      match PyDict.get "rel" d with
      | Some (PStr r) => String.eqb r rel
      | _ => false
      end
  | _ => false
  end.

(** A pagination link. *)
Definition page_link (rel title_ href : string) : pyval :=
  PDict [("href", PStr href); ("rel", PStr rel);
         ("type", PStr "application/geo+json"); ("title", PStr title_)].

(** [P] are the parameters of the request [q] with [offset] set to the
    token [t]: the query string written for [P] reads back as [P]; no name
    occurs twice; [offset] has the value [t] as it is; every other name has
    the value that the request gives it (the last one, if it gives
    several). *)
Definition offset_is (q : QueryParams) (t : string) (P : QueryParams) : Prop :=
  Urllib.parse_qsl (Urllib.urlencode P) = P
  /\ List.NoDup (map fst P)
  /\ PyDict.get "offset" P = Some t
  /\ forall k, k <> "offset" -> PyDict.get k P = last_value k q.

(** The pagination links among the links [L] of a response to [request],
    for the envelope [item_list] and the route [url]. *)
Definition paged (request : Request) (url : string) (item_list : ItemList)
    (L : list pyval) : Prop :=
  let q := query_params request in
  (forall t,
     next item_list = Some t -> t <> EmptyString ->
     exists P,
       List.filter (rel_is "next") L
       = [page_link "next" "Next page" (url ++ "?" ++ Urllib.urlencode P)]
       /\ offset_is q t P
       /\ (List.NoDup (map fst q) -> P = PyDict.set "offset" t q))
  /\ (next item_list = None \/ next item_list = Some EmptyString ->
      List.filter (rel_is "next") L = [])
  /\ (forall t,
        prev item_list = Some t ->
        exists P,
          List.filter (rel_is "prev") L
          = [page_link "prev" "Previous page" (url ++ "?" ++ Urllib.urlencode P)]
          /\ offset_is q t P
          /\ (List.NoDup (map fst q) ->
              P = (PyDict.remove "offset" q ++ [("offset", t)])%list))
  /\ (prev item_list = None -> List.filter (rel_is "prev") L = []).

(** The reading of "all other parameters preserved": every pair of the
    request other than [offset] is a pair of the link. *)
Definition preserves_parameters (q P : QueryParams) : Prop :=
  forall k v, k <> "offset" -> In (k, v) q -> In (k, v) P.

(** A feature as the search handlers need it for its links: with a
    [collection] and an [id]. *)
Definition search_item (f : pydict) : Prop :=
  PyDict.mem "collection" f = true /\ PyDict.mem "id" f = true.

(** The output types whose response carries the links of the page. *)
Definition with_links (output_type : option MediaType) : Prop :=
  output_type = None \/ output_type = Some geojson \/ output_type = Some html.

(** [s] begins with a character of the class given by the three tests. *)
Definition begins (p1 : ascii -> bool) (p2 : ascii -> ascii -> bool)
    (p3 : ascii -> ascii -> ascii -> bool) (s : string) : bool :=
  match s with
  | String c1 r1 =>
      p1 c1
      || match r1 with
         | String c2 r2 =>
             p2 c1 c2
             || match r2 with
                | String c3 _ => p3 c1 c2 c3
                | EmptyString => false
                end
         | EmptyString => false
         end
  | EmptyString => false
  end.

(** [s] begins, and [s] ends, with a whitespace character. *)
Definition starts_space (s : string) : bool :=
  begins PyStr.isspace1 PyStr.isspace2 PyStr.isspace3 s.

Definition ends_space (s : string) : bool :=
  begins PyStr.isspace1 (fun c1 c2 => PyStr.isspace2 c2 c1)
         (fun c1 c2 c3 => PyStr.isspace3 c3 c2 c1) (PyStr.rev s).

(** [s] is made of whitespace characters only, read from its start and
    read from its end. *)
Definition blank (s : string) : Prop := PyStr.lstrip s = EmptyString.

Definition blank_from_end (s : string) : Prop :=
  PyStr.lstrip_rev (PyStr.rev s) = EmptyString.

(** [s] has no whitespace at either end. *)
Definition trimmed (s : string) : Prop :=
  starts_space s = false /\ ends_space s = false.

(** The number of occurrences of [c] in [s]. *)
Fixpoint count_char (c : ascii) (s : string) : nat :=
  match s with
  | EmptyString => 0
  | String c' s' => (if Ascii.eqb c' c then 1 else 0) + count_char c s'
  end.


(** The response is a FeatureCollection document. *)
Definition is_feature_collection (r : Response) : bool :=
  match r with
  | GeoJSONResponse (PDict d) | HTMLResponse (PDict d) _ =>
      match dget "type" d with
      | PStr t => String.eqb t "FeatureCollection"
      | _ => false
      end
  | _ => false
  end.

(** The response carries flattened rows. *)
Definition is_rows (r : Response) : bool :=
  match emitted_rows r with Some _ => true | None => false end.

(** The response is a stream of GeoJSON documents. *)
Definition is_feature_stream (r : Response) : bool :=
  match r with
  | StreamingResponse (orjson_lines _) geojsonseq _ => true
  | _ => false
  end.

(** The document of a GeoJSON or HTML response. *)
Definition response_data (r : Response) : option pydict :=
  match r with
  | GeoJSONResponse (PDict d) | HTMLResponse (PDict d) _ => Some d
  | _ => None
  end.

(** The features that a response shows: those of its document, or the
    documents of its GeoJSON stream. *)
Definition response_features (r : Response) : option (list pyval) :=
  match r with
  | GeoJSONResponse (PDict d) | HTMLResponse (PDict d) _ =>
      match dget "features" d with PList fs => Some fs | _ => None end
  | StreamingResponse (orjson_lines docs) geojsonseq _ => Some (yielded docs)
  | _ => None
  end.


(** [v] is the feature [f] with the links [links]: a dict without a
    repeated key whose [links] are [links] and whose other keys have the
    values that [f] gives them. *)
Definition decorated (f : pydict) (links : list pyval) (v : pyval) : Prop :=
  exists d,
    v = PDict d
    /\ List.NoDup (PyDict.keys d)
    /\ PyDict.get "links" d = Some (PList links)
    /\ forall k, k <> "links" -> PyDict.get k d = last_value k f.

(** The target of a link. *)
Definition link_href (l : pyval) : option string :=
  match l with
  | PDict d =>
      match PyDict.get "href" d with
      | Some (PStr h) => Some h
      | _ => None
      end
  | _ => None
  end.

(** A request with the given query string. *)
Definition request_of (qs : string) : Request :=
  {| query_params := Urllib.parse_qsl qs |}.

(** The names of the fields that a search request can have. *)
Definition search_fields : list string :=
  ["collections"; "ids"; "bbox"; "limit"; "token"; "query"; "filter";
   "filter-lang"; "datetime"; "sortby"; "fields"].

(** The value is a mapping. *)
Definition is_mapping (v : pyval) : bool :=
  match v with PDict _ => true | _ => false end.

(** A link object without a title. *)
Definition plain_link (href rel type_ : string) : pyval :=
  PDict [("href", PStr href); ("rel", PStr rel); ("type", PStr type_)].

(** A feature whose [properties] are the text [no], not a mapping. *)
Definition without_mapping (no : string) : pydict :=
  [("id", PStr "i1"); ("collection", PStr "c1"); ("properties", PStr no)].

(** An envelope of the given features, without paging tokens. *)
Definition envelope (fs : list pydict) : ItemList :=
  {| items_of := fs; matched := PInt (Z.of_nat (length fs));
     next := None; prev := None |}.

(** ** Strings *)

Module PyStrFacts.
Import PyStr.

Lemma append_cons (c : ascii) (s t : string) :
  String c s ++ t = String c (s ++ t).
Proof. reflexivity. Qed.

Lemma append_empty_l (t : string) : EmptyString ++ t = t.
Proof. reflexivity. Qed.

Lemma str1_append (c : ascii) (t : string) : str1 c ++ t = String c t.
Proof. reflexivity. Qed.

Lemma split_not_nil (sep : ascii) (s : string) : split sep s <> [].
Proof.
  destruct s as [|c s]; simpl; [discriminate|].
  destruct (Ascii.eqb c sep); [discriminate|].
  destruct (split sep s); discriminate.
Qed.

Lemma concat_cons (sep x : string) (xs : list string) :
  xs <> [] -> String.concat sep (x :: xs) = x ++ sep ++ String.concat sep xs.
Proof. destruct xs; [congruence | reflexivity]. Qed.

(** Joining the parts of a split with the separator gives the text back. *)
Lemma join_split (sep : ascii) (s : string) :
  join (str1 sep) (split sep s) = s.
Proof.
  unfold join. induction s as [|c s IH]; [reflexivity|].
  simpl split. destruct (Ascii.eqb_spec c sep) as [->|Hne].
  - rewrite concat_cons by apply split_not_nil.
    rewrite IH. reflexivity.
  - pose proof (split_not_nil sep s) as Hnil.
    destruct (split sep s) as [|w ws]; [congruence|].
    destruct ws as [|w' ws].
    + simpl in *. congruence.
    + rewrite concat_cons by discriminate.
      rewrite concat_cons in IH by discriminate.
      rewrite append_cons. congruence.
Qed.

(** No part of a split holds the separator. *)
Lemma split_no_sep (sep : ascii) (s p : string) :
  In p (split sep s) -> has_char sep p = false.
Proof.
  revert p. induction s as [|c s IH]; intros p; simpl.
  - intros [<-|[]]. reflexivity.
  - destruct (Ascii.eqb_spec c sep) as [->|Hne].
    + intros [<-|Hin]; [reflexivity | auto].
    + pose proof (split_not_nil sep s) as Hnil.
      destruct (split sep s) as [|w ws]; [congruence|].
      intros [<-|Hin].
      * simpl. rewrite (IH w) by (left; reflexivity).
        destruct (Ascii.eqb_spec c sep); [contradiction | reflexivity].
      * apply IH. right. exact Hin.
Qed.

Lemma split_no_char (sep : ascii) (s : string) :
  has_char sep s = false -> split sep s = [s].
Proof.
  induction s as [|c s IH]; simpl; [reflexivity|].
  destruct (Ascii.eqb c sep); simpl; [discriminate|].
  intros H. rewrite (IH H). reflexivity.
Qed.

Lemma split_app (sep : ascii) (a b : string) :
  has_char sep a = false ->
  split sep (a ++ String sep b) = a :: split sep b.
Proof.
  induction a as [|c a IH]; simpl.
  - intros _. rewrite Ascii.eqb_refl. reflexivity.
  - destruct (Ascii.eqb c sep); simpl; [discriminate|].
    intros H. rewrite (IH H). reflexivity.
Qed.

(** A split undoes a join of parts that do not hold the separator. *)
Lemma split_join (sep : ascii) (parts : list string) :
  parts <> [] ->
  Forall (fun p => has_char sep p = false) parts ->
  split sep (join (str1 sep) parts) = parts.
Proof.
  unfold join. induction parts as [|p ps IH]; [congruence|].
  intros _ Hall. inversion Hall as [|? ? Hp Hps]; subst.
  destruct ps as [|p' ps].
  - simpl. apply split_no_char. exact Hp.
  - rewrite concat_cons by discriminate.
    rewrite str1_append.
    rewrite split_app by exact Hp.
    rewrite IH by (discriminate || assumption). reflexivity.
Qed.

Lemma partition_app (sep : ascii) (a b : string) :
  has_char sep a = false ->
  partition sep (a ++ String sep b) = (a, Some b).
Proof.
  induction a as [|c a IH]; simpl.
  - intros _. rewrite Ascii.eqb_refl. reflexivity.
  - destruct (Ascii.eqb c sep) eqn:E; simpl; [discriminate|].
    intros H. rewrite (IH H). reflexivity.
Qed.


Lemma append_assoc (a b c : string) : (a ++ b) ++ c = a ++ (b ++ c).
Proof.
  induction a as [|x a IH]; [reflexivity|].
  rewrite !append_cons, IH. reflexivity.
Qed.

Lemma has_char_app (c : ascii) (a b : string) :
  has_char c (a ++ b) = has_char c a || has_char c b.
Proof.
  induction a as [|x a IH]; [reflexivity|].
  rewrite append_cons. simpl. rewrite IH. apply orb_assoc.
Qed.

End PyStrFacts.

(** ** Trimming *)

Module StripFacts.
Import PyStr PyStrFacts.

Section Skip.
Variables (p1 : ascii -> bool) (p2 : ascii -> ascii -> bool)
          (p3 : ascii -> ascii -> ascii -> bool).

(** Either the text does not begin with a character of the class and is
    left as it is, or it begins with one, which is skipped. *)
Lemma skip_cases (s : string) :
  (begins p1 p2 p3 s = false /\ skip p1 p2 p3 s = s)
  \/ (exists pre r,
        s = pre ++ r
        /\ (forall t, skip p1 p2 p3 (pre ++ t) = skip p1 p2 p3 t)
        /\ String.length r < String.length s).
Proof.
  destruct s as [|c1 r1]; [left; split; reflexivity|].
  simpl. destruct (p1 c1) eqn:E1.
  - right. exists (str1 c1), r1. split; [reflexivity|]. split.
    + intros t. simpl. rewrite E1. reflexivity.
    + simpl. lia.
  - destruct r1 as [|c2 r2]; [left; split; reflexivity|].
    destruct (p2 c1 c2) eqn:E2.
    + right. exists (String c1 (str1 c2)), r2. split; [reflexivity|]. split.
      * intros t. simpl. rewrite E1, E2. reflexivity.
      * simpl. lia.
    + destruct r2 as [|c3 r3]; [left; split; reflexivity|].
      destruct (p3 c1 c2 c3) eqn:E3.
      * right. exists (String c1 (String c2 (str1 c3))), r3.
        split; [reflexivity|]. split.
        -- intros t. simpl. rewrite E1, E2, E3. reflexivity.
        -- simpl. lia.
      * left. split; reflexivity.
Qed.

(** The text is a run of characters of the class, then what [skip] gives,
    which begins with no such character. *)
Lemma skip_split (s : string) :
  exists pre,
    s = pre ++ skip p1 p2 p3 s
    /\ skip p1 p2 p3 pre = EmptyString
    /\ begins p1 p2 p3 (skip p1 p2 p3 s) = false.
Proof.
  remember (String.length s) as n eqn:Hn.
  revert s Hn. induction n as [n IH] using lt_wf_ind. intros s ->.
  destruct (skip_cases s) as [[Hb Hs] | (pre & r & -> & Hpre & Hlen)].
  - exists EmptyString. rewrite Hs.
    split; [reflexivity|]. split; [reflexivity | exact Hb].
  - destruct (IH (String.length r) Hlen r eq_refl) as (pre' & Hr & Hblank & Hbg).
    exists (pre ++ pre'). rewrite !Hpre. split; [|split].
    + rewrite append_assoc. rewrite <- Hr. reflexivity.
    + exact Hblank.
    + exact Hbg.
Qed.

Lemma begins_prefix (a b : string) :
  begins p1 p2 p3 (a ++ b) = false -> begins p1 p2 p3 a = false.
Proof.
  destruct a as [|c1 [|c2 [|c3 a]]]; simpl.
  - intros _. reflexivity.
  - destruct (p1 c1); [discriminate|]. intros _. reflexivity.
  - destruct (p1 c1); [discriminate|]. simpl.
    destruct (p2 c1 c2); [discriminate|]. intros _. reflexivity.
  - auto.
Qed.

End Skip.

Lemma rev_onto_append (s acc : string) : rev_onto s acc = rev s ++ acc.
Proof.
  unfold rev. revert acc. induction s as [|c s IH]; intros acc; [reflexivity|].
  simpl. rewrite IH, (IH (String c EmptyString)), append_assoc. reflexivity.
Qed.

Lemma append_empty_r (s : string) : s ++ EmptyString = s.
Proof. induction s as [|c s IH]; [reflexivity|]. rewrite append_cons, IH. reflexivity. Qed.

Lemma rev_append (a b : string) : rev (a ++ b) = rev b ++ rev a.
Proof.
  induction a as [|c a IH].
  - rewrite append_empty_l. symmetry. apply append_empty_r.
  - rewrite append_cons. unfold rev at 1 3. simpl.
    rewrite !rev_onto_append, IH, append_assoc. reflexivity.
Qed.

Lemma rev_rev (s : string) : rev (rev s) = s.
Proof.
  induction s as [|c s IH]; [reflexivity|].
  unfold rev at 2. simpl. rewrite rev_onto_append, rev_append, IH. reflexivity.
Qed.

(** [strip] takes a run of whitespace characters from each end of the text
    and leaves a text with no whitespace character at either end. *)
Lemma strip_trimmed (s : string) :
  (exists pre post,
     s = pre ++ strip s ++ post /\ blank pre /\ blank_from_end post)
  /\ trimmed (strip s).
Proof.
  unfold strip, rstrip, blank, blank_from_end, trimmed, starts_space,
    ends_space.
  destruct (skip_split isspace1 isspace2 isspace3 s) as (pre & Hs & Hpre & Hy).
  fold (lstrip s) in *. set (y := lstrip s) in *.
  destruct (skip_split isspace1 (fun c1 c2 => isspace2 c2 c1)
              (fun c1 c2 c3 => isspace3 c3 c2 c1) (rev y))
    as (pre' & Hr & Hpre' & Hz).
  fold (lstrip_rev (rev y)) in *. set (z := lstrip_rev (rev y)) in *.
  assert (Hyz : y = rev z ++ rev pre').
  { rewrite <- rev_append, <- Hr, rev_rev. reflexivity. }
  split.
  - exists pre, (rev pre'). split; [|split].
    + rewrite <- Hyz. exact Hs.
    + exact Hpre.
    + rewrite rev_rev. exact Hpre'.
  - split.
    + apply (begins_prefix _ _ _ (rev z) (rev pre')). rewrite <- Hyz. exact Hy.
    + rewrite rev_rev. exact Hz.
Qed.

End StripFacts.

(** ** Query strings *)

Module UrllibFacts.
Import PyStr Urllib PyStrFacts.

Ltac each_byte c := destruct c as [[] [] [] [] [] [] [] []].

Lemma unquote_percent (c : ascii) (r : string) :
  unquote (String "%" (String (hex_hi c) (String (hex_lo c) r)))
  = String c (unquote r).
Proof. each_byte c; reflexivity. Qed.

Lemma hex_digits_kept (c : ascii) :
  Ascii.eqb (hex_hi c) "+" = false /\ Ascii.eqb (hex_lo c) "+" = false.
Proof. each_byte c; split; reflexivity. Qed.

Lemma hex_digits_plain (x c : ascii) :
  x = "&"%char \/ x = "="%char ->
  Ascii.eqb (hex_hi c) x = false /\ Ascii.eqb (hex_lo c) x = false.
Proof. intros [-> | ->]; each_byte c; split; reflexivity. Qed.

Lemma safe_is_plain (c x : ascii) :
  always_safe c = true ->
  x = "+"%char \/ x = "%"%char \/ x = "&"%char \/ x = "="%char ->
  Ascii.eqb c x = false.
Proof.
  intros Hs [-> | [-> | [-> | ->]]]; revert Hs;
    each_byte c; (reflexivity || discriminate).
Qed.

(** [unquote_plus] undoes [quote_plus]. *)
Lemma unquote_quote_plus (s : string) : unquote_plus (quote_plus s) = s.
Proof.
  unfold unquote_plus. induction s as [|c s IH]; [reflexivity|].
  simpl quote_plus. destruct (Ascii.eqb_spec c " ") as [->|Hsp].
  - simpl. rewrite IH. reflexivity.
  - destruct (always_safe c) eqn:Hsafe.
    + simpl. rewrite (safe_is_plain c "+" Hsafe) by auto.
      rewrite (safe_is_plain c "%" Hsafe) by auto.
      rewrite IH. reflexivity.
    + simpl replace. destruct (hex_digits_kept c) as [-> ->].
      rewrite unquote_percent, IH. reflexivity.
Qed.

(** A quoted text holds neither [&] nor [=]. *)
Lemma quote_plus_plain (x : ascii) (s : string) :
  x = "&"%char \/ x = "="%char -> has_char x (quote_plus s) = false.
Proof.
  intros Hx. induction s as [|c s IH]; [reflexivity|].
  simpl quote_plus. destruct (Ascii.eqb_spec c " ") as [->|Hsp].
  - simpl. rewrite IH. destruct Hx as [-> | ->]; reflexivity.
  - destruct (always_safe c) eqn:Hsafe.
    + simpl. rewrite (safe_is_plain c x Hsafe) by tauto. exact IH.
    + simpl. destruct (hex_digits_plain x c Hx) as [-> ->].
      rewrite IH. destruct Hx as [-> | ->]; reflexivity.
Qed.

Lemma encode_pair_no_amp (kv : string * string) :
  has_char "&" (encode_pair kv) = false.
Proof.
  unfold encode_pair. rewrite !has_char_app.
  rewrite !quote_plus_plain by auto. reflexivity.
Qed.

Lemma decode_pair (kv : string * string) :
  truthy (encode_pair kv) = true
  /\ partition "=" (encode_pair kv)
     = (quote_plus (fst kv), Some (quote_plus (snd kv))).
Proof.
  unfold encode_pair. split.
  - destruct (quote_plus (fst kv)); reflexivity.
  - apply (partition_app "=" (quote_plus (fst kv)) (quote_plus (snd kv))).
    apply quote_plus_plain. auto.
Qed.

(** [parse_qsl] reads back the pairs that [urlencode] wrote: every key and
    every value comes back as it was given. *)
Lemma parse_qsl_urlencode (pairs : list (string * string)) :
  parse_qsl (urlencode pairs) = pairs.
Proof.
  unfold parse_qsl, urlencode.
  change (fun kv : string * string =>
            quote_plus (fst kv) ++ "=" ++ quote_plus (snd kv))
    with encode_pair.
  destruct pairs as [|kv pairs]; [reflexivity|].
  pose proof (split_join "&" (map encode_pair (kv :: pairs))) as E.
  unfold str1 in E. rewrite E; clear E.
  - induction (kv :: pairs) as [|[k v] l IH]; [reflexivity|].
    cbn [map flat_map]. destruct (decode_pair (k, v)) as [-> ->].
    cbn [default from_option Datatypes.id fst snd].
    rewrite !unquote_quote_plus, IH. reflexivity.
  - discriminate.
  - apply List.Forall_forall. intros p Hp. apply in_map_iff in Hp.
    destruct Hp as [x [<- _]]. apply encode_pair_no_amp.
Qed.

End UrllibFacts.

(** ** Dictionaries *)

Module PyDictFacts.
Import PyDict.

Section Facts.
Context {V : Type}.
Implicit Types (d : dict V) (k : string) (v : V).

Lemma get_set_eq k v d : get k (set k v d) = Some v.
Proof.
  induction d as [|[k' v'] d IH]; simpl.
  - rewrite String.eqb_refl. reflexivity.
  - destruct (String.eqb k k') eqn:E; simpl.
    + rewrite String.eqb_refl. reflexivity.
    + rewrite E. exact IH.
Qed.

Lemma get_set_ne k k' v d : k <> k' -> get k' (set k v d) = get k' d.
Proof.
  intros Hne. induction d as [|[k0 v0] d IH]; simpl.
  - destruct (String.eqb_spec k' k); congruence.
  - destruct (String.eqb_spec k k0) as [->|]; simpl.
    + destruct (String.eqb_spec k' k0); congruence.
    + rewrite IH. reflexivity.
Qed.

Lemma get_None k d : get k d = None <-> ~ In k (keys d).
Proof.
  induction d as [|[k' v'] d IH]; simpl; [tauto|].
  destruct (String.eqb_spec k k') as [->|Hne].
  - split; [discriminate | intros H; exfalso; apply H; auto].
  - rewrite IH. split; [intros H [E|E]; congruence || auto | tauto].
Qed.

Lemma get_Some_in k v d : get k d = Some v -> In k (keys d).
Proof.
  intros H. destruct (in_dec string_dec k (keys d)) as [|Hn]; [assumption|].
  apply get_None in Hn. congruence.
Qed.


Lemma set_absent k v d : ~ In k (keys d) -> set k v d = (d ++ [(k, v)])%list.
Proof.
  induction d as [|[k' v'] d IH]; simpl; [reflexivity|].
  intros H. destruct (String.eqb_spec k k') as [->|Hne]; [tauto|].
  rewrite IH by tauto. reflexivity.
Qed.

Lemma keys_set k v d :
  keys (set k v d) = if mem k d then keys d else (keys d ++ [k])%list.
Proof.
  unfold mem. induction d as [|[k' v'] d IH]; simpl; [reflexivity|].
  destruct (String.eqb_spec k k') as [->|Hne]; simpl; [reflexivity|].
  rewrite IH. destruct (get k d); reflexivity.
Qed.

Lemma in_keys_set k k' v d :
  In k' (keys (set k v d)) <-> k' = k \/ In k' (keys d).
Proof.
  rewrite keys_set. unfold mem. destruct (get k d) eqn:E.
  - apply get_Some_in in E. split; [auto | intros [->|]; auto].
  - pose proof (in_app_iff (keys d) [k] k') as Happ. simpl in Happ. split.
    + intros H. apply Happ in H. destruct H as [H|[H|[]]]; [right | left]; auto.
    + intros [->|H]; apply Happ; [right; left; reflexivity | left; exact H].
Qed.

Lemma NoDup_set k v d : List.NoDup (keys d) -> List.NoDup (keys (set k v d)).
Proof.
  intros Hd. rewrite keys_set. unfold mem. destruct (get k d) eqn:E; [assumption|].
  apply get_None in E. apply List.NoDup_app; [assumption | |].
  - constructor; [simpl; tauto | constructor].
  - intros x Hx [<-|[]]. contradiction.
Qed.

Lemma update_snoc d (items : list (string * V)) k v :
  update d (items ++ [(k, v)])%list = set k v (update d items).
Proof. unfold update. rewrite fold_left_app. reflexivity. Qed.

Lemma update_cons d (items : list (string * V)) k v :
  update d ((k, v) :: items) = update (set k v d) items.
Proof. reflexivity. Qed.

Lemma NoDup_update d (items : list (string * V)) :
  List.NoDup (keys d) -> List.NoDup (keys (update d items)).
Proof.
  revert d. induction items as [|[k v] items IH]; intros d Hd; [assumption|].
  rewrite update_cons. apply IH, NoDup_set, Hd.
Qed.

Lemma NoDup_of_items (items : list (string * V)) : List.NoDup (keys (of_items items)).
Proof. apply NoDup_update. constructor. Qed.

Lemma get_update k d (items : list (string * V)) :
  get k (update d items)
  = match last_value k items with Some v => Some v | None => get k d end.
Proof.
  revert d. induction items as [|[k' v'] items IH]; intros d; [reflexivity|].
  rewrite update_cons, IH. simpl. destruct (last_value k items); [reflexivity|].
  destruct (String.eqb_spec k k') as [->|Hne].
  - apply get_set_eq.
  - apply get_set_ne. congruence.
Qed.

Lemma get_of_items k (items : list (string * V)) :
  get k (of_items items) = last_value k items.
Proof.
  unfold of_items. rewrite get_update. destruct (last_value k items); reflexivity.
Qed.

Lemma last_value_None k (items : list (string * V)) :
  last_value k items = None <-> ~ In k (map fst items).
Proof.
  induction items as [|[k' v'] items IH]; simpl; [tauto|].
  destruct (last_value k items).
  - split; [discriminate|]. intros H. exfalso. apply H. right.
    destruct (in_dec string_dec k (map fst items)) as [|Hn]; [assumption|].
    apply IH in Hn. discriminate.
  - destruct (String.eqb_spec k k') as [->|Hne].
    + split; [discriminate | intros H; exfalso; apply H; auto].
    + split; [intros _ [E|E]; [congruence | apply IH in E; auto] | reflexivity].
Qed.

Lemma in_keys_update k d (items : list (string * V)) :
  In k (keys (update d items)) <-> In k (keys d) \/ In k (map fst items).
Proof.
  revert d. induction items as [|[k' v'] items IH]; intros d.
  - simpl. tauto.
  - rewrite update_cons, IH, in_keys_set. simpl. intuition.
Qed.

Lemma in_keys_of_items k (items : list (string * V)) :
  In k (keys (of_items items)) <-> In k (map fst items).
Proof. unfold of_items. rewrite in_keys_update. simpl. tauto. Qed.

Lemma update_fresh d (items : list (string * V)) :
  List.NoDup (keys (d ++ items)%list) -> update d items = (d ++ items)%list.
Proof.
  revert d. induction items as [|[k v] items IH]; intros d Hd.
  - rewrite app_nil_r. reflexivity.
  - rewrite update_cons.
    assert (Hk : ~ In k (keys d)).
    { unfold keys in Hd. rewrite map_app in Hd. simpl in Hd.
      apply List.NoDup_remove_2 in Hd. intros Hin. apply Hd.
      apply in_or_app. left. exact Hin. }
    rewrite (set_absent k v d Hk).
    rewrite IH; rewrite <- app_assoc; [reflexivity | exact Hd].
Qed.

(** Copying a dict, [{**d}] or [dict(d)], gives the same dict. *)
Lemma of_items_id d : List.NoDup (keys d) -> of_items d = d.
Proof. intros Hd. unfold of_items. rewrite update_fresh; [reflexivity | exact Hd]. Qed.

Lemma of_items_of_items (items : list (string * V)) :
  of_items (of_items items) = of_items items.
Proof. apply of_items_id, NoDup_of_items. Qed.

Lemma in_keys_remove k k' d :
  In k' (keys (remove k d)) -> In k' (keys d).
Proof.
  induction d as [|[k0 v0] d IH]; simpl; [tauto|].
  destruct (String.eqb k k0); simpl; tauto.
Qed.

Lemma NoDup_remove k d : List.NoDup (keys d) -> List.NoDup (keys (remove k d)).
Proof.
  induction d as [|[k0 v0] d IH]; simpl; [auto|].
  intros Hd. inversion Hd as [|? ? Hn Hd']; subst.
  destruct (String.eqb k k0); simpl; [assumption|].
  constructor; [|auto]. intros Hin. apply Hn. eapply in_keys_remove, Hin.
Qed.

Lemma get_remove_eq k d : List.NoDup (keys d) -> get k (remove k d) = None.
Proof.
  induction d as [|[k0 v0] d IH]; simpl; [reflexivity|].
  intros Hd. inversion Hd as [|? ? Hn Hd']; subst.
  destruct (String.eqb_spec k k0) as [->|Hne].
  - apply get_None. exact Hn.
  - simpl. destruct (String.eqb_spec k k0); [contradiction | auto].
Qed.

Lemma get_remove_ne k k' d : k <> k' -> get k' (remove k d) = get k' d.
Proof.
  intros Hne. induction d as [|[k0 v0] d IH]; simpl; [reflexivity|].
  destruct (String.eqb_spec k k0) as [->|Hne0]; simpl.
  - destruct (String.eqb_spec k' k0); congruence.
  - rewrite IH. reflexivity.
Qed.

Lemma remove_absent k d : ~ In k (keys d) -> remove k d = d.
Proof.
  induction d as [|[k0 v0] d IH]; simpl; [reflexivity|].
  intros H. destruct (String.eqb_spec k k0) as [->|Hne]; [tauto|].
  rewrite IH by tauto. reflexivity.
Qed.

Lemma get_filter_values (keep : V -> bool) k d :
  List.NoDup (keys d) ->
  get k (filter_values keep d)
  = match get k d with
    | Some v => if keep v then Some v else None
    | None => None
    end.
Proof.
  induction d as [|[k0 v0] d IH]; simpl; [reflexivity|].
  intros Hd. inversion Hd as [|? ? Hn Hd']; subst.
  destruct (String.eqb_spec k k0) as [->|Hne].
  - destruct (keep v0) eqn:E; simpl.
    + rewrite String.eqb_refl. reflexivity.
    + rewrite IH by assumption. apply get_None in Hn. rewrite Hn. reflexivity.
  - destruct (keep v0); simpl; [|auto].
    destruct (String.eqb_spec k k0); [contradiction | auto].
Qed.


Lemma NoDup_filter_values (keep : V -> bool) d :
  List.NoDup (keys d) -> List.NoDup (keys (filter_values keep d)).
Proof.
  induction d as [|[k0 v0] d IH]; simpl; [auto|].
  intros Hd. inversion Hd as [|? ? Hn Hd']; subst.
  destruct (keep v0); simpl; [|auto].
  constructor; [|auto]. intros Hin. apply Hn.
  apply in_map_iff in Hin. destruct Hin as [[k1 v1] [<- Hin]].
  apply filter_In in Hin. apply in_map_iff. exists (k1, v1). tauto.
Qed.

End Facts.
End PyDictFacts.

(** ** Settings *)

Section SettingsProperties.
Import PyStr PyStrFacts Settings.

(** C9. The settings default to the name "TiPg STAC: Use PgSTAC as
    backend", debug off, cache control "public, max-age=3600" and no
    template directory; the CORS origins are the comma-separated parts of
    the configured text (default "*"), each stripped, in order, so that no
    origin has whitespace at either end: "a, b ,c" gives [a; b; c] and the
    default gives [*]. *)
Theorem settings_defaults_and_cors_origins :
  (let s := load empty_env in
   name s = "TiPg STAC: Use PgSTAC as backend"
   /\ debug s = false
   /\ cachecontrol s = "public, max-age=3600"
   /\ template_directory s = None
   /\ cors_origins s = ["*"])
  /\ (forall env : Env,
        let raw := default "*" (env_cors_origins env) in
        exists parts,
          join "," parts = raw
          /\ Forall (fun p => has_char "," p = false) parts
          /\ cors_origins (load env) = map strip parts
          /\ Forall trimmed (cors_origins (load env)))
  /\ cors_origins (load (with_cors "a, b ,c")) = ["a"; "b"; "c"].
Proof.
  split; [repeat split|]. split; [|reflexivity].
  intros env raw. exists (split "," raw). split; [|split; [|split]].
  - apply (join_split ","%char).
  - apply List.Forall_forall. intros p Hp. eapply split_no_sep, Hp.
  - reflexivity.
  - apply List.Forall_forall. intros o Ho. simpl in Ho.
    unfold parse_cors_origin in Ho. apply in_map_iff in Ho.
    destruct Ho as [p [<- _]]. apply StripFacts.strip_trimmed.
Qed.

End SettingsProperties.

(** ** Sort terms *)

Section SortProperties.
Import PyStr PyStrFacts.










End SortProperties.

(** ** The handlers *)

Section FactoryProperties.
Import PyDict PyDictFacts.
Context `{B : Boundary}.

(** The keys of a dict display with literal keys are distinct. *)
Ltac distinct_keys :=
  simpl;
  repeat (apply List.NoDup_cons;
          [ simpl; intros H;
            repeat (destruct H as [H|H]; [discriminate H|]); exact H |]);
  apply List.NoDup_nil.

Lemma run_features (c : PgSTACCollection) (a : FeaturesArgs AstType)
    (k : ItemList -> result Response) :
  run (item_list ← features c a; lift (k item_list))
  = (item_list ← collection_features c a; k item_list, [CallFeatures c a]).
Proof.
  unfold run, features, mbind, handler_bind, lift. simpl.
  destruct (collection_features c a); reflexivity.
Qed.

Lemma run_search (s : PgSTACSearch) (k : ItemList -> result Response) :
  run (item_list ← search_items s; lift (k item_list))
  = (item_list ← pgstac_search s; k item_list, [CallSearch s]).
Proof.
  unfold run, search_items, mbind, handler_bind, lift. simpl.
  destruct (pgstac_search s); reflexivity.
Qed.

Lemma ditem_dget (k : string) (d : pydict) :
  is_not_None (dget k d) = true -> ditem k d = Ok (dget k d).
Proof.
  unfold ditem, dget. destruct (get k d); [reflexivity | discriminate].
Qed.

Lemma infix_middle (a x b : string) : infix x (a ++ x ++ b).
Proof. exists a, b. reflexivity. Qed.

(** The single-item handler answers whenever the data layer returns a
    feature whose properties are a mapping. *)
Lemma item_response_ok (request : Request) (collection : PgSTACCollection)
    (itemId : string) (output_type : MediaType) (item_list : ItemList)
    (feature : pydict) (more : list pydict) :
  items_of item_list = feature :: more ->
  has_mapping feature ->
  exists response,
    item_response request collection itemId output_type item_list = Ok response.
Proof.
  intros Hitems [p Hp]. unfold item_response. rewrite Hitems, Hp.
  destruct (is_not_None (dget "geometry" feature)) eqn:Hg.
  - rewrite (ditem_dget _ _ Hg). destruct output_type; simpl; eauto.
  - destruct output_type; simpl; eauto.
Qed.

(** C3. The single-item handler fails with the missing-primary-key error,
    without calling the data layer, when the collection has no identifying
    column, whatever the other parameters; otherwise it calls the
    collection's feature search once, with an id filter that holds exactly
    the requested item id; when that call returns no item it fails with a
    not-found error whose message names the item id and the collection id;
    when it returns an item (whose properties are a mapping) it answers. *)
Theorem item_lookup (request : Request) (collection : PgSTACCollection)
    (itemId : string) (bbox_only : option bool) (simplify : option pyfloat)
    (properties : option (list string)) (output_type : option MediaType) :
  let outcome :=
    run (item request collection itemId bbox_only simplify properties
           output_type) in
  (id_column collection = None ->
   outcome = (Raise (NoPrimaryKey "No primary key is set on this table"), []))
  /\ (id_column collection <> None ->
      exists a,
        snd outcome = [CallFeatures collection a]
        /\ ids_filter a = Some [itemId]
        /\ forall item_list,
             collection_features collection a = Ok item_list ->
             (items_of item_list = [] ->
              exists msg,
                fst outcome = Raise (NotFound msg)
                /\ infix itemId msg /\ infix (id collection) msg)
             /\ (forall feature more,
                   items_of item_list = feature :: more ->
                   has_mapping feature ->
                   exists response, fst outcome = Ok response)).
Proof.
  intros outcome. subst outcome. unfold item.
  destruct (id_column collection) as [col|]; split; try congruence.
  - intros _. rewrite run_features. eexists. split; [reflexivity|].
    split; [reflexivity|]. intros item_list Hcall. simpl fst.
    rewrite Hcall. simpl. split.
    + intros Hnone. unfold item_response. rewrite Hnone.
      eexists. split; [reflexivity|]. split.
      * apply (infix_middle "Item " itemId).
      * exists ("Item " ++ itemId ++ " in Collection "), " does not exist.".
        rewrite !PyStrFacts.append_assoc. reflexivity.
    + intros feature more Hitems Hmap.
      eapply item_response_ok; eassumption.
  - reflexivity.
Qed.

Lemma not_None_filter (o : option pyval) :
  match o with
  | Some v => if is_not_None v then Some v else None
  | None => None
  end = not_None o.
Proof. destruct o as [[]|]; reflexivity. Qed.

Lemma not_None_Some (o : option pyval) (v : pyval) :
  not_None o = Some v -> v <> PNone.
Proof. destruct o as [[]|]; simpl; congruence. Qed.

(** The flattening of a feature whose properties are a mapping. *)
Lemma flat_row_flattened (cid : pyval) (f : pydict) :
  has_mapping f -> exists row, flat_row cid f = Ok row /\ flattened cid f row.
Proof.
  intros [p Hp]. unfold flat_row. rewrite Hp. simpl.
  eexists. split; [reflexivity|].
  set (base := update (of_items [("collectionId", cid); ("itemId", dget "id" f)]) p).
  assert (Hbase : List.NoDup (keys (set "geometry" (dget_or "geometry" PNone f) base))).
  { apply NoDup_set, NoDup_update, NoDup_of_items. }
  assert (Hget : forall k,
             get k (filter_values is_not_None
                      (set "geometry" (dget_or "geometry" PNone f) base))
             = not_None (row_source cid f p k)).
  { intros k. rewrite (get_filter_values _ _ _ Hbase), <- not_None_filter.
    unfold row_source. destruct (String.eqb_spec k "geometry") as [->|Hne].
    - rewrite get_set_eq. reflexivity.
    - rewrite get_set_ne by congruence. unfold base. rewrite get_update.
      destruct (last_value k p); [reflexivity|]. simpl.
      destruct (String.eqb k "collectionId"); [reflexivity|].
      destruct (String.eqb k "itemId"); reflexivity. }
  split; [apply NoDup_filter_values, Hbase|]. split; [|split].
  - intros k v Hk. rewrite Hget in Hk. eapply not_None_Some, Hk.
  - intros Hg Hin. apply get_None in Hin; [exact Hin|].
    rewrite Hget. unfold row_source. simpl. rewrite Hg. reflexivity.
  - exists p. split; [exact Hp | exact Hget].
Qed.

Lemma mapM_rows {X Y : Type} (g : X -> result Y) (P : X -> Y -> Prop)
    (l : list X) :
  (forall f, In f l -> exists row, g f = Ok row /\ P f row) ->
  exists rows, mapM g l = Ok rows /\ Forall2 P l rows.
Proof.
  induction l as [|f l IH]; intros Hall.
  - exists []. split; [reflexivity | constructor].
  - destruct (Hall f) as (row & Hrow & HP); [left; reflexivity|].
    destruct IH as (rows & Hrows & HF); [intros; apply Hall; right; assumption|].
    exists (row :: rows). split; [|constructor; assumption].
    simpl. rewrite Hrow. simpl. rewrite Hrows. reflexivity.
Qed.

(** A generator whose computations all end well yields their values, to
    the one that iterates it and to [list]. *)
Lemma list_of_gen {X A : Type} (g : X -> result A) (l : list X) :
  list_of (gen g l) = mapM g l.
Proof.
  unfold list_of, gen. induction l as [|x l IH]; [reflexivity|].
  simpl. destruct (g x); simpl; [|reflexivity]. rewrite IH. reflexivity.
Qed.

Lemma gen_yielded {X A : Type} (g : X -> result A) (l : list X)
    (ys : list A) :
  mapM g l = Ok ys -> yielded (gen g l) = ys /\ failure (gen g l) = None.
Proof.
  unfold gen. revert ys. induction l as [|x l IH]; intros ys; simpl.
  - intros [= <-]. split; reflexivity.
  - destruct (g x) as [y|]; simpl; [|discriminate].
    destruct (mapM g l) as [ys'|]; simpl; [|discriminate].
    intros [= <-]. destruct (IH ys' eq_refl) as [-> ->]. split; reflexivity.
Qed.

Lemma yielded_lines (rows : generator pydict) :
  yielded (lines rows) = map PDict (yielded rows).
Proof.
  unfold lines, gen. induction rows as [|[row|e] rows IH]; simpl;
    [reflexivity | rewrite IH; reflexivity | reflexivity].
Qed.


Lemma yielded_iter {A : Type} (l : list A) : yielded (iter l) = l.
Proof.
  unfold iter. induction l as [|x l IH]; simpl; [|rewrite IH]; reflexivity.
Qed.


Lemma rows_response_rows {X : Type} (output_type : MediaType)
    (g : X -> result pydict) (l : list X) (rows : list pydict) :
  flat_output output_type = true ->
  mapM g l = Ok rows ->
  exists response,
    rows_response output_type (gen g l) = Some (Ok response)
    /\ emitted_rows response = Some (map PDict rows).
Proof.
  intros Hflat Hrows. destruct (gen_yielded g l rows Hrows) as [Hy _].
  destruct output_type; try discriminate Hflat; simpl.
  - eexists. split; [reflexivity|]. simpl. rewrite Hy. reflexivity.
  - rewrite list_of_gen, Hrows. simpl. eexists. split; reflexivity.
  - eexists. split; [reflexivity|]. simpl. rewrite yielded_lines, Hy.
    reflexivity.
Qed.

(** C7. With CSV, JSON or NDJSON output the item listing answers with one
    row per feature of the envelope, in order.  A row has the keys
    collectionId, itemId, the feature's property names and geometry, each
    with the value it has in the feature, except that every key whose value
    is None is left out of the row; a feature without a geometry gives a
    row without a geometry key.  The search handlers flatten the same way,
    with the feature's own collection as collectionId. *)
Theorem items_flattened_rows (request : Request) (collection : PgSTACCollection)
    (ids_filter : option (list string)) (bbox_filter : option (list pyfloat))
    (datetime_filter : option (list string))
    (properties : option (list string)) (cql_filter : option AstType)
    (sortby query : option string) (limit : Z) (offset : option string)
    (bbox_only : option bool) (simplify : option pyfloat)
    (output_type : MediaType) (a : FeaturesArgs AstType)
    (item_list : ItemList) :
  let outcome :=
    run (items request collection ids_filter bbox_filter datetime_filter
           properties cql_filter sortby query limit offset bbox_only simplify
           (Some output_type)) in
  flat_output output_type = true ->
  snd outcome = [CallFeatures collection a] ->
  collection_features collection a = Ok item_list ->
  Forall has_mapping (items_of item_list) ->
  (exists response rows,
     fst outcome = Ok response
     /\ emitted_rows response = Some (map PDict rows)
     /\ Forall2 (flattened (PStr (id collection))) (items_of item_list) rows)
  /\ (exists response rows,
        search_response request output_type item_list = Ok response
        /\ emitted_rows response = Some (map PDict rows)
        /\ Forall2 (fun f row => flattened (dget "collection" f) f row)
                   (items_of item_list) rows).
Proof.
  intros outcome Hflat Htrace Hcall Hmaps. subst outcome.
  unfold items in *. rewrite run_features in *. simpl in Htrace.
  injection Htrace as <-. simpl fst. rewrite Hcall. simpl.
  rewrite List.Forall_forall in Hmaps. split.
  - destruct (mapM_rows (flat_row (PStr (id collection)))
                (flattened (PStr (id collection))) (items_of item_list))
      as (rows & Hrows & HF).
    { intros f Hf. apply flat_row_flattened, Hmaps, Hf. }
    destruct (rows_response_rows output_type _ _ rows Hflat Hrows)
      as (r & Hr & Hem).
    exists r, rows. unfold items_response. rewrite Hflat. cbv zeta.
    rewrite Hr. auto.
  - destruct (mapM_rows (fun f => flat_row (dget "collection" f) f)
                (fun f row => flattened (dget "collection" f) f row)
                (items_of item_list))
      as (rows & Hrows & HF).
    { intros f Hf. apply flat_row_flattened, Hmaps, Hf. }
    destruct (rows_response_rows output_type _ _ rows Hflat Hrows)
      as (r & Hr & Hem).
    exists r, rows. unfold search_response. rewrite Hflat. cbv zeta.
    rewrite Hr. auto.
Qed.

Lemma flat_row_geometry (cid : pyval) (f row : pydict) :
  flat_row cid f = Ok row ->
  dget "geometry" f <> PNone ->
  get "geometry" row = Some (dget "geometry" f).
Proof.
  intros Hrow Hg. unfold flat_row in Hrow.
  destruct (mapping (dget_or "properties" (PDict []) f)) as [p|e] eqn:Hp;
    [|discriminate].
  simpl in Hrow. injection Hrow as <-.
  rewrite get_filter_values by apply NoDup_set, NoDup_update, NoDup_of_items.
  rewrite get_set_eq. unfold dget_or, dget in *.
  destruct (default PNone (get "geometry" f)); simpl; congruence.
Qed.

(** C8. With CSV, JSON or NDJSON output the single-item handler answers
    with exactly one row, and when the feature has a geometry the row's
    geometry is the one-element tuple holding it, where the listing handlers
    put the geometry itself. *)
Theorem item_single_row (request : Request) (collection : PgSTACCollection)
    (itemId : string) (bbox_only : option bool) (simplify : option pyfloat)
    (properties : option (list string)) (output_type : MediaType)
    (a : FeaturesArgs AstType) (item_list : ItemList)
    (feature : pydict) (more : list pydict) :
  let outcome :=
    run (item request collection itemId bbox_only simplify properties
           (Some output_type)) in
  flat_output output_type = true ->
  snd outcome = [CallFeatures collection a] ->
  collection_features collection a = Ok item_list ->
  items_of item_list = feature :: more ->
  has_mapping feature ->
  exists response row,
    fst outcome = Ok response
    /\ emitted_rows response = Some [PDict row]
    /\ (dget "geometry" feature <> PNone ->
        get "geometry" row = Some (PTuple [dget "geometry" feature])
        /\ forall cid listed,
             flat_row cid feature = Ok listed ->
             get "geometry" listed = Some (dget "geometry" feature)).
Proof.
  intros outcome Hflat Htrace Hcall Hitems [p Hp]. subst outcome.
  unfold item in *. destruct (id_column collection); [|discriminate].
  rewrite run_features in *. simpl in Htrace. injection Htrace as <-.
  simpl fst. rewrite Hcall. simpl.
  unfold item_response. rewrite Hitems, Hflat, Hp. simpl.
  destruct (is_not_None (dget "geometry" feature)) eqn:Hg.
  - rewrite (ditem_dget _ _ Hg). simpl.
    destruct output_type; try discriminate; eexists; eexists;
      (split; [reflexivity|]); (split; [reflexivity|]); intros _;
      (split; [apply get_set_eq|]); intros cid listed Hl;
      (apply (flat_row_geometry cid); [exact Hl|]);
      intros E; rewrite E in Hg; discriminate.
  - destruct output_type; try discriminate; eexists; eexists;
      (split; [reflexivity|]); (split; [reflexivity|]); intros Hne;
      exfalso; apply Hne; destruct (dget "geometry" feature);
      (reflexivity || discriminate).
Qed.

(** *** The request assembled by [get_search] *)

Lemma run_get_search (request : Request)
    (collections_filter ids_filter : option (list string))
    (bbox_filter : option (list pyfloat))
    (datetime_filter : option (list string))
    (properties : option (list string)) (cql_filter : option AstType)
    (sortby query : option string) (limit : Z) (offset : option string)
    (bbox_only : option bool) (simplify : option pyfloat)
    (output_type : option MediaType) :
  run (get_search request collections_filter ids_filter bbox_filter
         datetime_filter properties cql_filter sortby query limit offset
         bbox_only simplify output_type)
  = match search_request collections_filter ids_filter bbox_filter
            datetime_filter properties cql_filter sortby query limit offset
    with
    | Raise e => (Raise e, [])
    | Ok args =>
        match model_validate args with
        | Raise e => (Raise e, [])
        | Ok s =>
            (item_list ← pgstac_search s;
             search_response request (default geojson output_type) item_list,
             [CallSearch s])
        end
    end.
Proof.
  unfold get_search.
  destruct (search_request _ _ _ _ _ _ _ _ _ _) as [args|e]; [|reflexivity].
  destruct (model_validate args) as [s|e] eqn:Hs.
  - rewrite <- (run_search s). unfold run, mbind, handler_bind, lift.
    rewrite Hs. reflexivity.
  - unfold run, mbind, handler_bind, lift. rewrite Hs. reflexivity.
Qed.

Lemma get_clean (k : string) (args : pydict) :
  List.NoDup (keys args) ->
  get k (clean args) = match get k args with Some v => kept v | None => None end.
Proof. intros Hd. unfold clean. rewrite get_filter_values by exact Hd. reflexivity. Qed.

Lemma kept_Some (v w : pyval) : kept v = Some w -> w = v /\ v <> PNone /\ v <> PList [].
Proof.
  unfold kept. destruct v as [| | | | |[|x l]| | |]; simpl; intros [= <-];
    repeat split; discriminate.
Qed.

Lemma base_args_inv (collections_filter ids_filter : option (list string))
    (bbox_filter : option (list pyfloat)) (datetime : option string)
    (properties : option (list string)) (cql_filter : option AstType)
    (sortby : option string) (q : pyval) (limit : Z) (offset : option string)
    (args : pydict) :
  base_args collections_filter ids_filter bbox_filter datetime properties
    cql_filter sortby q limit offset = Ok args ->
  List.NoDup (keys args)
  /\ get "collections" args = Some (of_opt_strs collections_filter)
  /\ get "ids" args = Some (of_opt_strs ids_filter)
  /\ get "bbox" args = Some (of_opt_floats bbox_filter)
  /\ get "limit" args = Some (PInt (limit_or_default limit))
  /\ get "token" args = Some (of_opt_str offset)
  /\ get "query" args = Some q
  /\ get "datetime" args
     = match datetime with
       | Some d => if PyStr.truthy d then Some (PStr d) else None
       | None => None
       end
  /\ get "sortby" args
     = match sortby with
       | Some s => if PyStr.truthy s then Some (PList (sort_param s)) else None
       | None => None
       end
  /\ get "fields" args
     = match properties with
       | Some ((_ :: _) as props) =>
           Some (PDict [("include", PSet (list_to_set props));
                        ("exclude", PSet ∅)])
       | _ => None
       end.
Proof.
  unfold base_args. intros Hargs.
  destruct cql_filter as [f|];
    [destruct (ast_truthy f);
     [destruct (json_loads (to_cql2 f)) as [v|e]; [|discriminate]|]|];
    unfold mbind, result_bind, mret, result_ret in Hargs;
    cbv beta iota in Hargs; injection Hargs as <-;
    (split;
     [ destruct datetime as [d|]; [destruct (PyStr.truthy d)|];
       (destruct sortby as [s|]; [destruct (PyStr.truthy s)|]);
       destruct properties as [[|x props]|];
       distinct_keys
     | destruct datetime as [d|]; [destruct (PyStr.truthy d)|];
       (destruct sortby as [s|]; [destruct (PyStr.truthy s)|]);
       destruct properties as [[|x props]|];
       repeat split; reflexivity ]).
Qed.

Lemma base_args_total (collections_filter ids_filter : option (list string))
    (bbox_filter : option (list pyfloat)) (datetime : option string)
    (properties : option (list string)) (cql_filter : option AstType)
    (sortby : option string) (q : pyval) (limit : Z) (offset : option string) :
  (forall f, cql_filter = Some f -> exists v, json_loads (to_cql2 f) = Ok v) ->
  exists args,
    base_args collections_filter ids_filter bbox_filter datetime properties
      cql_filter sortby q limit offset = Ok args.
Proof.
  intros Hcql. unfold base_args. destruct cql_filter as [f|].
  - destruct (ast_truthy f); [|simpl; eauto].
    destruct (Hcql f eq_refl) as [v ->]. simpl. eauto.
  - simpl. eauto.
Qed.

Lemma search_request_inv (collections_filter ids_filter : option (list string))
    (bbox_filter : option (list pyfloat))
    (datetime_filter : option (list string))
    (properties : option (list string)) (cql_filter : option AstType)
    (sortby query : option string) (limit : Z) (offset : option string)
    (args : pydict) :
  search_request collections_filter ids_filter bbox_filter datetime_filter
    properties cql_filter sortby query limit offset = Ok args ->
  exists datetime q base,
    search_datetime datetime_filter = Ok datetime
    /\ search_query query = Ok q
    /\ base_args collections_filter ids_filter bbox_filter datetime
         properties cql_filter sortby q limit offset = Ok base
    /\ args = clean base.
Proof.
  unfold search_request. intros H.
  destruct (search_datetime datetime_filter) as [datetime|]; [|discriminate].
  destruct (search_query query) as [q|]; [|discriminate].
  simpl in H.
  destruct (base_args _ _ _ _ _ _ _ _ _ _) as [base|] eqn:Hb; [|discriminate].
  simpl in H. injection H as <-. eauto 7.
Qed.


(** *** The datetime interval of [get_search] *)

Lemma interval_end_open (d : string) :
  open_end d = true -> interval_end d = Ok None.
Proof. unfold interval_end. intros ->. reflexivity. Qed.

Lemma interval_end_closed (d : string) (t : Z) :
  open_end d = false -> parse_rfc3339 d = Ok t -> interval_end d = Ok (Some t).
Proof. unfold interval_end. intros -> ->. reflexivity. Qed.

Lemma joined_truthy (d0 d1 : string) : PyStr.truthy (d0 ++ "/" ++ d1) = true.
Proof. destruct d0; reflexivity. Qed.

(** The interval is rejoined when it is not open at both ends and not
    closed with its start after its end. *)
Lemma search_datetime_rejoined (d0 d1 : string) :
  (forall d, In d [d0; d1] -> open_end d = false ->
             exists t, parse_rfc3339 d = Ok t) ->
  ~ (open_end d0 = true /\ open_end d1 = true) ->
  (forall s e, open_end d0 = false -> open_end d1 = false ->
               parse_rfc3339 d0 = Ok s -> parse_rfc3339 d1 = Ok e ->
               (s <= e)%Z) ->
  search_datetime (Some [d0; d1]) = Ok (Some (d0 ++ "/" ++ d1)).
Proof.
  intros Hvalid Hopen Horder. unfold search_datetime.
  destruct (open_end d0) eqn:H0, (open_end d1) eqn:H1.
  - exfalso. apply Hopen. split; reflexivity.
  - destruct (Hvalid d1) as [e He]; [simpl; auto | exact H1 |].
    rewrite (interval_end_open d0 H0), (interval_end_closed d1 e H1 He).
    reflexivity.
  - destruct (Hvalid d0) as [s Hs]; [simpl; auto | exact H0 |].
    rewrite (interval_end_closed d0 s H0 Hs), (interval_end_open d1 H1).
    reflexivity.
  - destruct (Hvalid d0) as [s Hs]; [simpl; auto | exact H0 |].
    destruct (Hvalid d1) as [e He]; [simpl; auto | exact H1 |].
    rewrite (interval_end_closed d0 s H0 Hs), (interval_end_closed d1 e H1 He).
    simpl. pose proof (Horder s e eq_refl eq_refl Hs He) as Hle.
    destruct (Z.ltb_spec e s); [lia | reflexivity].
Qed.

Lemma base_args_raises (collections_filter ids_filter : option (list string))
    (bbox_filter : option (list pyfloat)) (datetime : option string)
    (properties : option (list string)) (cql_filter : option AstType)
    (sortby : option string) (q : pyval) (limit : Z) (offset : option string)
    (e : exn) :
  base_args collections_filter ids_filter bbox_filter datetime properties
    cql_filter sortby q limit offset = Raise e ->
  exists f,
    cql_filter = Some f /\ ast_truthy f = true
    /\ json_loads (to_cql2 f) = Raise e.
Proof.
  unfold base_args. destruct cql_filter as [f|]; [|discriminate].
  destruct (ast_truthy f) eqn:Hf; [|discriminate].
  destruct (json_loads (to_cql2 f)) as [v|e'] eqn:Hv; [discriminate|].
  intros [= <-]. eauto.
Qed.

(** C2. For a two-part datetime interval whose parts are each an open end
    ([..] or empty) or an RFC 3339 instant, [get_search] fails with the
    invalid-datetime error, before any call to the data layer, when both
    parts are open ends, and when both parts are instants and the start is
    after the end; otherwise the interval passes: the two parts joined with
    [/] are the datetime of the request that is assembled, and when the
    query and the filter can be parsed the handler does assemble this
    request, and either its validation fails, which is then the error, or
    the handler makes its one call to the data layer with the validated
    request and answers with the outcome of that search; an error that the
    handler raises before any call is then that of the query, of the filter
    or of the validation, not one of the interval. *)
Theorem get_search_datetime_interval (request : Request)
    (collections_filter ids_filter : option (list string))
    (bbox_filter : option (list pyfloat))
    (properties : option (list string)) (cql_filter : option AstType)
    (sortby query : option string) (limit : Z) (offset : option string)
    (bbox_only : option bool) (simplify : option pyfloat)
    (output_type : option MediaType) (d0 d1 : string) :
  let outcome :=
    run (get_search request collections_filter ids_filter bbox_filter
           (Some [d0; d1]) properties cql_filter sortby query limit offset
           bbox_only simplify output_type) in
  (forall d, In d [d0; d1] -> open_end d = false ->
             exists t, parse_rfc3339 d = Ok t) ->
  (open_end d0 = true -> open_end d1 = true ->
   exists msg, outcome = (Raise (InvalidDatetime msg), []))
  /\ (forall s e,
        open_end d0 = false -> open_end d1 = false ->
        parse_rfc3339 d0 = Ok s -> parse_rfc3339 d1 = Ok e -> (e < s)%Z ->
        exists msg, outcome = (Raise (InvalidDatetime msg), []))
  /\ (~ (open_end d0 = true /\ open_end d1 = true) ->
      (forall s e, open_end d0 = false -> open_end d1 = false ->
                   parse_rfc3339 d0 = Ok s -> parse_rfc3339 d1 = Ok e ->
                   (s <= e)%Z) ->
      search_datetime (Some [d0; d1]) = Ok (Some (d0 ++ "/" ++ d1))
      /\ (forall args,
            search_request collections_filter ids_filter bbox_filter
              (Some [d0; d1]) properties cql_filter sortby query limit offset
            = Ok args ->
            get "datetime" args = Some (PStr (d0 ++ "/" ++ d1)))
      /\ (forall s,
            In (CallSearch s) (snd outcome) ->
            exists args,
              model_validate args = Ok s
              /\ get "datetime" args = Some (PStr (d0 ++ "/" ++ d1)))
      /\ (forall q,
            search_query query = Ok q ->
            (forall f, cql_filter = Some f ->
                       exists v, json_loads (to_cql2 f) = Ok v) ->
            exists args,
              search_request collections_filter ids_filter bbox_filter
                (Some [d0; d1]) properties cql_filter sortby query limit
                offset
              = Ok args
              /\ get "datetime" args = Some (PStr (d0 ++ "/" ++ d1))
              /\ (forall e,
                    model_validate args = Raise e -> outcome = (Raise e, []))
              /\ (forall s,
                    model_validate args = Ok s ->
                    snd outcome = [CallSearch s]
                    /\ fst outcome
                       = (item_list ← pgstac_search s;
                          search_response request
                            (default geojson output_type) item_list)))
      /\ (forall e,
            outcome = (Raise e, []) ->
            search_query query = Raise e
            \/ (exists f,
                  cql_filter = Some f /\ ast_truthy f = true
                  /\ json_loads (to_cql2 f) = Raise e)
            \/ (exists args,
                  search_request collections_filter ids_filter bbox_filter
                    (Some [d0; d1]) properties cql_filter sortby query limit
                    offset
                  = Ok args
                  /\ get "datetime" args = Some (PStr (d0 ++ "/" ++ d1))
                  /\ model_validate args = Raise e))).
Proof.
  intros outcome Hvalid. subst outcome. rewrite run_get_search.
  split; [|split].
  - intros H0 H1. unfold search_request, search_datetime.
    rewrite (interval_end_open d0 H0), (interval_end_open d1 H1). simpl. eauto.
  - intros s e H0 H1 Hs He Hlt. unfold search_request, search_datetime.
    rewrite (interval_end_closed d0 s H0 Hs), (interval_end_closed d1 e H1 He).
    simpl. destruct (Z.ltb_spec e s); [simpl; eauto | lia].
  - intros Hopen Horder.
    pose proof (search_datetime_rejoined d0 d1 Hvalid Hopen Horder) as Hdt.
    assert (Hargs : forall args,
               search_request collections_filter ids_filter bbox_filter
                 (Some [d0; d1]) properties cql_filter sortby query limit offset
               = Ok args ->
               get "datetime" args = Some (PStr (d0 ++ "/" ++ d1))).
    { intros args Hreq.
      destruct (search_request_inv _ _ _ _ _ _ _ _ _ _ _ Hreq)
        as (datetime & q & base & Hdt' & _ & Hbase & ->).
      rewrite Hdt in Hdt'. injection Hdt' as <-.
      destruct (base_args_inv _ _ _ _ _ _ _ _ _ _ _ Hbase)
        as (Hnd & _ & _ & _ & _ & _ & _ & Hd & _).
      rewrite get_clean by exact Hnd. rewrite Hd, joined_truthy. reflexivity. }
    split; [exact Hdt|]. split; [exact Hargs|]. split; [|split].
    + intros s Hin.
      destruct (search_request _ _ _ _ _ _ _ _ _ _) as [args|e] eqn:Hreq;
        [|destruct Hin].
      destruct (model_validate args) as [s'|e] eqn:Hs; [|destruct Hin].
      simpl in Hin. destruct Hin as [[= <-]|[]].
      exists args. split; [exact Hs | apply Hargs; reflexivity].
    + intros q Hq Hcql.
      destruct (base_args_total collections_filter ids_filter bbox_filter
                  (Some (d0 ++ "/" ++ d1)) properties cql_filter sortby q
                  limit offset Hcql) as [base Hbase].
      assert (Hreq : search_request collections_filter ids_filter bbox_filter
                       (Some [d0; d1]) properties cql_filter sortby query
                       limit offset = Ok (clean base)).
      { unfold search_request. rewrite Hdt, Hq. simpl. rewrite Hbase.
        reflexivity. }
      exists (clean base). split; [exact Hreq|].
      split; [apply Hargs, Hreq|]. rewrite Hreq. split.
      * intros e ->. reflexivity.
      * intros s ->. split; reflexivity.
    + intros e Hout.
      destruct (search_request _ _ _ _ _ _ _ _ _ _) as [args|e'] eqn:Hreq.
      * destruct (model_validate args) as [s|e''] eqn:Hs.
        -- injection Hout as _ Hnil. discriminate Hnil.
        -- injection Hout as ->. right. right. exists args.
           split; [reflexivity|]. split; [apply Hargs; reflexivity | exact Hs].
      * injection Hout as ->. unfold search_request in Hreq.
        rewrite Hdt in Hreq.
        destruct (search_query query) as [q|e'] eqn:Hq.
        -- simpl in Hreq.
           destruct (base_args _ _ _ _ _ _ _ _ _ _) as [base|e'] eqn:Hbase;
             [discriminate Hreq|].
           simpl in Hreq. injection Hreq as ->. right. left.
           eapply base_args_raises, Hbase.
        -- simpl in Hreq. injection Hreq as ->. left. reflexivity.
Qed.

(** *** Pagination links *)

Lemma offset_is_next (q : QueryParams) (t : string) :
  offset_is q t (set "offset" t (of_items (of_items q))).
Proof.
  rewrite of_items_of_items. split; [apply UrllibFacts.parse_qsl_urlencode|].
  split; [apply (NoDup_set "offset" t), NoDup_of_items|].
  split; [apply get_set_eq|].
  intros k Hk. rewrite get_set_ne by congruence. apply get_of_items.
Qed.

Lemma prev_params (q : QueryParams) (t : string) :
  set "offset" t (of_items (remove "offset" (of_items (of_items q))))
  = (remove "offset" (of_items q) ++ [("offset", t)])%list.
Proof.
  rewrite of_items_of_items.
  rewrite (of_items_id (remove "offset" (of_items q)))
    by apply NoDup_remove, NoDup_of_items.
  apply set_absent. apply get_None, get_remove_eq, NoDup_of_items.
Qed.

Lemma offset_is_prev (q : QueryParams) (t : string) :
  offset_is q t (remove "offset" (of_items q) ++ [("offset", t)])%list.
Proof.
  rewrite <- prev_params, of_items_of_items.
  rewrite (of_items_id (remove "offset" (of_items q)))
    by apply NoDup_remove, NoDup_of_items.
  split; [apply UrllibFacts.parse_qsl_urlencode|].
  split; [apply (NoDup_set "offset" t), NoDup_remove, NoDup_of_items|].
  split; [apply get_set_eq|].
  intros k Hk. rewrite get_set_ne by congruence.
  rewrite get_remove_ne by congruence. apply get_of_items.
Qed.

Lemma prev_params_truthy (q : QueryParams) (t : string) :
  qp_truthy (qp_of_dict
               (set "offset" t
                  (of_items (remove "offset" (of_items (of_items q))))))
  = true.
Proof.
  rewrite prev_params. unfold qp_truthy, qp_of_dict, qp_dict.
  rewrite of_items_id.
  - destruct (remove "offset" (of_items q)); reflexivity.
  - rewrite <- prev_params, of_items_of_items.
    rewrite (of_items_id (remove "offset" (of_items q)))
      by apply NoDup_remove, NoDup_of_items.
    apply (NoDup_set "offset" t), NoDup_remove, NoDup_of_items.
Qed.

(** Without an [offset] parameter in the request, a previous-page token
    makes the link block raise. *)
Lemma page_links_KeyError (request : Request) (url : string)
    (item_list : ItemList) (t : string) :
  ~ In "offset" (map fst (query_params request)) ->
  prev item_list = Some t ->
  page_links request url item_list = Raise (KeyError "offset").
Proof.
  intros Hno Hprev. unfold page_links, prev_link. rewrite Hprev.
  unfold dict_pop, mem, qp_dict. rewrite of_items_of_items.
  assert (E : get "offset" (of_items (query_params request)) = None).
  { apply get_None. rewrite in_keys_of_items. exact Hno. }
  rewrite E. reflexivity.
Qed.

(** With one, or without a previous-page token, it gives links. *)
Lemma page_links_total (request : Request) (url : string)
    (item_list : ItemList) :
  prev item_list = None \/ In "offset" (map fst (query_params request)) ->
  exists L, page_links request url item_list = Ok L.
Proof.
  intros Hok. unfold page_links, prev_link.
  destruct (prev item_list) as [t|]; [|simpl; eauto].
  destruct Hok as [|Hin]; [discriminate|].
  unfold dict_pop, mem, qp_dict. rewrite of_items_of_items.
  destruct (get "offset" (of_items (query_params request))) eqn:E.
  - simpl. eauto.
  - apply get_None in E. rewrite in_keys_of_items in E. contradiction.
Qed.

Lemma page_links_paged (request : Request) (url : string)
    (item_list : ItemList) (L : list pyval) :
  page_links request url item_list = Ok L -> paged request url item_list L.
Proof.
  unfold page_links, next_link, prev_link, paged, dict_pop, qp_str, qp_dict.
  intros HL.
  destruct (prev item_list) as [tp|] eqn:Hprev.
  - destruct (mem "offset" (of_items (of_items (query_params request))));
      [|discriminate].
    simpl in HL. rewrite prev_params_truthy in HL.
    unfold qp_of_dict in HL. rewrite prev_params in HL.
    destruct (next item_list) as [tn|] eqn:Hnext;
      [destruct tn as [|c tn]|]; simpl in HL; injection HL as <-.
    + split; [intros t [= <-]; congruence|]. split; [reflexivity|].
      split; [|discriminate]. intros t [= <-]. eexists.
      split; [reflexivity|]. split; [apply offset_is_prev|].
      intros Hq. rewrite (of_items_id _ Hq). reflexivity.
    + split; [|split; [intros [|]; discriminate|split; [|discriminate]]].
      * intros t [= <-] _. eexists. split; [reflexivity|].
        split; [apply offset_is_next|].
        intros Hq. unfold qp_of_dict.
        rewrite of_items_of_items, (of_items_id _ Hq). reflexivity.
      * intros t [= <-]. eexists.
        split; [reflexivity|]. split; [apply offset_is_prev|].
        intros Hq. rewrite (of_items_id _ Hq). reflexivity.
    + split; [discriminate|]. split; [reflexivity|].
      split; [|discriminate]. intros t [= <-]. eexists.
      split; [reflexivity|]. split; [apply offset_is_prev|].
      intros Hq. rewrite (of_items_id _ Hq). reflexivity.
  - destruct (next item_list) as [tn|] eqn:Hnext;
      [destruct tn as [|c tn]|]; simpl in HL; injection HL as <-.
    + split; [intros t [= <-]; congruence|]. split; [reflexivity|].
      split; [discriminate | reflexivity].
    + split; [|split; [intros [|]; discriminate|split; [discriminate|reflexivity]]].
      intros t [= <-] _. eexists. split; [reflexivity|].
      split; [apply offset_is_next|].
      intros Hq. unfold qp_of_dict.
      rewrite of_items_of_items, (of_items_id _ Hq). reflexivity.
    + split; [discriminate|]. split; [reflexivity|].
      split; [discriminate | reflexivity].
Qed.

Lemma paged_after (request : Request) (url : string) (item_list : ItemList)
    (before L : list pyval) :
  Forall (fun l => rel_is "next" l = false /\ rel_is "prev" l = false) before ->
  paged request url item_list L ->
  paged request url item_list (before ++ L)%list.
Proof.
  intros Hb. unfold paged.
  assert (E : forall rel, rel = "next" \/ rel = "prev" ->
                List.filter (rel_is rel) (before ++ L)%list
                = List.filter (rel_is rel) L).
  { intros rel Hrel. rewrite List.filter_app.
    replace (List.filter (rel_is rel) before) with (@nil pyval); [reflexivity|].
    induction Hb as [|x before [Hn Hp] _ IH]; [reflexivity|].
    simpl. destruct Hrel as [-> | ->]; [rewrite Hn | rewrite Hp]; auto. }
  rewrite !E by auto. tauto.
Qed.

Lemma search_feature_ok (request : Request) (f : pydict) :
  search_item f -> exists v, search_feature request f = Ok v.
Proof.
  intros [Hc Hi]. unfold search_feature, ditem, mem in *.
  destruct (get "collection" f); [|discriminate].
  destruct (get "id" f); [|discriminate]. simpl. eauto.
Qed.

Lemma with_links_not_flat (output_type : option MediaType) :
  with_links output_type -> flat_output (default geojson output_type) = false.
Proof. intros [-> | [-> | ->]]; reflexivity. Qed.

(** The links of the listing response are the collection link, the self
    link and the links of the page. *)
Lemma items_response_paged (request : Request) (collection : PgSTACCollection)
    (output_type : option MediaType) (item_list : ItemList) :
  with_links output_type ->
  prev item_list = None \/ In "offset" (map fst (query_params request)) ->
  exists response,
    items_response request collection (default geojson output_type) item_list
    = Ok response
    /\ paged request
         (url_for request "items" [("collectionId", PStr (id collection))])
         item_list (response_links response).
Proof.
  intros Hout Hok. unfold items_response.
  rewrite (with_links_not_flat output_type Hout).
  destruct (page_links_total request
              (url_for request "items" [("collectionId", PStr (id collection))])
              item_list Hok) as [L HL].
  rewrite HL. simpl. eexists. split; [reflexivity|].
  apply page_links_paged in HL.
  destruct Hout as [-> | [-> | ->]]; simpl;
    apply (paged_after _ _ _ [_; _]); auto;
    repeat constructor.
Qed.

Lemma search_response_paged (request : Request)
    (output_type : option MediaType) (item_list : ItemList)
    (response : Response) :
  with_links output_type ->
  search_response request (default geojson output_type) item_list
  = Ok response ->
  paged request (url_for request "get_search" []) item_list
    (response_links response).
Proof.
  intros Hout. unfold search_response.
  rewrite (with_links_not_flat output_type Hout).
  destruct (page_links _ _ _) as [L|] eqn:HL; [|discriminate]. simpl.
  destruct (mapM _ _) as [feats|]; [|discriminate]. simpl.
  intros [= <-]. apply page_links_paged in HL.
  destruct Hout as [-> | [-> | ->]]; exact HL.
Qed.

Lemma search_response_total (request : Request)
    (output_type : option MediaType) (item_list : ItemList) :
  with_links output_type ->
  prev item_list = None \/ In "offset" (map fst (query_params request)) ->
  Forall search_item (items_of item_list) ->
  exists response,
    search_response request (default geojson output_type) item_list
    = Ok response.
Proof.
  intros Hout Hok Hitems. unfold search_response.
  rewrite (with_links_not_flat output_type Hout).
  destruct (page_links_total request (url_for request "get_search" [])
              item_list Hok) as [L ->]. simpl.
  destruct (mapM_rows (search_feature request) (fun _ _ => True)
              (items_of item_list)) as (feats & -> & _).
  { rewrite List.Forall_forall in Hitems. intros f Hf.
    destruct (search_feature_ok request f (Hitems f Hf)) as [v Hv]. eauto. }
  simpl. eauto.
Qed.

(** C1, as the code has it. A GeoJSON or HTML response of the item listing
    or of GET search has, for a non-empty next token of the envelope,
    exactly one next link, and for a prev token exactly one prev link; the
    query string of the link encodes the parameters of the request, one
    value per name (the last one, when the request repeats a name), with
    offset set to the token: in place or appended for next, removed and
    appended anew for prev; no name occurs twice, and the token is the value
    of offset as it is, read back unchanged from the query string.  Without
    a token (for next: also with an empty one) there is no such link.  A
    request that gives each name once keeps all its parameters.  The
    handlers answer when the request has an offset parameter or the envelope
    has no prev token. *)
Theorem pagination_links (request : Request) (output_type : option MediaType)
    (item_list : ItemList) :
  with_links output_type ->
  prev item_list = None \/ In "offset" (map fst (query_params request)) ->
  (forall collection ids_filter bbox_filter datetime_filter properties
          cql_filter sortby query limit offset bbox_only simplify a,
     let outcome :=
       run (items request collection ids_filter bbox_filter datetime_filter
              properties cql_filter sortby query limit offset bbox_only
              simplify output_type) in
     snd outcome = [CallFeatures collection a] ->
     collection_features collection a = Ok item_list ->
     exists response,
       fst outcome = Ok response
       /\ paged request
            (url_for request "items" [("collectionId", PStr (id collection))])
            item_list (response_links response))
  /\ (forall collections_filter ids_filter bbox_filter datetime_filter
             properties cql_filter sortby query limit offset bbox_only
             simplify args s,
        search_request collections_filter ids_filter bbox_filter
          datetime_filter properties cql_filter sortby query limit offset
        = Ok args ->
        model_validate args = Ok s ->
        pgstac_search s = Ok item_list ->
        Forall search_item (items_of item_list) ->
        exists response,
          fst (run (get_search request collections_filter ids_filter
                      bbox_filter datetime_filter properties cql_filter
                      sortby query limit offset bbox_only simplify
                      output_type))
          = Ok response
          /\ paged request (url_for request "get_search" []) item_list
               (response_links response)).
Proof.
  intros Hout Hok. split.
  - intros collection ids_filter bbox_filter datetime_filter properties
      cql_filter sortby query limit offset bbox_only simplify a outcome
      Htrace Hcall.
    subst outcome. unfold items in *. rewrite run_features in *.
    simpl in Htrace. injection Htrace as <-. simpl fst. rewrite Hcall. simpl.
    apply items_response_paged; assumption.
  - intros collections_filter ids_filter bbox_filter datetime_filter
      properties cql_filter sortby query limit offset bbox_only simplify
      args s Hargs Hs Hcall Hitems.
    rewrite run_get_search, Hargs, Hs. simpl fst. rewrite Hcall. simpl.
    destruct (search_response_total request output_type item_list Hout Hok
                Hitems) as [response Hr].
    exists response. split; [exact Hr|].
    eapply search_response_paged; eassumption.
Qed.

(** C4, as the code has it. In the item listing, GET search and POST
    search, when the output is not CSV, JSON or NDJSON, the request has no
    offset parameter and the envelope has a prev token, the handler raises
    KeyError, which is none of the three client errors, and gives no
    response. *)
Theorem prev_link_without_offset (request : Request)
    (output_type : option MediaType) (item_list : ItemList) (t : string) :
  flat_output (default geojson output_type) = false ->
  ~ In "offset" (map fst (query_params request)) ->
  prev item_list = Some t ->
  (forall collection ids_filter bbox_filter datetime_filter properties
          cql_filter sortby query limit offset bbox_only simplify a,
     let outcome :=
       run (items request collection ids_filter bbox_filter datetime_filter
              properties cql_filter sortby query limit offset bbox_only
              simplify output_type) in
     snd outcome = [CallFeatures collection a] ->
     collection_features collection a = Ok item_list ->
     fst outcome = Raise (KeyError "offset"))
  /\ (forall collections_filter ids_filter bbox_filter datetime_filter
             properties cql_filter sortby query limit offset bbox_only
             simplify args s,
        search_request collections_filter ids_filter bbox_filter
          datetime_filter properties cql_filter sortby query limit offset
        = Ok args ->
        model_validate args = Ok s ->
        pgstac_search s = Ok item_list ->
        fst (run (get_search request collections_filter ids_filter
                    bbox_filter datetime_filter properties cql_filter sortby
                    query limit offset bbox_only simplify output_type))
        = Raise (KeyError "offset"))
  /\ (forall s,
        pgstac_search s = Ok item_list ->
        fst (run (post_search request s output_type))
        = Raise (KeyError "offset"))
  /\ (forall msg,
        KeyError "offset" <> NoPrimaryKey msg
        /\ KeyError "offset" <> NotFound msg
        /\ KeyError "offset" <> InvalidDatetime msg).
Proof.
  intros Hflat Hno Hprev.
  assert (Hsearch : search_response request (default geojson output_type)
                      item_list = Raise (KeyError "offset")).
  { unfold search_response. rewrite Hflat.
    rewrite (page_links_KeyError request _ item_list t Hno Hprev).
    reflexivity. }
  split; [|split; [|split]].
  - intros collection ids_filter bbox_filter datetime_filter properties
      cql_filter sortby query limit offset bbox_only simplify a outcome
      Htrace Hcall.
    subst outcome. unfold items in *. rewrite run_features in *.
    simpl in Htrace. injection Htrace as <-. simpl fst. rewrite Hcall. simpl.
    unfold items_response. rewrite Hflat.
    rewrite (page_links_KeyError request _ item_list t Hno Hprev).
    reflexivity.
  - intros collections_filter ids_filter bbox_filter datetime_filter
      properties cql_filter sortby query limit offset bbox_only simplify
      args s Hargs Hs Hcall.
    rewrite run_get_search, Hargs, Hs. simpl fst. rewrite Hcall. exact Hsearch.
  - intros s Hcall. unfold post_search. rewrite run_search. simpl fst.
    rewrite Hcall. exact Hsearch.
  - intros msg. repeat split; discriminate.
Qed.

(** C10. The response of POST search is a function of the request's URL
    and of the answer of the data layer alone: two bodies that get the same
    answer get the same response, links included; and the pagination links
    of a GeoJSON or HTML response point at the GET search route, with the
    parameters of the URL query and the token, so that nothing of the body
    is in them.  POST search does answer with such a response, after its one
    call to the data layer, when the features of the envelope have a
    collection and an id, and the request has an offset parameter or the
    envelope has no prev token. *)
Theorem post_search_links_ignore_body (request : Request)
    (output_type : option MediaType) (body1 body2 : PgSTACSearch) :
  pgstac_search body1 = pgstac_search body2 ->
  fst (run (post_search request body1 output_type))
  = fst (run (post_search request body2 output_type))
  /\ (forall item_list response,
        with_links output_type ->
        pgstac_search body1 = Ok item_list ->
        fst (run (post_search request body1 output_type)) = Ok response ->
        paged request (url_for request "get_search" []) item_list
          (response_links response))
  /\ (forall item_list,
        with_links output_type ->
        pgstac_search body1 = Ok item_list ->
        prev item_list = None \/ In "offset" (map fst (query_params request)) ->
        Forall search_item (items_of item_list) ->
        exists response,
          run (post_search request body1 output_type)
          = (Ok response, [CallSearch body1])
          /\ run (post_search request body2 output_type)
             = (Ok response, [CallSearch body2])
          /\ paged request (url_for request "get_search" []) item_list
               (response_links response)).
Proof.
  intros Hsame. unfold post_search. rewrite !run_search. simpl fst.
  split; [|split].
  - rewrite Hsame. reflexivity.
  - intros item_list response Hout Hcall. rewrite Hcall. simpl.
    apply search_response_paged. exact Hout.
  - intros item_list Hout Hcall Hok Hitems. rewrite <- Hsame, Hcall. simpl.
    destruct (search_response_total request output_type item_list Hout Hok
                Hitems) as [response Hr].
    exists response. rewrite Hr. split; [reflexivity|].
    split; [reflexivity|]. eapply search_response_paged; eassumption.
Qed.

End FactoryProperties.

(** ** The handlers on the reference boundary *)

Section Examples.
Import Reference.

Example get_search_both_open_ends :
  run (get_search (B := fixed None None) first_page None None None
         (Some [".."; ".."]) None None None None 10 None None None None)
  = (Raise (InvalidDatetime
              "Double open-ended datetime intervals are not allowed."), []).
Proof. reflexivity. Qed.

Example get_search_start_after_end :
  run (get_search (B := fixed None None) first_page None None None
         (Some ["2024-01-01T00:00:00Z"; "2023-01-01T00:00:00Z"]) None None
         None None 10 None None None None)
  = (Raise (InvalidDatetime "Start datetime cannot be before end datetime."),
     []).
Proof. vm_compute. reflexivity. Qed.

Example get_search_open_start :
  search_request (B := fixed None None) None None None
    (Some [".."; "2024-01-01T00:00:00Z"]) None None None None 0 None
  = Ok [("limit", PInt 10); ("datetime", PStr "../2024-01-01T00:00:00Z")].
Proof. vm_compute. reflexivity. Qed.

(** The next and prev links of a following page. *)
Lemma pagination_links_witness :
  with_links None
  /\ (prev (page (Some "T") (Some "P")) = None
      \/ In "offset" (map fst (query_params following_page)))
  /\ exists response,
       fst (run (items (B := fixed (Some "T") (Some "P")) following_page
                   a_collection None None None None None None None 10
                   (Some "T0") None None None))
       = Ok response
       /\ paged following_page "http://api/items/c1"
            (page (Some "T") (Some "P")) (response_links response).
Proof.
  assert (H1 : with_links None) by (left; reflexivity).
  assert (H2 : prev (page (Some "T") (Some "P")) = None
               \/ In "offset" (map fst (query_params following_page)))
    by (right; simpl; auto).
  split; [exact H1|]. split; [exact H2|].
  destruct (pagination_links (B := fixed (Some "T") (Some "P")) following_page
              None (page (Some "T") (Some "P")) H1 H2) as [Hitems _].
  exact (Hitems a_collection None None None None None None None 10%Z
           (Some "T0") None None _ eq_refl eq_refl).
Defined.

(** C1, as the claim has it, fails on a request that repeats a parameter:
    the next link keeps the last value only. *)
Lemma next_link_drops_repeated_parameter :
  exists response P,
    fst (run (items (B := fixed (Some "T") None) repeated a_collection
                None None None None None None None 10 None None None None))
    = Ok response
    /\ List.filter (rel_is "next") (response_links response)
       = [page_link "next" "Next page"
            ("http://api/items/c1?" ++ Urllib.urlencode P)]
    /\ Urllib.urlencode P = "ids=b&offset=T"
    /\ ~ preserves_parameters (query_params repeated) P.
Proof.
  eexists. exists [("ids", "b"); ("offset", "T")].
  split; [vm_compute; reflexivity|]. split; [vm_compute; reflexivity|].
  split; [vm_compute; reflexivity|].
  intros H. specialize (H "ids" "a").
  destruct H as [H|[H|[]]]; [discriminate | simpl; auto | | ]; discriminate H.
Qed.

(** An interval that is open at its start: it passes, and the search is
    made with it. *)
Lemma get_search_datetime_interval_witness :
  (forall d, In d [".."; "2024-01-01T00:00:00Z"] -> open_end d = false ->
             exists t, utc_seconds d = Ok t)
  /\ search_datetime (B := fixed None None)
       (Some [".."; "2024-01-01T00:00:00Z"])
     = Ok (Some "../2024-01-01T00:00:00Z")
  /\ exists args response,
       run (get_search (B := fixed None None) first_page None None None
              (Some [".."; "2024-01-01T00:00:00Z"]) None None None None 10
              None None None None)
       = (Ok response, [CallSearch args])
       /\ PyDict.get "datetime" args = Some (PStr "../2024-01-01T00:00:00Z").
Proof.
  assert (Hvalid : forall d, In d [".."; "2024-01-01T00:00:00Z"] ->
                             open_end d = false ->
                             exists t, utc_seconds d = Ok t).
  { intros d [<-|[<-|[]]] Hd; [discriminate Hd|].
    exists 1704067200%Z. vm_compute. reflexivity. }
  split; [exact Hvalid|].
  destruct (get_search_datetime_interval (B := fixed None None) first_page
              None None None None None None None 10%Z None None None None
              ".." "2024-01-01T00:00:00Z" Hvalid) as (_ & _ & Hpass).
  destruct Hpass as (Hjoin & _ & _ & Hrun & _).
  - intros [_ H]. discriminate H.
  - intros s e H. discriminate H.
  - split; [exact Hjoin|].
    assert (Hcql : forall f : unit, @None unit = Some f ->
                                    exists v, loads_text "{}" = Ok v)
      by (intros f H; discriminate H).
    destruct (Hrun PNone eq_refl Hcql) as (args & _ & Hdt & _ & Hcall).
    destruct (Hcall args eq_refl) as [Hsnd Hfst].
    exists args. eexists. split; [|exact Hdt].
    rewrite (surjective_pairing
               (run (get_search (B := fixed None None) first_page None None
                       None (Some [".."; "2024-01-01T00:00:00Z"]) None None
                       None None 10 None None None None))).
    rewrite Hfst, Hsnd. reflexivity.
Defined.

(** A known item of a collection without a primary key, then of one with. *)
Lemma item_lookup_witness :
  run (item (B := fixed None None) first_page a_table "i1" None None None None)
  = (Raise (NoPrimaryKey "No primary key is set on this table"), []).
Proof.
  apply (item_lookup (B := fixed None None) first_page a_table "i1" None None
           None None).
  reflexivity.
Defined.

(** A first-page request that is answered with a prev token. *)
Lemma prev_link_without_offset_witness :
  flat_output (default geojson None) = false
  /\ ~ In "offset" (map fst (query_params first_page))
  /\ prev (page None (Some "P")) = Some "P"
  /\ fst (run (post_search (B := fixed None (Some "P")) first_page [] None))
     = Raise (KeyError "offset").
Proof.
  assert (H1 : flat_output (default geojson None) = false) by reflexivity.
  assert (H2 : ~ In "offset" (map fst (query_params first_page))).
  { intros [H|[]]. discriminate H. }
  assert (H3 : prev (page None (Some "P")) = Some "P") by reflexivity.
  split; [exact H1|]. split; [exact H2|]. split; [exact H3|].
  destruct (prev_link_without_offset (B := fixed None (Some "P")) first_page
              None (page None (Some "P")) "P" H1 H2 H3) as (_ & _ & Hpost & _).
  apply Hpost. reflexivity.
Defined.

(** C4, as the claim has it, fails for the CSV output: the handler answers
    before it builds any link. *)
Lemma csv_listing_answers_without_offset :
  ~ In "offset" (map fst (query_params first_page))
  /\ prev (page None (Some "P")) = Some "P"
  /\ fst (run (items (B := fixed None (Some "P")) first_page a_collection
                 None None None None None None None 10 None None None
                 (Some csv)))
     = Ok (StreamingResponse
             (create_csv_rows
                [Ok [("collectionId", PStr "c1"); ("itemId", PStr "i1");
                     ("datetime", PStr "2024-01-01T00:00:00Z");
                     ("geometry", PStr "POINT(0 0)")]])
             csv "attachment;filename=items.csv")
  /\ fst (run (items (B := fixed None (Some "P")) first_page a_collection
                 None None None None None None None 10 None None None
                 (Some csv)))
     <> Raise (KeyError "offset").
Proof.
  split; [intros [H|[]]; discriminate H|]. split; [reflexivity|].
  split; [vm_compute; reflexivity|]. vm_compute. discriminate.
Qed.


Lemma one_item_has_mapping : has_mapping one_item.
Proof. eexists. reflexivity. Defined.

(** The reference page as CSV rows: the property [title], which is None,
    is not in the row. *)
Lemma items_flattened_rows_witness :
  flat_output csv = true
  /\ Forall has_mapping (items_of (page None None))
  /\ exists response rows,
       fst (run (items (B := fixed None None) first_page a_collection None
                   None None None None None None 10 None None None
                   (Some csv)))
       = Ok response
       /\ emitted_rows response = Some (map PDict rows)
       /\ Forall2 (flattened (PStr "c1")) (items_of (page None None)) rows.
Proof.
  assert (H1 : flat_output csv = true) by reflexivity.
  assert (H2 : Forall has_mapping (items_of (page None None))).
  { constructor; [exact one_item_has_mapping | constructor]. }
  split; [exact H1|]. split; [exact H2|].
  destruct (items_flattened_rows (B := fixed None None) first_page
              a_collection None None None None None None None 10%Z None None
              None csv _ (page None None) H1 eq_refl eq_refl H2)
    as [Hitems _].
  exact Hitems.
Defined.

(** The reference item as a JSON row: the geometry is in a tuple. *)
Lemma item_single_row_witness :
  flat_output json = true
  /\ has_mapping one_item
  /\ exists response row,
       fst (run (item (B := fixed None None) first_page a_collection "i1"
                   None None None (Some json)))
       = Ok response
       /\ emitted_rows response = Some [PDict row]
       /\ PyDict.get "geometry" row = Some (PTuple [PStr "POINT(0 0)"]).
Proof.
  assert (H1 : flat_output json = true) by reflexivity.
  split; [exact H1|]. split; [exact one_item_has_mapping|].
  destruct (item_single_row (B := fixed None None) first_page a_collection
              "i1" None None None json _ (page None None) one_item []
              H1 eq_refl eq_refl eq_refl one_item_has_mapping)
    as (response & row & Hr & Hrows & Hgeom).
  exists response, row. split; [exact Hr|]. split; [exact Hrows|].
  apply Hgeom. discriminate.
Defined.

(** Two bodies on a data layer that answers both alike, with a next
    token: both get the response whose next link points at GET search. *)
Lemma post_search_links_ignore_body_witness :
  pgstac_search (Boundary := fixed (Some "T") None) [("limit", PInt 1)]
  = pgstac_search (Boundary := fixed (Some "T") None) []
  /\ exists response,
       run (post_search (B := fixed (Some "T") None) first_page
              [("limit", PInt 1)] None)
       = (Ok response, [CallSearch [("limit", PInt 1)]])
       /\ run (post_search (B := fixed (Some "T") None) first_page [] None)
          = (Ok response, [CallSearch []])
       /\ List.filter (rel_is "next") (response_links response)
          = [page_link "next" "Next page"
               "http://api/get_search?limit=10&offset=T"].
Proof.
  split; [reflexivity|].
  destruct (post_search_links_ignore_body (B := fixed (Some "T") None)
              first_page None [("limit", PInt 1)] [] eq_refl)
    as (_ & _ & Hanswer).
  destruct (Hanswer (page (Some "T") None) (or_introl eq_refl) eq_refl
              (or_introl eq_refl))
    as (response & Hr1 & Hr2 & Hnext & _).
  { constructor; [split; reflexivity | constructor]. }
  exists response. split; [exact Hr1|]. split; [exact Hr2|].
  destruct (Hnext "T" eq_refl) as (P & Hlink & _ & HP); [discriminate|].
  rewrite Hlink, HP; [reflexivity|].
  constructor; [intros [] | constructor].
Defined.

End Examples.

(** * Further properties of the settings and of the handlers *)

(** ** Splitting and trimming *)

Section TextProperties.
Import PyStr PyStrFacts.

Lemma split_length (sep : ascii) (s : string) :
  length (split sep s) = S (count_char sep s).
Proof.
  induction s as [|c s IH]; [reflexivity|].
  simpl. destruct (Ascii.eqb c sep).
  - simpl. rewrite IH. reflexivity.
  - pose proof (split_not_nil sep s) as Hnil.
    destruct (split sep s) as [|w ws]; [congruence|]. exact IH.
Qed.


Lemma strip_without (x : ascii) (s : string) :
  has_char x s = false -> has_char x (strip s) = false.
Proof.
  intros Hs.
  destruct (StripFacts.strip_trimmed s) as [(pre & post & E & _) _].
  rewrite E in Hs. rewrite !has_char_app in Hs.
  apply orb_false_iff in Hs. destruct Hs as [_ Hs].
  apply orb_false_iff in Hs. tauto.
Qed.







(** X2. The CORS origins are never an empty list: there is one origin more
    than there are commas in the configured text, no origin holds a comma,
    and a text without a comma, the empty one included, gives the single
    origin that is the stripped text. *)
Theorem cors_origins_count (env : Settings.Env) :
  let raw := default "*" (Settings.env_cors_origins env) in
  let origins := Settings.cors_origins (Settings.load env) in
  length origins = S (count_char "," raw)
  /\ origins <> []
  /\ Forall (fun o => has_char "," o = false) origins
  /\ (has_char "," raw = false -> origins = [strip raw]).
Proof.
  intros raw origins. subst origins. simpl. fold raw.
  unfold Settings.parse_cors_origin.
  split; [|split; [|split]].
  - rewrite length_map. apply split_length.
  - pose proof (split_not_nil "," raw) as Hnil.
    destruct (split "," raw); [congruence | discriminate].
  - apply List.Forall_forall. intros o Ho. apply in_map_iff in Ho.
    destruct Ho as (p & <- & Hp). apply strip_without.
    eapply split_no_sep, Hp.
  - intros Hraw. rewrite split_no_char by exact Hraw. reflexivity.
Qed.

End TextProperties.

(** ** Output types, calls and errors *)

Section OutputProperties.
Import PyDict PyDictFacts.
Context `{B : Boundary}.

(** A computation in [result] that ends well ended well at each step. *)
Ltac steps H :=
  repeat match type of H with
         | context [list_of (gen ?g ?l)] => rewrite (list_of_gen g l) in H
         | context [mapM ?g ?l] =>
             let E := fresh "Hrows" in
             destruct (mapM g l) eqn:E; simpl in H; [|discriminate H]
         | context [page_links ?r ?u ?i] =>
             let E := fresh "Hlinks" in
             destruct (page_links r u i) eqn:E; simpl in H; [|discriminate H]
         end.

(** X3. The output type decides the kind of a listing response: CSV, JSON
    and NDJSON give rows and never a FeatureCollection; GeoJSON and HTML
    give a FeatureCollection and never rows; GeoJSON-sequence gives a stream
    of features. *)
Theorem output_type_decides_response (request : Request)
    (collection : PgSTACCollection) (output_type : MediaType)
    (item_list : ItemList) (response : Response) :
  items_response request collection output_type item_list = Ok response
  \/ search_response request output_type item_list = Ok response ->
  is_rows response = flat_output output_type
  /\ is_feature_collection response
     = MediaType_eqb output_type geojson || MediaType_eqb output_type html
  /\ is_feature_stream response = MediaType_eqb output_type geojsonseq.
Proof.
  intros [H|H]; [unfold items_response in H | unfold search_response in H];
    destruct output_type; simpl in H; steps H;
    injection H as <-; repeat split; reflexivity.
Qed.



(** X5. The item listing calls the data layer once, with the request's
    paging token and limit as they are, and the single-item handler, for a
    collection with a primary key, calls it once with no token, no limit and
    no filter other than the id; both ask for the geometry as well-known
    text exactly when the output is CSV, JSON or NDJSON. *)
Theorem geometry_as_text_for_flat_outputs (request : Request)
    (collection : PgSTACCollection) (itemId : string)
    (ids : option (list string)) (boxes : option (list pyfloat))
    (dates props : option (list string)) (cql : option AstType)
    (sort q : option string) (lim : Z) (off : option string)
    (only : option bool) (tolerance : option pyfloat)
    (output_type : option MediaType) :
  (exists a,
     snd (run (items request collection ids boxes dates props cql sort q lim
                 off only tolerance output_type))
     = [CallFeatures collection a]
     /\ geom_as_wkt a = flat_output (default geojson output_type)
     /\ token a = off /\ limit a = Some lim)
  /\ (id_column collection <> None ->
      exists a,
        snd (run (item request collection itemId only tolerance props
                    output_type))
        = [CallFeatures collection a]
        /\ geom_as_wkt a = flat_output (default geojson output_type)
        /\ token a = None /\ limit a = None /\ bbox_filter a = None
        /\ datetime_filter a = None /\ cql_filter a = None
        /\ sortby a = None /\ query a = None).
Proof.
  split.
  - unfold items. rewrite run_features. eexists. split; [reflexivity|].
    simpl. destruct output_type as [[]|]; repeat split; reflexivity.
  - intros Hpk. unfold item. destruct (id_column collection); [|congruence].
    rewrite run_features. eexists. split; [reflexivity|].
    simpl. destruct output_type as [[]|]; repeat split; reflexivity.
Qed.

(** X6. No handler calls the data layer twice, and an error of the data
    layer is the error of the handler: the item listing and POST search
    make exactly one call, the single-item handler and GET search at most
    one, and when that call raises, the handler raises the same
    exception. *)
Theorem data_layer_errors_propagate (request : Request)
    (collection : PgSTACCollection) (itemId : string)
    (collections ids : option (list string)) (boxes : option (list pyfloat))
    (dates props : option (list string)) (cql : option AstType)
    (sort q : option string) (lim : Z) (off : option string)
    (only : option bool) (tolerance : option pyfloat)
    (output_type : option MediaType) (body : PgSTACSearch) (e : exn) :
  let listing :=
    run (items request collection ids boxes dates props cql sort q lim off
           only tolerance output_type) in
  let single :=
    run (item request collection itemId only tolerance props output_type) in
  let get :=
    run (get_search request collections ids boxes dates props cql sort q lim
           off only tolerance output_type) in
  let post := run (post_search request body output_type) in
  (length (snd listing) = 1
   /\ forall a, snd listing = [CallFeatures collection a] ->
                collection_features collection a = Raise e ->
                fst listing = Raise e)
  /\ (length (snd single) <= 1
      /\ forall a, snd single = [CallFeatures collection a] ->
                   collection_features collection a = Raise e ->
                   fst single = Raise e)
  /\ (length (snd get) <= 1
      /\ forall s, snd get = [CallSearch s] ->
                   pgstac_search s = Raise e -> fst get = Raise e)
  /\ (snd post = [CallSearch body]
      /\ (pgstac_search body = Raise e -> fst post = Raise e)).
Proof.
  intros listing single get post. subst listing single get post.
  split; [|split; [|split]].
  - unfold items. rewrite run_features. split; [reflexivity|].
    intros a [= <-] Hcall. simpl fst. rewrite Hcall. reflexivity.
  - unfold item. destruct (id_column collection).
    + rewrite run_features. split; [simpl; lia|].
      intros a [= <-] Hcall. simpl fst. rewrite Hcall. reflexivity.
    + split; [simpl; lia | discriminate].
  - rewrite run_get_search.
    destruct (search_request _ _ _ _ _ _ _ _ _ _) as [args|];
      [|split; [simpl; lia | discriminate]].
    destruct (model_validate args) as [s'|];
      [|split; [simpl; lia | discriminate]].
    split; [simpl; lia|].
    intros s [= <-] Hcall. simpl fst. rewrite Hcall. reflexivity.
  - unfold post_search. rewrite run_search. split; [reflexivity|].
    intros Hcall. simpl fst. rewrite Hcall. reflexivity.
Qed.

(** X7. GET search searches only with a request that was assembled and
    validated: when the assembly raises, or the validation of the search
    model raises, the handler raises that exception and makes no call to
    the data layer; an invalid datetime is raised before the query text is
    read; otherwise the one call made carries the validated request. *)
Theorem get_search_validates_before_searching (request : Request)
    (collections ids : option (list string)) (boxes : option (list pyfloat))
    (dates props : option (list string)) (cql : option AstType)
    (sort q : option string) (lim : Z) (off : option string)
    (only : option bool) (tolerance : option pyfloat)
    (output_type : option MediaType) :
  let assembled :=
    search_request collections ids boxes dates props cql sort q lim off in
  let outcome :=
    run (get_search request collections ids boxes dates props cql sort q lim
           off only tolerance output_type) in
  (forall e, search_datetime dates = Raise e -> outcome = (Raise e, []))
  /\ (forall e, assembled = Raise e -> outcome = (Raise e, []))
  /\ (forall args e,
        assembled = Ok args -> model_validate args = Raise e ->
        outcome = (Raise e, []))
  /\ (forall args s,
        assembled = Ok args -> model_validate args = Ok s ->
        snd outcome = [CallSearch s])
  /\ (forall s,
        In (CallSearch s) (snd outcome) ->
        exists args, assembled = Ok args /\ model_validate args = Ok s).
Proof.
  intros assembled outcome. subst assembled outcome. rewrite run_get_search.
  split; [|split; [|split; [|split]]].
  - intros e He. unfold search_request. rewrite He. reflexivity.
  - intros e ->. reflexivity.
  - intros args e -> ->. reflexivity.
  - intros args s -> ->. reflexivity.
  - intros s Hin.
    destruct (search_request _ _ _ _ _ _ _ _ _ _) as [args|]; [|destruct Hin].
    destruct (model_validate args) as [s'|] eqn:Hs; [|destruct Hin].
    destruct Hin as [[= <-]|[]]. eauto.
Qed.

(** ** The feature collection document *)

Lemma str_or_spec (x : option string) (y : string) :
  (forall s, x = Some s -> s <> EmptyString -> str_or x y = s)
  /\ (x = None \/ x = Some EmptyString -> str_or x y = y)
  /\ (y <> EmptyString -> str_or x y <> EmptyString).
Proof.
  unfold str_or. split; [|split].
  - intros s -> Hs. destruct s; [congruence | reflexivity].
  - intros [-> | ->]; reflexivity.
  - intros Hy. destruct x as [[|c s]|]; simpl; congruence.
Qed.

(** X8. The FeatureCollection of the item listing counts what it shows:
    numberReturned is the number of its features, which is the number of
    items of the envelope, and numberMatched is the envelope's count; its
    id is the collection's; its title is the collection's title, or the id
    when the title is missing or empty, and its description is the
    collection's, or that title when missing or empty, so that neither is
    empty for a collection with a non-empty id. *)
Theorem feature_collection_counts (request : Request)
    (collection : PgSTACCollection) (output_type : MediaType)
    (item_list : ItemList) (response : Response) :
  items_response request collection output_type item_list = Ok response ->
  is_feature_collection response = true ->
  exists d feats t ds,
    response_data response = Some d
    /\ dget "features" d = PList feats
    /\ length feats = length (items_of item_list)
    /\ dget "numberReturned" d = PInt (Z.of_nat (length feats))
    /\ dget "numberMatched" d = matched item_list
    /\ dget "id" d = PStr (id collection)
    /\ dget "title" d = PStr t
    /\ dget "description" d = PStr ds
    /\ (id collection <> EmptyString -> t <> EmptyString /\ ds <> EmptyString)
    /\ (forall x, title collection = Some x -> x <> EmptyString -> t = x)
    /\ (title collection = None \/ title collection = Some EmptyString ->
        t = id collection)
    /\ (forall x, description collection = Some x -> x <> EmptyString ->
                  ds = x)
    /\ (description collection = None
        \/ description collection = Some EmptyString -> ds = t).
Proof.
  intros H Hfc. unfold items_response in H.
  destruct (str_or_spec (title collection) (id collection)) as (T1 & T2 & T3).
  destruct (str_or_spec (description collection)
              (str_or (title collection) (id collection))) as (D1 & D2 & D3).
  destruct output_type; simpl in H; steps H; injection H as <-;
    try discriminate Hfc;
    (eexists; eexists; eexists; eexists;
     split; [reflexivity|]; split; [reflexivity|];
     split; [apply length_map|];
     split; [simpl; rewrite length_map; reflexivity|];
     split; [reflexivity|]; split; [reflexivity|];
     split; [reflexivity|]; split; [reflexivity|];
     split; [intros Hid; split; [apply T3, Hid | apply D3, T3, Hid]|];
     split; [exact T1|]; split; [exact T2|]; split; [exact D1 | exact D2]).
Qed.

Lemma Forall2_map_image {X Y : Type} (P : X -> Y -> Prop) (g : X -> Y)
    (l : list X) :
  (forall x, P x (g x)) -> Forall2 P l (map g l).
Proof. intros H. induction l; simpl; constructor; auto. Qed.

Lemma mapM_each {X Y : Type} (g : X -> result Y) (l : list X) (ys : list Y) :
  mapM g l = Ok ys -> Forall2 (fun x y => g x = Ok y) l ys.
Proof.
  revert ys. induction l as [|x l IH]; intros ys; simpl.
  - intros [= <-]. constructor.
  - destruct (g x) as [y|] eqn:Hx; simpl; [|discriminate].
    destruct (mapM g l) as [ys'|]; simpl; [|discriminate].
    intros [= <-]. constructor; auto.
Qed.

Lemma decorated_set_links (f : pydict) (links : list pyval) :
  decorated f links (PDict (set "links" (PList links) (of_items f))).
Proof.
  eexists. split; [reflexivity|].
  split; [apply NoDup_set, NoDup_of_items|].
  split; [apply get_set_eq|].
  intros k Hk. rewrite get_set_ne by congruence. apply get_of_items.
Qed.

(** X9. Every feature that a listing response shows, in a document or in
    a GeoJSON stream, is the feature of the envelope at the same position
    with all its fields and with a links field of its own: a collection
    link and an item link, made in the item listing from the path's
    collection and the feature's id, and in the searches from the feature's
    own collection and id; a links field that the feature had is
    replaced. *)
Theorem features_keep_fields_and_gain_links (request : Request)
    (collection : PgSTACCollection) (output_type : MediaType)
    (item_list : ItemList) (response : Response) (feats : list pyval) :
  response_features response = Some feats ->
  (items_response request collection output_type item_list = Ok response ->
   Forall2
     (fun f v =>
        decorated f
          [link "Collection"
                (url_for request "collection"
                         [("collectionId", PStr (id collection))])
                "collection" "application/json";
           link "Item"
                (url_for request "item"
                         [("collectionId", PStr (id collection));
                          ("itemId", dget "id" f)])
                "item" "application/geo+json"] v)
     (items_of item_list) feats)
  /\ (search_response request output_type item_list = Ok response ->
      Forall2
        (fun f v =>
           decorated f
             [link "Collection"
                   (url_for request "collection"
                            [("collectionId", dget "collection" f)])
                   "collection" "application/json";
              link "Item"
                   (url_for request "item"
                            [("collectionId", dget "collection" f);
                             ("itemId", dget "id" f)])
                   "item" "application/geo+json"] v)
        (items_of item_list) feats).
Proof.
  intros Hfeats. split; intros H.
  - unfold items_response in H.
    destruct output_type; simpl in H; steps H; injection H as <-;
      simpl in Hfeats; rewrite ?yielded_iter in Hfeats;
      try discriminate Hfeats; injection Hfeats as <-;
      apply Forall2_map_image; intros f; apply decorated_set_links.
  - unfold search_response in H.
    assert (Hone : forall f v,
               search_feature request f = Ok v ->
               decorated f
                 [link "Collection"
                       (url_for request "collection"
                                [("collectionId", dget "collection" f)])
                       "collection" "application/json";
                  link "Item"
                       (url_for request "item"
                                [("collectionId", dget "collection" f);
                                 ("itemId", dget "id" f)])
                       "item" "application/geo+json"] v).
    { intros f v. unfold search_feature, ditem, dget.
      destruct (get "collection" f); simpl; [|discriminate].
      destruct (get "id" f); simpl; [|discriminate].
      intros [= <-]. apply decorated_set_links. }
    destruct output_type; simpl in H; steps H; injection H as <-;
      simpl in Hfeats; rewrite ?yielded_iter in Hfeats;
      try discriminate Hfeats; injection Hfeats as <-;
      match goal with
      | E : mapM (search_feature request) _ = Ok _ |- _ =>
          apply mapM_each in E;
          eapply Forall2_impl; [exact E | intros f v; apply Hone]
      end.
Qed.

(** ** Features without a collection or an id *)

Lemma search_feature_outcome (request : Request) (f : pydict) :
  (search_item f /\ exists v, search_feature request f = Ok v)
  \/ (~ search_item f
      /\ exists k, search_feature request f = Raise (KeyError k)
                   /\ (k = "collection" \/ k = "id")).
Proof.
  unfold search_item, search_feature, ditem, mem.
  destruct (get "collection" f); simpl.
  - destruct (get "id" f); simpl.
    + left. split; [split; reflexivity | eauto].
    + right. split; [intros [_ H]; discriminate H | eauto].
  - right. split; [intros [H _]; discriminate H | eauto].
Qed.

Lemma mapM_search_feature_raises (request : Request) (l : list pydict) :
  Exists (fun f => ~ search_item f) l ->
  exists k, mapM (search_feature request) l = Raise (KeyError k)
            /\ (k = "collection" \/ k = "id").
Proof.
  induction l as [|f l IH]; intros Hex; [inversion Hex|].
  simpl.
  destruct (search_feature_outcome request f)
    as [[Hok [v ->]] | [_ (k & -> & Hk)]].
  - simpl. inversion Hex as [? ? Hbad|? ? Hrest]; subst; [contradiction|].
    destruct (IH Hrest) as (k & -> & Hk). simpl. eauto.
  - simpl. eauto.
Qed.

(** X10. A search response with features needs each feature's collection
    and id: when the output is GeoJSON, HTML or GeoJSON-sequence and the
    links of the page can be built, an envelope that has a feature without
    a collection key or without an id key makes the search raise KeyError
    for that key; the CSV, JSON and NDJSON outputs read both keys with a
    default and answer for the same envelope. *)
Theorem search_needs_collection_and_id (request : Request)
    (output_type : MediaType) (item_list : ItemList) :
  Exists (fun f => ~ search_item f) (items_of item_list) ->
  (flat_output output_type = false ->
   prev item_list = None \/ In "offset" (map fst (query_params request)) ->
   exists k,
     search_response request output_type item_list = Raise (KeyError k)
     /\ (k = "collection" \/ k = "id"))
  /\ (flat_output output_type = true ->
      Forall has_mapping (items_of item_list) ->
      exists response,
        search_response request output_type item_list = Ok response).
Proof.
  intros Hbad. split.
  - intros Hflat Hok. unfold search_response. rewrite Hflat.
    destruct (page_links_total request (url_for request "get_search" [])
                item_list Hok) as [L ->]. simpl.
    destruct (mapM_search_feature_raises request (items_of item_list) Hbad)
      as (k & -> & Hk).
    simpl. eauto.
  - intros Hflat Hmaps. unfold search_response. rewrite Hflat.
    destruct (mapM_rows (fun f => flat_row (dget "collection" f) f)
                (fun _ _ => True) (items_of item_list)) as (rows & Hrows & _).
    { rewrite List.Forall_forall in Hmaps. intros f Hf.
      destruct (flat_row_flattened (dget "collection" f) f (Hmaps f Hf))
        as (row & Hrow & _). eauto. }
    destruct (rows_response_rows output_type _ _ rows Hflat Hrows)
      as (r & Hr & _).
    cbv zeta. rewrite Hr. eauto.
Qed.

(** ** Links *)

Lemma of_items_nil {V : Type} (q : list (string * V)) :
  of_items q = [] -> q = [].
Proof.
  destruct q as [|[k v] q]; [reflexivity|]. intros H.
  assert (Hin : In k (keys (of_items ((k, v) :: q)))).
  { apply in_keys_of_items. left. reflexivity. }
  rewrite H in Hin. destruct Hin.
Qed.

Lemma qp_truthy_spec (q : QueryParams) :
  qp_truthy q = match q with [] => false | _ :: _ => true end.
Proof.
  unfold qp_truthy, qp_dict. destruct q as [|kv q]; [reflexivity|].
  destruct (of_items (kv :: q)) eqn:E; [|reflexivity].
  apply of_items_nil in E. discriminate E.
Qed.

(** The links of the page are pagination links to the given route, with
    an [offset] among their parameters. *)
Lemma page_links_shape (request : Request) (url : string)
    (item_list : ItemList) (L : list pyval) :
  page_links request url item_list = Ok L ->
  Forall
    (fun l =>
       exists rel title_ P,
         l = page_link rel title_ (url ++ "?" ++ Urllib.urlencode P)
         /\ (rel = "next" \/ rel = "prev")
         /\ In "offset" (map fst P))
    L.
Proof.
  unfold page_links, next_link, prev_link, dict_pop, qp_str, qp_dict.
  intros HL.
  assert (Hoff : forall t (d : dict string),
             In "offset" (map fst (set "offset" t d))).
  { intros t d. apply (get_Some_in "offset" t). apply get_set_eq. }
  destruct (prev item_list) as [tp|].
  - destruct (mem "offset" (of_items (of_items (query_params request))));
      [|discriminate].
    simpl in HL. rewrite prev_params_truthy in HL. unfold qp_of_dict in HL.
    destruct (next item_list) as [[|c tn]|]; simpl in HL; injection HL as <-;
      repeat constructor; eexists _, _, _;
      (split; [reflexivity|]); (split; [auto|]); apply Hoff.
  - destruct (next item_list) as [[|c tn]|]; simpl in HL; injection HL as <-;
      repeat constructor; eexists _, _, _;
      (split; [reflexivity|]); (split; [auto|]); apply Hoff.
Qed.

Lemma filter_none {X : Type} (p : X -> bool) (l : list X) :
  Forall (fun x => p x = false) l -> List.filter p l = [].
Proof.
  induction 1 as [|x l Hx _ IH]; [reflexivity|]. simpl. rewrite Hx. exact IH.
Qed.

Lemma page_links_not_self (request : Request) (url : string)
    (item_list : ItemList) (L : list pyval) :
  page_links request url item_list = Ok L ->
  Forall (fun l => rel_is "self" l = false) L.
Proof.
  intros HL. apply page_links_shape in HL.
  eapply List.Forall_impl; [|exact HL].
  intros l (rel & title_ & P & -> & [-> | ->] & _); reflexivity.
Qed.

(** X11. The FeatureCollection of the item listing has exactly one self
    link: the route of the listing, and, unless the request has no query
    parameter, the query string that encodes every parameter of the
    request, repeated names included, and that reads back as the request's
    parameters. *)
Theorem self_link_keeps_all_parameters (request : Request)
    (collection : PgSTACCollection) (output_type : MediaType)
    (item_list : ItemList) (response : Response) :
  items_response request collection output_type item_list = Ok response ->
  is_feature_collection response = true ->
  let url := url_for request "items" [("collectionId", PStr (id collection))] in
  let q := query_params request in
  exists href,
    List.filter (rel_is "self") (response_links response)
    = [link "Items" href "self" "application/geo+json"]
    /\ (q = [] -> href = url)
    /\ (q <> [] -> href = url ++ "?" ++ Urllib.urlencode q)
    /\ Urllib.parse_qsl (Urllib.urlencode q) = q.
Proof.
  intros H Hfc url q. unfold items_response in H. fold url in H.
  assert (Hhref :
            (q = [] ->
             url ++ (if qp_truthy q then "?" ++ qp_str q else EmptyString)
             = url)
            /\ (q <> [] ->
                url ++ (if qp_truthy q then "?" ++ qp_str q else EmptyString)
                = url ++ "?" ++ Urllib.urlencode q)).
  { rewrite qp_truthy_spec. destruct q; split; try congruence; intros _.
    - apply StripFacts.append_empty_r.
    - reflexivity. }
  destruct output_type; simpl in H; steps H; injection H as <-;
    try discriminate Hfc;
    (eexists; split;
     [ simpl;
       match goal with
       | E : page_links _ _ _ = Ok _ |- _ =>
           rewrite (filter_none _ _ (page_links_not_self _ _ _ _ E))
       end; reflexivity
     | split; [apply Hhref|]; split; [apply Hhref|];
       apply UrllibFacts.parse_qsl_urlencode ]).
Qed.

Lemma items_response_answers (request : Request)
    (collection : PgSTACCollection) (output_type : MediaType)
    (item_list : ItemList) :
  flat_output output_type = false ->
  prev item_list = None \/ In "offset" (map fst (query_params request)) ->
  exists response,
    items_response request collection output_type item_list = Ok response.
Proof.
  intros Hflat Hok. unfold items_response. rewrite Hflat.
  destruct (page_links_total request
              (url_for request "items" [("collectionId", PStr (id collection))])
              item_list Hok) as [L ->].
  simpl. eauto.
Qed.

(** X12. A pagination link of the item listing can be followed: its target
    is the route of the listing with a query string that has an offset
    parameter, so that the listing of the request with this query string
    answers in GeoJSON, HTML and GeoJSON-sequence for every envelope, with
    or without a prev token. *)
Theorem pagination_links_can_be_followed (request : Request)
    (collection : PgSTACCollection) (output_type : MediaType)
    (item_list : ItemList) (response : Response) (l : pyval) :
  items_response request collection output_type item_list = Ok response ->
  In l (response_links response) ->
  rel_is "next" l || rel_is "prev" l = true ->
  exists qs,
    link_href l
    = Some (url_for request "items" [("collectionId", PStr (id collection))]
            ++ "?" ++ qs)
    /\ In "offset" (map fst (query_params (request_of qs)))
    /\ forall other_type envelope,
         flat_output other_type = false ->
         exists answer,
           items_response (request_of qs) collection other_type envelope
           = Ok answer.
Proof.
  intros H Hin Hrel. unfold items_response in H.
  assert (Hshape : forall L,
             page_links request
               (url_for request "items"
                        [("collectionId", PStr (id collection))])
               item_list = Ok L ->
             In l L ->
             exists qs,
               link_href l
               = Some (url_for request "items"
                                [("collectionId", PStr (id collection))]
                       ++ "?" ++ qs)
               /\ In "offset" (map fst (query_params (request_of qs)))
               /\ forall other_type envelope,
                    flat_output other_type = false ->
                    exists answer,
                      items_response (request_of qs) collection other_type
                        envelope = Ok answer).
  { intros L HL HlL. apply page_links_shape in HL.
    rewrite List.Forall_forall in HL.
    destruct (HL l HlL) as (rel & title_ & P & -> & _ & Hoff).
    exists (Urllib.urlencode P). split; [reflexivity|].
    unfold request_of. cbn [query_params].
    rewrite UrllibFacts.parse_qsl_urlencode.
    split; [exact Hoff|].
    intros other_type envelope Hflat.
    apply items_response_answers; [exact Hflat|]. right. cbn [query_params].
    exact Hoff. }
  destruct output_type; simpl in H; steps H; injection H as <-;
    simpl in Hin; try (destruct Hin; fail);
    (destruct Hin as [<-|[<-|Hin]];
     [discriminate Hrel | discriminate Hrel | eapply Hshape; eauto]).
Qed.

End OutputProperties.

(** ** The single item *)

Section ItemProperties.
Import PyDict PyDictFacts.
Context `{B : Boundary}.

(** X13. With GeoJSON, HTML or GeoJSON-sequence output the single-item
    handler answers with one document, a GeoJSON response unless the output
    is HTML: the first feature of the envelope with all its fields and a
    links field of two links, to the collection and, as self, to the item
    route of the item id of the path, not of the feature's own id; a links
    field that the feature had is replaced, and the rest of the envelope
    has no influence. *)
Theorem single_item_document (request : Request)
    (collection : PgSTACCollection) (itemId : string)
    (output_type : MediaType) (item_list : ItemList) (feature : pydict)
    (more : list pydict) :
  items_of item_list = feature :: more ->
  flat_output output_type = false ->
  exists v,
    item_response request collection itemId output_type item_list
    = Ok (if MediaType_eqb output_type html then HTMLResponse v "item"
          else GeoJSONResponse v)
    /\ decorated feature
         [plain_link
            (url_for request "collection"
                     [("collectionId", PStr (id collection))])
            "collection" "application/json";
          plain_link
            (url_for request "item"
                     [("collectionId", PStr (id collection));
                      ("itemId", PStr itemId)])
            "self" "application/geo+json"] v
    /\ forall other more',
         items_of other = feature :: more' ->
         item_response request collection itemId output_type other
         = item_response request collection itemId output_type item_list.
Proof.
  intros Hitems Hflat. unfold item_response. rewrite Hitems, Hflat.
  eexists. split; [|split].
  - destruct output_type; try discriminate Hflat; reflexivity.
  - apply decorated_set_links.
  - intros other more' ->. reflexivity.
Qed.

Lemma item_row_get (cid : pyval) (f p : pydict) (k : string) :
  k <> "geometry" ->
  get k (update (of_items [("collectionId", cid); ("itemId", dget "id" f)]) p)
  = row_source cid f p k.
Proof.
  intros Hk. unfold row_source.
  destruct (String.eqb_spec k "geometry") as [->|_]; [congruence|].
  rewrite get_update. destruct (last_value k p); [reflexivity|]. simpl.
  destruct (String.eqb k "collectionId"); [reflexivity|].
  destruct (String.eqb k "itemId"); reflexivity.
Qed.

(** X14. The row of the single-item handler is not filtered: it has no
    repeated key, and each key other than geometry has the value of the
    feature's property of that name, or without one the collection id for
    collectionId and the feature's own id for itemId, also when that value
    is None, where the row of the item listing for the same feature leaves
    the key out; for a feature without a geometry the row has a geometry
    only if the properties have one. *)
Theorem single_item_row_keeps_none (request : Request)
    (collection : PgSTACCollection) (itemId : string)
    (output_type : MediaType) (item_list : ItemList) (feature : pydict)
    (more : list pydict) (p : pydict) :
  items_of item_list = feature :: more ->
  flat_output output_type = true ->
  dget_or "properties" (PDict []) feature = PDict p ->
  exists response row,
    item_response request collection itemId output_type item_list = Ok response
    /\ emitted_rows response = Some [PDict row]
    /\ List.NoDup (keys row)
    /\ (forall k, k <> "geometry" ->
                  get k row = row_source (PStr (id collection)) feature p k)
    /\ (dget "geometry" feature = PNone ->
        get "geometry" row = last_value "geometry" p)
    /\ (forall k listed,
          k <> "geometry" ->
          row_source (PStr (id collection)) feature p k = Some PNone ->
          flat_row (PStr (id collection)) feature = Ok listed ->
          get k row = Some PNone /\ get k listed = None).
Proof.
  intros Hitems Hflat Hp. unfold item_response. rewrite Hitems, Hflat, Hp.
  cbn [mapping mbind result_bind].
  set (base := update _ p).
  assert (Hbase : List.NoDup (keys base)).
  { apply NoDup_update, NoDup_of_items. }
  assert (Hlisted : forall k listed,
             k <> "geometry" ->
             row_source (PStr (id collection)) feature p k = Some PNone ->
             flat_row (PStr (id collection)) feature = Ok listed ->
             get k listed = None).
  { intros k listed Hk Hsrc Hl.
    destruct (flat_row_flattened (PStr (id collection)) feature
                (ex_intro _ p Hp)) as (row & Hrow & _ & _ & _ & p' & Hp' & Hget).
    rewrite Hl in Hrow. injection Hrow as <-.
    rewrite Hp in Hp'. injection Hp' as <-.
    rewrite Hget, Hsrc. reflexivity. }
  destruct (is_not_None (dget "geometry" feature)) eqn:Hg.
  - rewrite (ditem_dget _ _ Hg). cbn [mbind result_bind mret result_ret].
    assert (Hrow :
              List.NoDup
                (keys (set "geometry" (PTuple [dget "geometry" feature]) base))
              /\ (forall k,
                    k <> "geometry" ->
                    get k (set "geometry" (PTuple [dget "geometry" feature])
                             base)
                    = row_source (PStr (id collection)) feature p k)
              /\ (dget "geometry" feature = PNone ->
                  get "geometry"
                    (set "geometry" (PTuple [dget "geometry" feature]) base)
                  = last_value "geometry" p)
              /\ (forall k listed,
                    k <> "geometry" ->
                    row_source (PStr (id collection)) feature p k = Some PNone ->
                    flat_row (PStr (id collection)) feature = Ok listed ->
                    get k (set "geometry" (PTuple [dget "geometry" feature])
                             base) = Some PNone
                    /\ get k listed = None)).
    { split; [apply NoDup_set, Hbase|].
      split; [intros k Hk; rewrite get_set_ne by congruence;
              apply item_row_get, Hk|].
      split.
      - intros E. rewrite E in Hg. discriminate Hg.
      - intros k listed Hk Hsrc Hl. split; [|eapply Hlisted; eassumption].
        rewrite get_set_ne by congruence. unfold base.
        rewrite item_row_get by exact Hk. exact Hsrc. }
    destruct output_type; try discriminate Hflat; eexists; eexists;
      (split; [reflexivity|]); (split; [reflexivity|]); exact Hrow.
  - cbn [mbind result_bind mret result_ret].
    assert (Hrow :
              List.NoDup (keys base)
              /\ (forall k,
                    k <> "geometry" ->
                    get k base
                    = row_source (PStr (id collection)) feature p k)
              /\ (dget "geometry" feature = PNone ->
                  get "geometry" base = last_value "geometry" p)
              /\ (forall k listed,
                    k <> "geometry" ->
                    row_source (PStr (id collection)) feature p k = Some PNone ->
                    flat_row (PStr (id collection)) feature = Ok listed ->
                    get k base = Some PNone /\ get k listed = None)).
    { split; [exact Hbase|].
      split; [intros k Hk; apply item_row_get, Hk|].
      split.
      - intros _. unfold base. rewrite get_update.
        destruct (last_value "geometry" p); reflexivity.
      - intros k listed Hk Hsrc Hl. split; [|eapply Hlisted; eassumption].
        unfold base. rewrite item_row_get by exact Hk. exact Hsrc. }
    destruct output_type; try discriminate Hflat; eexists; eexists;
      (split; [reflexivity|]); (split; [reflexivity|]); exact Hrow.
Qed.

Lemma mapping_outcome (v : pyval) :
  if is_mapping v then exists p, mapping v = Ok p
  else exists msg, mapping v = Raise (TypeError msg).
Proof. destruct v; simpl; eauto. Qed.

Lemma flat_row_outcome (cid : pyval) (f : pydict) :
  if is_mapping (dget_or "properties" (PDict []) f)
  then exists row, flat_row cid f = Ok row
  else exists msg, flat_row cid f = Raise (TypeError msg).
Proof.
  unfold flat_row.
  generalize (mapping_outcome (dget_or "properties" (PDict []) f)).
  destruct (is_mapping _); intros [x ->]; simpl; eauto.
Qed.

(** The first failure of a pass over a list is of the kind of every
    failure that the pass can have. *)
Lemma mapM_raises {X Y : Type} (g : X -> result Y) (P : exn -> Prop)
    (l : list X) (x : X) :
  (forall y e, g y = Raise e -> P e) ->
  In x l -> (exists e, g x = Raise e) ->
  exists e, mapM g l = Raise e /\ P e.
Proof.
  intros Hkind. induction l as [|y l IH]; intros Hin Hx; [destruct Hin|].
  simpl. destruct (g y) as [r|e] eqn:Hy.
  - destruct Hin as [->|Hin].
    + destruct Hx as [e Hx]. congruence.
    + destruct (IH Hin Hx) as (e & -> & He). simpl. eauto.
  - simpl. eauto using Hkind.
Qed.

Lemma flat_rows_need_mappings (cid : pydict -> pyval) (l : list pydict)
    (f : pydict) :
  In f l ->
  is_mapping (dget_or "properties" (PDict []) f) = false ->
  exists msg, mapM (fun f => flat_row (cid f) f) l = Raise (TypeError msg).
Proof.
  intros Hin Hf.
  destruct (mapM_raises (fun f => flat_row (cid f) f)
              (fun e => exists msg, e = TypeError msg) l f)
    as (e & He & msg & ->).
  - intros y e Hy. generalize (flat_row_outcome (cid y) y).
    destruct (is_mapping (dget_or "properties" (PDict []) y));
      intros [x Hx]; rewrite Hx in Hy;
      [discriminate | injection Hy as <-; eauto].
  - exact Hin.
  - pose proof (flat_row_outcome (cid f) f) as H. rewrite Hf in H.
    destruct H as [msg Hmsg]. eauto.
  - eauto.
Qed.

(** X15. The properties of a feature must be a mapping only where they are
    flattened: for a feature whose properties are some other value the
    single-item handler fails with a TypeError in CSV, JSON and NDJSON and
    answers in GeoJSON, HTML and GeoJSON-sequence, and the JSON output of
    the item listing and of the searches fails with a TypeError as soon as
    the envelope holds such a feature. *)
Theorem properties_must_be_a_mapping (request : Request)
    (collection : PgSTACCollection) (itemId : string) (item_list : ItemList)
    (feature : pydict) :
  is_mapping (dget_or "properties" (PDict []) feature) = false ->
  (forall more output_type,
     items_of item_list = feature :: more ->
     (flat_output output_type = true ->
      exists msg,
        item_response request collection itemId output_type item_list
        = Raise (TypeError msg))
     /\ (flat_output output_type = false ->
         exists response,
           item_response request collection itemId output_type item_list
           = Ok response))
  /\ (In feature (items_of item_list) ->
      (exists msg,
         items_response request collection json item_list
         = Raise (TypeError msg))
      /\ (exists msg,
            search_response request json item_list = Raise (TypeError msg))).
Proof.
  intros Hf. split.
  - intros more output_type Hitems. split; intros Hflat.
    + unfold item_response. rewrite Hitems, Hflat.
      pose proof (mapping_outcome (dget_or "properties" (PDict []) feature))
        as H.
      rewrite Hf in H. destruct H as [msg ->]. simpl. eauto.
    + unfold item_response. rewrite Hitems, Hflat.
      destruct output_type; try discriminate Hflat; simpl; eauto.
  - intros Hin. split.
    + unfold items_response. simpl.
      destruct (flat_rows_need_mappings (fun _ => PStr (id collection))
                  (items_of item_list) feature Hin Hf) as [msg Hmsg].
      change (mapM (flat_row (PStr (id collection))) (items_of item_list)
              = Raise (TypeError msg)) in Hmsg.
      rewrite list_of_gen, Hmsg. simpl. eauto.
    + unfold search_response. simpl.
      destruct (flat_rows_need_mappings (fun f => dget "collection" f)
                  (items_of item_list) feature Hin Hf) as [msg Hmsg].
      rewrite list_of_gen, Hmsg. simpl. eauto.
Qed.

End ItemProperties.

(** ** The assembled search request *)

Section RequestProperties.
Import PyStr PyDict PyDictFacts.
Context `{B : Boundary}.

Lemma in_keys_filter_values {V : Type} (keep : V -> bool) (k : string)
    (d : dict V) :
  In k (keys (filter_values keep d)) -> In k (keys d).
Proof.
  unfold keys, filter_values. intros H. apply in_map_iff in H.
  destruct H as [[k' v] [<- H]]. apply filter_In in H.
  apply in_map_iff. exists (k', v). tauto.
Qed.

Lemma base_args_fields (collections ids : option (list string))
    (boxes : option (list pyfloat)) (datetime : option string)
    (props : option (list string)) (cql : option AstType)
    (sort : option string) (q : pyval) (lim : Z) (off : option string)
    (args : pydict) :
  base_args collections ids boxes datetime props cql sort q lim off = Ok args ->
  (forall k, In k (keys args) -> In k search_fields)
  /\ match cql with
     | Some f =>
         if ast_truthy f then
           exists v,
             json_loads (to_cql2 f) = Ok v
             /\ get "filter" args = Some v
             /\ get "filter-lang" args = Some (PStr "cql2-json")
         else get "filter" args = None /\ get "filter-lang" args = None
     | None => get "filter" args = None /\ get "filter-lang" args = None
     end.
Proof.
  unfold base_args, search_fields. intros Hargs.
  destruct cql as [f|];
    [destruct (ast_truthy f);
     [destruct (json_loads (to_cql2 f)) as [v|e]; [|discriminate]|]|];
    unfold mbind, result_bind, mret, result_ret in Hargs;
    cbv beta iota in Hargs; injection Hargs as <-;
    (destruct datetime as [d|]; [destruct (truthy d)|]);
    (destruct sort as [s|]; [destruct (truthy s)|]);
    destruct props as [[|x props]|];
    (split; [intros k Hk; simpl in Hk |- *; tauto|]);
    try (exists v; split; [reflexivity|]); split; reflexivity.
Qed.

Lemma base_args_falsy_filter (collections ids : option (list string))
    (boxes : option (list pyfloat)) (datetime : option string)
    (props : option (list string)) (f : AstType) (sort : option string)
    (q : pyval) (lim : Z) (off : option string) :
  ast_truthy f = false ->
  base_args collections ids boxes datetime props (Some f) sort q lim off
  = base_args collections ids boxes datetime props None sort q lim off.
Proof. intros Hf. unfold base_args. rewrite Hf. reflexivity. Qed.

(** X16. GET search tests the filter for truth.  A filter that is true is
    translated to CQL2 JSON and parsed: the request then always names the
    filter language cql2-json, and has the parsed filter as its filter
    unless that is None or an empty list, and when the parsing fails the
    handler raises that error without searching.  A filter that is false,
    such as the literal false, is ignored as if none were given: it is not
    translated, and the request and the outcome of the handler are those
    without a filter, where the request has neither field. *)
Theorem search_filter_and_language (request : Request)
    (collections ids : option (list string)) (boxes : option (list pyfloat))
    (dates props : option (list string)) (f : AstType)
    (sort q : option string) (lim : Z) (off : option string)
    (only : option bool) (tolerance : option pyfloat)
    (output_type : option MediaType) :
  (ast_truthy f = true ->
   (forall args,
      search_request collections ids boxes dates props (Some f) sort q lim off
      = Ok args ->
      get "filter-lang" args = Some (PStr "cql2-json")
      /\ exists v, json_loads (to_cql2 f) = Ok v /\ get "filter" args = kept v)
   /\ (forall e datetime qv,
         search_datetime dates = Ok datetime -> search_query q = Ok qv ->
         json_loads (to_cql2 f) = Raise e ->
         run (get_search request collections ids boxes dates props (Some f)
                sort q lim off only tolerance output_type)
         = (Raise e, [])))
  /\ (ast_truthy f = false ->
      search_request collections ids boxes dates props (Some f) sort q lim off
      = search_request collections ids boxes dates props None sort q lim off
      /\ run (get_search request collections ids boxes dates props (Some f)
                sort q lim off only tolerance output_type)
         = run (get_search request collections ids boxes dates props None
                  sort q lim off only tolerance output_type))
  /\ (forall args,
        search_request collections ids boxes dates props None sort q lim off
        = Ok args ->
        get "filter" args = None /\ get "filter-lang" args = None).
Proof.
  split; [|split].
  - intros Hf. split.
    + intros args Hreq.
      destruct (search_request_inv _ _ _ _ _ _ _ _ _ _ _ Hreq)
        as (datetime & qv & base & _ & _ & Hbase & ->).
      destruct (base_args_inv _ _ _ _ _ _ _ _ _ _ _ Hbase) as (Hnd & _).
      destruct (base_args_fields _ _ _ _ _ _ _ _ _ _ _ Hbase) as (_ & Hfields).
      rewrite Hf in Hfields. destruct Hfields as (v & Hv & Hfl & Hl).
      rewrite !get_clean by exact Hnd. rewrite Hfl, Hl.
      split; [reflexivity | eauto].
    + intros e datetime qv Hdt Hq He. rewrite run_get_search.
      unfold search_request, base_args. rewrite Hdt, Hq, Hf. simpl.
      rewrite He. reflexivity.
  - intros Hf.
    assert (Hreq : search_request collections ids boxes dates props (Some f)
                     sort q lim off
                   = search_request collections ids boxes dates props None
                       sort q lim off).
    { unfold search_request.
      destruct (search_datetime dates) as [datetime|]; [|reflexivity].
      destruct (search_query q) as [qv|]; [|reflexivity]. simpl.
      rewrite (base_args_falsy_filter _ _ _ _ _ f _ _ _ _ Hf). reflexivity. }
    split; [exact Hreq|]. rewrite !run_get_search, Hreq. reflexivity.
  - intros args Hreq.
    destruct (search_request_inv _ _ _ _ _ _ _ _ _ _ _ Hreq)
      as (datetime & qv & base & _ & _ & Hbase & ->).
    destruct (base_args_inv _ _ _ _ _ _ _ _ _ _ _ Hbase) as (Hnd & _).
    destruct (base_args_fields _ _ _ _ _ _ _ _ _ _ _ Hbase) as (_ & Hf & Hl).
    rewrite !get_clean by exact Hnd. rewrite Hf, Hl. split; reflexivity.
Qed.

Lemma search_datetime_joined (dates : option (list string))
    (datetime : option string) :
  search_datetime dates = Ok datetime ->
  datetime
  = match dates with
    | None | Some [] => None
    | Some parts => Some (join "/" parts)
    end.
Proof.
  unfold search_datetime. destruct dates as [[|d0 parts]|].
  - intros [= <-]. reflexivity.
  - destruct parts as [|d1 [|d2 parts]]; simpl.
    + intros [= <-]. reflexivity.
    + destruct (interval_end d0) as [[s|]|]; simpl; try discriminate;
        (destruct (interval_end d1) as [[e|]|]; simpl; try discriminate);
        try (destruct (e <? s)%Z; simpl; try discriminate);
        intros [= <-]; reflexivity.
    + intros [= <-]. reflexivity.
  - intros [= <-]. reflexivity.
Qed.

Lemma truthy_spec (s : string) : truthy s = true <-> s <> EmptyString.
Proof. destruct s; simpl; split; congruence. Qed.

(** X17. The request that GET search assembles has only fields of the
    search model, each once, and always a limit; it has a datetime exactly
    when the datetime parameter has parts whose joining with a slash is not
    empty, and that text is the datetime; it has a sortby exactly when the
    sortby parameter is a non-empty text that gives at least one sort
    entry, and these entries are the sortby. *)
Theorem search_request_known_fields
    (collections ids : option (list string)) (boxes : option (list pyfloat))
    (dates props : option (list string)) (cql : option AstType)
    (sort q : option string) (lim : Z) (off : option string) (args : pydict) :
  search_request collections ids boxes dates props cql sort q lim off
  = Ok args ->
  List.NoDup (keys args)
  /\ (forall k, In k (keys args) -> In k search_fields)
  /\ In "limit" (keys args)
  /\ (forall v,
        get "datetime" args = Some v <->
        exists parts,
          dates = Some parts /\ join "/" parts <> EmptyString
          /\ v = PStr (join "/" parts))
  /\ (forall v,
        get "sortby" args = Some v <->
        exists s,
          sort = Some s /\ s <> EmptyString /\ sort_param s <> []
          /\ v = PList (sort_param s)).
Proof.
  intros Hreq.
  destruct (search_request_inv _ _ _ _ _ _ _ _ _ _ _ Hreq)
    as (datetime & qv & base & Hdt & _ & Hbase & ->).
  destruct (base_args_inv _ _ _ _ _ _ _ _ _ _ _ Hbase)
    as (Hnd & _ & _ & _ & Hlim & _ & _ & Hd & Hs & _).
  destruct (base_args_fields _ _ _ _ _ _ _ _ _ _ _ Hbase) as (Hkeys & _).
  apply search_datetime_joined in Hdt.
  split; [apply NoDup_filter_values, Hnd|].
  split; [intros k Hk; apply Hkeys; eapply in_keys_filter_values, Hk|].
  split.
  { apply (get_Some_in "limit" (PInt (limit_or_default lim))).
    rewrite get_clean by exact Hnd. rewrite Hlim. reflexivity. }
  split; intros v; rewrite get_clean by exact Hnd.
  - rewrite Hd, Hdt. clear. destruct dates as [[|d0 parts]|].
    + split; [discriminate|]. intros (parts & [= <-] & Hne & _).
      exfalso. apply Hne. reflexivity.
    + destruct (truthy (join "/" (d0 :: parts))) eqn:Ht.
      * split.
        -- intros [= <-]. exists (d0 :: parts).
           split; [reflexivity|]. split; [|reflexivity].
           apply truthy_spec, Ht.
        -- intros (parts' & [= <-] & _ & ->). reflexivity.
      * split; [discriminate|]. intros (parts' & [= <-] & Hne & _).
        apply truthy_spec in Hne. congruence.
    + split; [discriminate|]. intros (parts & Hp & _). discriminate Hp.
  - rewrite Hs. clear. destruct sort as [s|].
    + destruct (truthy s) eqn:Ht.
      * unfold kept.
        destruct (sort_param s) as [|x l] eqn:Hsp; simpl.
        -- split; [discriminate|]. intros (s' & [= <-] & _ & Hne & _).
           rewrite Hsp in Hne. congruence.
        -- split.
           ++ intros [= <-]. exists s. split; [reflexivity|].
              split; [apply truthy_spec, Ht|]. rewrite Hsp.
              split; [discriminate | reflexivity].
           ++ intros (s' & [= <-] & _ & _ & ->). rewrite Hsp. reflexivity.
      * split; [discriminate|]. intros (s' & [= <-] & Hne & _).
        apply truthy_spec in Hne. congruence.
    + split; [discriminate|]. intros (s' & Hp & _). discriminate Hp.
Qed.

(** X18. Only a datetime of two parts is checked as an interval: a
    datetime of one part, or of three and more, is never parsed or
    refused, and its parts joined with a slash are the datetime, from which
    the parts can be read back when none of them holds a slash; in a
    datetime of two parts a start that is not an open end is parsed first,
    then such an end, and the first parsing that fails is the error. *)
Theorem datetime_checked_only_as_interval (parts : list string) :
  (length parts <> 2 ->
   search_datetime (Some parts)
   = Ok (match parts with [] => None | _ :: _ => Some (join "/" parts) end))
  /\ (forall joined,
        search_datetime (Some parts) = Ok (Some joined) ->
        joined = join "/" parts
        /\ (Forall (fun p => has_char "/" p = false) parts ->
            split "/" joined = parts))
  /\ (forall d0 d1 e,
        parts = [d0; d1] ->
        (open_end d0 = false /\ parse_rfc3339 d0 = Raise e)
        \/ ((open_end d0 = true \/ exists t, parse_rfc3339 d0 = Ok t)
            /\ open_end d1 = false /\ parse_rfc3339 d1 = Raise e) ->
        search_datetime (Some parts) = Raise e).
Proof.
  split; [|split].
  - intros Hlen. destruct parts as [|d0 [|d1 [|d2 parts]]]; try reflexivity.
    simpl in Hlen. congruence.
  - intros joined Hdt. pose proof (search_datetime_joined _ _ Hdt) as Hj.
    destruct parts as [|d0 parts]; [discriminate Hj|].
    assert (joined = join "/" (d0 :: parts)) as -> by congruence.
    split; [reflexivity|].
    intros Hall.
    apply (PyStrFacts.split_join "/" (d0 :: parts)); [discriminate | exact Hall].
  - intros d0 d1 e -> Hfail. unfold search_datetime, interval_end.
    destruct Hfail as [[H0 He] | [H0 [H1 He]]].
    + rewrite H0, He. reflexivity.
    + rewrite H1, He.
      destruct H0 as [-> | [t Ht]]; [reflexivity|].
      destruct (open_end d0); [reflexivity|]. rewrite Ht. reflexivity.
Qed.

Lemma get_map_values {V W : Type} (g : V -> W) (k : string) (d : dict V) :
  get k (map (fun kv => (fst kv, g (snd kv))) d) = option_map g (get k d).
Proof.
  induction d as [|[k' v] d IH]; simpl; [reflexivity|].
  destruct (String.eqb k k'); [reflexivity | exact IH].
Qed.

Lemma keys_map_values {V W : Type} (g : V -> W) (d : dict V) :
  keys (map (fun kv => (fst kv, g (snd kv))) d) = keys d.
Proof. unfold keys. rewrite map_map. reflexivity. Qed.

Lemma mapM_length {X Y : Type} (g : X -> result Y) (l : list X)
    (ys : list Y) :
  mapM g l = Ok ys -> length ys = length l.
Proof.
  revert ys. induction l as [|x l IH]; intros ys; simpl.
  - intros [= <-]. reflexivity.
  - destruct (g x) as [y|]; simpl; [|discriminate].
    destruct (mapM g l) as [ys'|]; simpl; [|discriminate].
    intros [= <-]. simpl. f_equal. apply IH. reflexivity.
Qed.

(** X19. The FeatureCollection of a search counts what it shows, as the
    one of the item listing does, and has no id and no title; its
    description is the JSON text of the query parameters as a mapping, each
    name once with the last value that the request gives it; and its links
    are at most two, each a next or a prev link: a search result has no
    self link. *)
Theorem search_document (request : Request) (output_type : MediaType)
    (item_list : ItemList) (response : Response) :
  search_response request output_type item_list = Ok response ->
  is_feature_collection response = true ->
  exists d feats m,
    response_data response = Some d
    /\ dget "features" d = PList feats
    /\ length feats = length (items_of item_list)
    /\ dget "numberReturned" d = PInt (Z.of_nat (length feats))
    /\ dget "numberMatched" d = matched item_list
    /\ get "id" d = None /\ get "title" d = None
    /\ dget "description" d = PStr (json_dumps (PDict m))
    /\ List.NoDup (keys m)
    /\ (forall k,
          get k m = option_map PStr (last_value k (query_params request)))
    /\ (length (response_links response) <= 2)%nat
    /\ Forall (fun l => rel_is "next" l || rel_is "prev" l = true)
         (response_links response).
Proof.
  intros H Hfc. unfold search_response in H.
  assert (Hm : List.NoDup
                 (keys (map (fun kv => (fst kv, PStr (snd kv)))
                          (of_items (qp_dict (query_params request)))))
               /\ forall k,
                    get k (map (fun kv => (fst kv, PStr (snd kv)))
                             (of_items (qp_dict (query_params request))))
                    = option_map PStr (last_value k (query_params request))).
  { split.
    - rewrite keys_map_values. apply NoDup_of_items.
    - intros k. rewrite get_map_values. unfold qp_dict.
      rewrite of_items_of_items, get_of_items. reflexivity. }
  assert (Hlinks : forall L,
             page_links request (url_for request "get_search" []) item_list
             = Ok L ->
             (length L <= 2)%nat
             /\ Forall (fun l => rel_is "next" l || rel_is "prev" l = true) L).
  { intros L HL. split.
    - revert HL. unfold page_links, next_link, prev_link.
      destruct (prev item_list) as [tp|].
      + destruct (dict_pop _ _); simpl; [|discriminate].
        intros [= <-]. rewrite length_app.
        destruct (next item_list) as [tn|]; [destruct (truthy tn)|];
          simpl; lia.
      + simpl. intros [= <-]. rewrite length_app.
        destruct (next item_list) as [tn|]; [destruct (truthy tn)|];
          simpl; lia.
    - apply page_links_shape in HL. eapply List.Forall_impl; [|exact HL].
      intros l (rel & title_ & P & -> & [-> | ->] & _); reflexivity. }
  destruct Hm as [Hm1 Hm2].
  destruct output_type; simpl in H;
    repeat match type of H with
           | context [list_of (gen ?g ?l)] => rewrite (list_of_gen g l) in H
           | context [page_links ?r ?u ?i] =>
               let E := fresh "HL" in
               destruct (page_links r u i) eqn:E; simpl in H;
               [|discriminate H]
           | context [mapM ?g ?l] =>
               let E := fresh "HF" in
               destruct (mapM g l) eqn:E; simpl in H; [|discriminate H]
           end;
    injection H as <-; try discriminate Hfc;
    (eexists; eexists; eexists;
     split; [reflexivity|]; split; [reflexivity|];
     split; [eapply mapM_length; eassumption|];
     split;
     [match goal with
      | E : mapM _ _ = Ok _ |- _ => rewrite <- (mapM_length _ _ _ E)
      end; reflexivity|];
     split; [reflexivity|]; split; [reflexivity|]; split; [reflexivity|];
     split; [reflexivity|]; split; [exact Hm1|]; split; [exact Hm2|];
     apply Hlinks; reflexivity).
Qed.

End RequestProperties.

(** ** The further properties on the reference boundary *)

Section FurtherExamples.
Import Reference.


Lemma output_type_decides_response_witness :
  exists response,
    items_response (B := fixed None None) first_page a_collection csv
      (page None None) = Ok response
    /\ is_rows response = true
    /\ is_feature_collection response = false.
Proof.
  eexists.
  destruct (output_type_decides_response (B := fixed None None) first_page
              a_collection csv (page None None) _ (or_introl eq_refl))
    as (Hrows & Hfc & _).
  split; [reflexivity|]. split; [exact Hrows | exact Hfc].
Defined.

Lemma feature_collection_counts_witness :
  exists response d feats,
    items_response (B := fixed None None) first_page a_collection geojson
      (page None None) = Ok response
    /\ response_data response = Some d
    /\ dget "features" d = PList feats
    /\ dget "numberReturned" d = PInt 1
    /\ dget "title" d = PStr "c1".
Proof.
  eexists.
  destruct (feature_collection_counts (B := fixed None None) first_page
              a_collection geojson (page None None) _ eq_refl eq_refl)
    as (d & feats & t & ds & Hd & Hf & Hlen & Hret & _ & _ & Ht & _ & _ & _
        & Hid & _).
  exists d, feats. split; [reflexivity|]. split; [exact Hd|].
  split; [exact Hf|]. split.
  - rewrite Hret, Hlen. reflexivity.
  - rewrite Ht, (Hid (or_introl eq_refl)). reflexivity.
Defined.

Lemma features_keep_fields_and_gain_links_witness :
  exists response feats,
    search_response (B := fixed None None) first_page geojsonseq
      (page None None) = Ok response
    /\ response_features response = Some feats
    /\ Forall2
         (fun f v =>
            decorated f
              [link "Collection"
                    (route_url first_page "collection"
                               [("collectionId", dget "collection" f)])
                    "collection" "application/json";
               link "Item"
                    (route_url first_page "item"
                               [("collectionId", dget "collection" f);
                                ("itemId", dget "id" f)])
                    "item" "application/geo+json"] v)
         [one_item] feats.
Proof.
  eexists. eexists. split; [reflexivity|].
  match goal with
  | |- response_features ?r = Some _ /\ _ =>
      split; [reflexivity|];
      match goal with
      | |- Forall2 _ _ ?fs =>
          exact (proj2 (features_keep_fields_and_gain_links
                          (B := fixed None None) first_page a_collection
                          geojsonseq (page None None) r fs eq_refl) eq_refl)
      end
  end.
Defined.

Lemma search_needs_collection_and_id_witness :
  (exists k,
     search_response (B := fixed None None) first_page geojson
       (envelope [[("id", PStr "i1")]]) = Raise (KeyError k))
  /\ exists response,
       search_response (B := fixed None None) first_page csv
         (envelope [[("id", PStr "i1")]]) = Ok response.
Proof.
  assert (Hbad : Exists (fun f => ~ search_item f)
                   (items_of (envelope [[("id", PStr "i1")]]))).
  { constructor. intros [H _]. discriminate H. }
  split.
  - destruct (search_needs_collection_and_id (B := fixed None None)
                first_page geojson (envelope [[("id", PStr "i1")]]) Hbad)
      as [Hgeo _].
    destruct (Hgeo eq_refl (or_introl eq_refl)) as (k & Hk & _).
    exists k. exact Hk.
  - destruct (search_needs_collection_and_id (B := fixed None None)
                first_page csv (envelope [[("id", PStr "i1")]]) Hbad)
      as [_ Hcsv].
    apply (Hcsv eq_refl). constructor; [|constructor].
    exists []. reflexivity.
Defined.

Lemma self_link_keeps_all_parameters_witness :
  exists response,
    items_response (B := fixed None None) repeated a_collection geojson
      (page None None) = Ok response
    /\ List.filter (rel_is "self") (response_links response)
       = [link "Items" "http://api/items/c1?ids=a&ids=b" "self"
               "application/geo+json"].
Proof.
  eexists.
  destruct (self_link_keeps_all_parameters (B := fixed None None) repeated
              a_collection geojson (page None None) _ eq_refl eq_refl)
    as (href & Hself & _ & Hq & _).
  split; [reflexivity|]. rewrite Hself, Hq by discriminate. reflexivity.
Defined.

Lemma pagination_links_can_be_followed_witness :
  exists response l,
    items_response (B := fixed (Some "T") None) first_page a_collection
      geojson (page (Some "T") None) = Ok response
    /\ In l (response_links response)
    /\ exists qs answer,
         link_href l = Some ("http://api/items/c1" ++ "?" ++ qs)
         /\ items_response (B := fixed (Some "T") None) (request_of qs)
              a_collection geojson (page None (Some "P")) = Ok answer.
Proof.
  eexists.
  exists (page_link "next" "Next page" "http://api/items/c1?limit=10&offset=T").
  split; [reflexivity|].
  match goal with
  | |- In ?l (response_links ?r) /\ _ =>
      assert (Hin : In l (response_links r))
        by (right; right; left; reflexivity);
      destruct (pagination_links_can_be_followed (B := fixed (Some "T") None)
                  first_page a_collection geojson (page (Some "T") None) r l
                  eq_refl Hin eq_refl) as (qs & Hhref & _ & Hfollow)
  end.
  split; [exact Hin|].
  destruct (Hfollow geojson (page None (Some "P")) eq_refl) as [answer Ha].
  exists qs, answer. split; [exact Hhref | exact Ha].
Defined.

Lemma single_item_document_witness :
  exists v,
    item_response (B := fixed None None) first_page a_collection "other"
      geojsonseq (page None None) = Ok (GeoJSONResponse v)
    /\ decorated one_item
         [plain_link "http://api/collection/c1" "collection"
                     "application/json";
          plain_link "http://api/item/c1/other" "self"
                     "application/geo+json"] v.
Proof.
  destruct (single_item_document (B := fixed None None) first_page
              a_collection "other" geojsonseq (page None None) one_item []
              eq_refl eq_refl) as (v & Hv & Hdec & _).
  exists v. split; [exact Hv | exact Hdec].
Defined.

Lemma single_item_row_keeps_none_witness :
  exists response row listed,
    item_response (B := fixed None None) first_page a_collection "i1" json
      (page None None) = Ok response
    /\ emitted_rows response = Some [PDict row]
    /\ flat_row (PStr "c1") one_item = Ok listed
    /\ PyDict.get "title" row = Some PNone
    /\ PyDict.get "title" listed = None.
Proof.
  destruct (single_item_row_keeps_none (B := fixed None None) first_page
              a_collection "i1" json (page None None) one_item [] _
              eq_refl eq_refl eq_refl)
    as (response & row & Hr & Hem & _ & _ & _ & Hnone).
  exists response, row. eexists.
  split; [exact Hr|]. split; [exact Hem|]. split; [reflexivity|].
  apply Hnone; [discriminate | reflexivity | reflexivity].
Defined.

Lemma properties_must_be_a_mapping_witness :
  (exists msg,
     item_response (B := fixed None None) first_page a_collection "i1" csv
       (envelope [without_mapping "text"]) = Raise (TypeError msg))
  /\ (exists response,
        item_response (B := fixed None None) first_page a_collection "i1"
          geojson (envelope [without_mapping "text"]) = Ok response)
  /\ (exists msg,
        items_response (B := fixed None None) first_page a_collection json
          (envelope [one_item; without_mapping "text"])
        = Raise (TypeError msg)).
Proof.
  split; [|split].
  - destruct (properties_must_be_a_mapping (B := fixed None None) first_page
                a_collection "i1" (envelope [without_mapping "text"])
                (without_mapping "text") eq_refl) as [Hitem _].
    apply (Hitem [] csv eq_refl). reflexivity.
  - destruct (properties_must_be_a_mapping (B := fixed None None) first_page
                a_collection "i1" (envelope [without_mapping "text"])
                (without_mapping "text") eq_refl) as [Hitem _].
    apply (Hitem [] geojson eq_refl). reflexivity.
  - destruct (properties_must_be_a_mapping (B := fixed None None) first_page
                a_collection "i1"
                (envelope [one_item; without_mapping "text"])
                (without_mapping "text") eq_refl) as [_ Hlist].
    apply Hlist. right. left. reflexivity.
Defined.

Lemma search_filter_and_language_witness :
  search_request (B := literals) None None None None None (Some false) None
    None 0 None
  = Ok [("limit", PInt 10)]
  /\ exists args,
       search_request (B := literals) None None None None None (Some true)
         None None 0 None = Ok args
       /\ PyDict.get "filter-lang" args = Some (PStr "cql2-json")
       /\ PyDict.get "filter" args = Some (PStr "true").
Proof.
  split.
  - destruct (search_filter_and_language (B := literals) first_page None None
                None None None false None None 0%Z None None None None)
      as (_ & Hfalse & _).
    destruct (Hfalse eq_refl) as [Hreq _]. exact (eq_trans Hreq eq_refl).
  - eexists. split; [reflexivity|].
    destruct (search_filter_and_language (B := literals) first_page None None
                None None None true None None 0%Z None None None None)
      as (Htrue & _).
    destruct (Htrue eq_refl) as [Hargs _].
    destruct (Hargs _ eq_refl) as (Hlang & v & Hv & Hfilter).
    split; [exact Hlang|]. rewrite Hfilter.
    injection Hv as <-. reflexivity.
Defined.

Lemma search_request_known_fields_witness :
  exists args,
    search_request (B := fixed None None) None None None
      (Some ["2024-01-01T00:00:00Z"; ".."]) None None (Some "-datetime")
      None 0 None = Ok args
    /\ In "limit" (PyDict.keys args)
    /\ PyDict.get "datetime" args = Some (PStr "2024-01-01T00:00:00Z/..")
    /\ PyDict.get "sortby" args = Some (PList [sort_entry "datetime" "desc"]).
Proof.
  eexists. split; [reflexivity|].
  destruct (search_request_known_fields (B := fixed None None) None None None
              (Some ["2024-01-01T00:00:00Z"; ".."]) None None
              (Some "-datetime") None 0 None _ eq_refl)
    as (_ & _ & Hlim & Hdt & Hsort).
  split; [exact Hlim|]. split.
  - apply Hdt. exists ["2024-01-01T00:00:00Z"; ".."].
    split; [reflexivity|]. split; [discriminate | reflexivity].
  - apply Hsort. exists "-datetime".
    split; [reflexivity|]. split; [discriminate|].
    split; [discriminate | reflexivity].
Defined.

Lemma search_document_witness :
  exists response d m,
    search_response (B := fixed None None) repeated geojson (page None None)
    = Ok response
    /\ response_data response = Some d
    /\ dget "description" d = PStr (dumps_text (PDict m))
    /\ PyDict.get "ids" m = Some (PStr "b").
Proof.
  eexists.
  destruct (search_document (B := fixed None None) repeated geojson
              (page None None) _ eq_refl eq_refl)
    as (d & feats & m & Hd & _ & _ & _ & _ & _ & _ & Hdesc & _ & Hm & _).
  exists d, m. split; [reflexivity|]. split; [exact Hd|].
  split; [exact Hdesc|]. rewrite Hm. reflexivity.
Defined.

End FurtherExamples.
